(** * interstate: wire codec, leader and follower nodes, append-only log

    A shallow embedding of the replication core of [dstreet/interstate]
      - [messages.go]: the three wire messages and their codec,
      - [leader.go] and [utils.go]: [NewLeaderNode], [write],
        [handleClientRequest], [syncRequests], [handleConnection],
      - the follower node: [handleMessage] and [Write],
      - [version.go] and [interstate.go]: [Update] on a handle, [Current]
        and [Write] of the State,
      - package [memory] and [appendonly/datastore.go]: the two datastores,
    and the properties the specification states about them.

    Conventions.
      - [uint64], [uint16], [int16] and [int64] values are integers of [Z];
        every conversion and every wrap-around of the source is written out.
        [int] is 64 bits wide.
      - A [[]byte] is a [list byte] whose capacity equals its length, as for
        the slices the readers allocate with [make]; a [nil] slice is [[]].
      - A run-time panic of Go (index out of range, nil dereference, negative
        [make]) is the outcome [Panics].
      - A method is a function from the state of its receiver, and of the
        file system where it uses it, to its results and the state after.
        The runs are sequential: mutexes play no part, a goroutine that
        sends on a channel is the value appended to that channel, and the
        blocking receive of the follower's [Write] is the point where the
        response comes in as a parameter.
      - [fmt.Println] and [fmt.Printf] leave no trace. *)

From Stdlib Require Import ZArith Lia.
From Stdlib Require Import Strings.Byte.
From stdpp Require Import base option list strings gmap.

Local Open Scope Z_scope.

(** ** Machine integers *)

Definition wrap (bits : Z) (z : Z) : Z := z mod 2 ^ bits.

Definition is_u16 (z : Z) : Prop := 0 <= z < 2 ^ 16.
Definition is_u64 (z : Z) : Prop := 0 <= z < 2 ^ 64.
Definition is_i16 (z : Z) : Prop := - 2 ^ 15 <= z < 2 ^ 15.

(** [uint16(x)] and [uint64(x)]: keep the low bits. *)
Definition uint16 (z : Z) : Z := wrap 16 z.
Definition uint64 (z : Z) : Z := wrap 64 z.

(** [int16(x)] and [int64(x)]: keep the low bits, read them in two's
    complement. *)
Definition int16 (z : Z) : Z :=
  let u := wrap 16 z in if u <? 2 ^ 15 then u else u - 2 ^ 16.
Definition int64 (z : Z) : Z :=
  let u := wrap 64 z in if u <? 2 ^ 63 then u else u - 2 ^ 64.

(** ** Bytes *)

Definition Z_of_byte (b : byte) : Z := Z.of_N (Byte.to_N b).

(** [byte(x)]: the low eight bits. *)
Definition byte_of_Z (z : Z) : byte :=
  default "000"%byte (Byte.of_N (Z.to_N (Z.land z 255))).

(** ** [encoding/binary], big-endian *)

(** [binary.BigEndian.PutUint16/PutUint64] and [binary.Append] of an integer
    of [n] bytes: byte [i] holds [byte(v >> 8*(n-1-i))]. *)
Fixpoint be_put (n : nat) (v : Z) : list byte :=
  match n with
  | O => []
  | S n' => byte_of_Z (Z.shiftr v (8 * Z.of_nat n')) :: be_put n' v
  end.

(** [binary.BigEndian.Uint16/Uint64] on a slice of exactly the field's
    width: [b[0] << 8*(n-1) | ... | b[n-1]]. *)
Fixpoint be_get (bs : list byte) : Z :=
  match bs with
  | [] => 0
  | b :: rest =>
      Z.lor (Z.shiftl (Z_of_byte b) (8 * Z.of_nat (length rest))) (be_get rest)
  end.

(** ** Outcomes of a call *)

Inductive exec (A : Type) : Type :=
| Returns (a : A)
| Panics.
Arguments Returns {A} a.
Arguments Panics {A}.

Definition exec_bind {A B} (c : exec A) (k : A -> exec B) : exec B :=
  match c with
  | Returns a => k a
  | Panics => Panics
  end.

Declare Scope exec_scope.
Delimit Scope exec_scope with exec.
Notation "'let*' x ':=' c 'in' k" := (exec_bind c (fun x => k))
  (at level 10, x pattern, c at level 100, k at level 200) : exec_scope.
Local Open Scope exec_scope.

(** Slice expressions [s[:hi]], [s[lo:]] and [s[lo:hi]]; out of range is a
    panic. A slice is its elements and its capacity is taken to be its
    length, as for the bodies the reader loops allocate with
    [make([]byte, length)]: the upper index, which Go checks against the
    capacity, is checked against the length here. *)
Definition slice_to (hi : nat) (s : list byte) : exec (list byte) :=
  if decide (hi <= length s)%nat then Returns (take hi s) else Panics.

Definition slice_from (lo : nat) (s : list byte) : exec (list byte) :=
  if decide (lo <= length s)%nat then Returns (drop lo s) else Panics.

Definition slice (lo hi : nat) (s : list byte) : exec (list byte) :=
  if decide (lo <= hi <= length s)%nat then Returns (take (hi - lo) (drop lo s))
  else Panics.

(** [binary.BigEndian.Uint16(b)] and [Uint64(b)] start with the bounds check
    [_ = b[n-1]] and read the first [n] bytes. *)
Definition BigEndian_Uint (n : nat) (b : list byte) : exec Z :=
  if decide (n <= length b)%nat then Returns (be_get (take n b)) else Panics.

(** ** Errors *)

Inductive error : Type :=
| ErrVersionMismatch
| ErrLeaderClosed
| ErrLeaderAlreadyExists
| ErrInvalidSocket
| ErrLeaderFailedToWrite
| ErrFileNotOpen
| ErrUnexpectedFileVersion
| ErrOffsetOutOfRange
| ErrNextOffsetOutOfRange
| EOF
| ErrNotExist
| ErrNew (msg : string)                 (* errors.New, fmt.Errorf without %w *)
| ErrValue (msg : string) (arg : Z)     (* fmt.Errorf("...: %v", x) *)
| ErrWrap (msg : string) (inner : error). (* fmt.Errorf("...: %w", err) *)

Global Instance error_eq_dec : EqDecision error.
Proof. solve_decision. Defined.

(** [errors.Is(err, target)]: [target] occurs on the chain of wrapped
    errors. *)
Fixpoint errors_Is (err target : error) : bool :=
  bool_decide (err = target) ||
  match err with
  | ErrWrap _ inner => errors_Is inner target
  | _ => false
  end.

(** ** messages.go *)

Module Wire.

Definition MessageTypeUnknown : Z := 0.
Definition MessageTypePing : Z := 1.
Definition MessageTypeUpdateRequest : Z := 2.
Definition MessageTypeUpdateResponse : Z := 3.
Definition MessageTypeVersionUpdate : Z := 4.

Definition ResponseErrorNone : Z := 0.
Definition ResponseErrorMismatchedVersion : Z := 1.
Definition ResponseErrorWriteFailed : Z := 2.

(** [MessageType(binary.BigEndian.Uint16(data[:2]))]; [MessageType] is an
    [int16]. *)
Definition GetMessageType (data : list byte) : exec Z :=
  let* b := slice_to 2 data in
  let* u := BigEndian_Uint 2 b in
  Returns (int16 u).

Definition GetMessageLength (data : list byte) : exec Z :=
  let* b := slice_to 8 data in
  let* u := BigEndian_Uint 8 b in
  Returns (int64 u).

Definition PrependRequestLength (data : list byte) : list byte :=
  be_put 8 (uint64 (Z.of_nat (length data))) ++ data.

(** [binary.Append(body, binary.BigEndian, x)] for an integer [x] of [n]
    bytes; it cannot fail on a fixed-size integer, so the error branches
    after it in the three encoders are dead. *)
Definition binary_Append (body : list byte) (n : nat) (x : Z) : list byte :=
  body ++ be_put n x.

Record UpdateRequest := mkUpdateRequest {
  req_RequestID : Z;
  req_Version : Z;
  req_Data : list byte }.

Record UpdateResponse := mkUpdateResponse {
  res_Error : Z;
  res_RequestID : Z;
  res_Version : Z;
  res_Data : list byte }.

Record VersionUpdateMessage := mkVersionUpdateMessage {
  upd_Version : Z;
  upd_Data : list byte }.

Definition wf_UpdateRequest (r : UpdateRequest) : Prop :=
  is_u64 (req_RequestID r) /\ is_u64 (req_Version r).
Definition wf_UpdateResponse (r : UpdateResponse) : Prop :=
  is_i16 (res_Error r) /\ is_u64 (res_RequestID r) /\ is_u64 (res_Version r).
Definition wf_VersionUpdateMessage (m : VersionUpdateMessage) : Prop :=
  is_u64 (upd_Version m).

Definition UpdateRequest_Encode (r : UpdateRequest) : list byte :=
  let body := [] in
  let body := binary_Append body 2 (uint16 MessageTypeUpdateRequest) in
  let body := binary_Append body 8 (req_RequestID r) in
  let body := binary_Append body 8 (req_Version r) in
  body ++ req_Data r.

(** [Decode] fills the receiver [r] and returns the error, if any. *)
Definition UpdateRequest_Decode (r : UpdateRequest) (data : list byte)
  : exec (option error * UpdateRequest) :=
  let* mt := GetMessageType data in
  if decide (mt <> MessageTypeUpdateRequest)
  then Returns (Some (ErrValue "unexpected message type" mt), r)
  else
    let* body := slice_from 2 data in
    let* b := slice_to 8 body in
    let* rid := BigEndian_Uint 8 b in
    let* b := slice 8 16 body in
    let* ver := BigEndian_Uint 8 b in
    let* rest := slice_from 16 body in
    Returns (None, mkUpdateRequest rid ver rest).

Definition UpdateResponse_Encode (r : UpdateResponse) : list byte :=
  let body := [] in
  let body := binary_Append body 2 (uint16 MessageTypeUpdateResponse) in
  let body := binary_Append body 8 (res_RequestID r) in
  let body := binary_Append body 2 (res_Error r) in
  let body := binary_Append body 8 (res_Version r) in
  body ++ res_Data r.

Definition UpdateResponse_Decode (r : UpdateResponse) (data : list byte)
  : exec (option error * UpdateResponse) :=
  let* mt := GetMessageType data in
  if decide (mt <> MessageTypeUpdateResponse)
  then Returns (Some (ErrValue "unexpected message type" mt), r)
  else
    let* body := slice_from 2 data in
    let* b := slice_to 8 body in
    let* rid := BigEndian_Uint 8 b in
    let* b := slice 8 10 body in
    let* e := BigEndian_Uint 2 b in
    let* b := slice 10 18 body in
    let* ver := BigEndian_Uint 8 b in
    let* rest := slice_from 18 body in
    Returns (None, mkUpdateResponse (int16 e) rid ver rest).

Definition VersionUpdateMessage_Encode (m : VersionUpdateMessage) : list byte :=
  let body := [] in
  let body := binary_Append body 2 (uint16 MessageTypeVersionUpdate) in
  let body := binary_Append body 8 (upd_Version m) in
  body ++ upd_Data m.

Definition VersionUpdateMessage_Decode (m : VersionUpdateMessage) (data : list byte)
  : exec (option error * VersionUpdateMessage) :=
  let* mt := GetMessageType data in
  if decide (mt <> MessageTypeVersionUpdate)
  then Returns (Some (ErrValue "unexpected message type" mt), m)
  else
    let* body := slice_from 2 data in
    let* b := slice_to 8 body in
    let* ver := BigEndian_Uint 8 b in
    let* rest := slice_from 8 body in
    Returns (None, mkVersionUpdateMessage ver rest).

(** The zero values [&UpdateRequest{}], [&UpdateResponse{}] and
    [&VersionUpdateMessage{}]. *)
Definition UpdateRequest_zero := mkUpdateRequest 0 0 [].
Definition UpdateResponse_zero := mkUpdateResponse 0 0 0 [].
Definition VersionUpdateMessage_zero := mkVersionUpdateMessage 0 [].

End Wire.

(** ** Stateful calls

    A method that mutates its receiver, and may panic, is a function from the
    state before the call to the outcome and the state after it. *)

Definition M (St A : Type) : Type := St -> exec (A * St).

Definition ret {St A} (a : A) : M St A := fun s => Returns (a, s).

Definition bind {St A B} (c : M St A) (k : A -> M St B) : M St B :=
  fun s => match c s with
           | Returns (a, s') => k a s'
           | Panics => Panics
           end.

Definition get {St} : M St St := fun s => Returns (s, s).
Definition modify {St} (f : St -> St) : M St unit := fun s => Returns (tt, f s).
Definition panic {St A} : M St A := fun _ => Panics.
Definition lift_exec {St A} (c : exec A) : M St A :=
  fun s => match c with
           | Returns a => Returns (a, s)
           | Panics => Panics
           end.

(** What a call returned, without the state it left. *)
Definition returned {St A} (r : exec (A * St)) : exec A :=
  match r with
  | Returns (a, _) => Returns a
  | Panics => Panics
  end.

Declare Scope go_scope.
Delimit Scope go_scope with go.
Notation "'do' x <- c ; k" := (bind c (fun x => k))
  (at level 10, x pattern, c at level 100, k at level 200) : go_scope.
Notation "c ;; k" := (bind c (fun _ => k))
  (at level 100, k at level 200, right associativity) : go_scope.
Local Open Scope go_scope.

(** ** The datastore interface ([Datastore] of leader.go) *)

Class Datastore (S : Type) : Type := {
  ds_Open : M S (option error);
  ds_Close : M S (option error);
  ds_Get : M S (Z * list byte * option error);
  ds_Put : Z -> list byte -> M S (option error) }.

(** ** The in-memory datastore (package memory) *)

Module Memory.

Record Datastore := mkDatastore {
  version : Z;
  data : list byte }.

Definition NewDatastore : Datastore := mkDatastore 0 [].

Definition Open : M Datastore (option error) := ret None.

Definition Close : M Datastore (option error) := ret None.

Definition Get : M Datastore (Z * list byte * option error) :=
  do d <- get;
  ret (version d, data d, None).

Definition Put (v : Z) (bytes : list byte) : M Datastore (option error) :=
  modify (fun _ => mkDatastore v bytes);;
  ret None.

End Memory.

#[export] Instance memory_Datastore : Datastore Memory.Datastore := {
  ds_Open := Memory.Open;
  ds_Close := Memory.Close;
  ds_Get := Memory.Get;
  ds_Put := Memory.Put }.

(** ** Connections

    A stream connection is the list of frames written to it, oldest first,
    and whether it has been closed; [Write] on a closed connection fails
    and sends nothing. *)

Record Conn := mkConn {
  sent : list (list byte);
  closed : bool }.

Definition Conn_Write (msg : list byte) (c : Conn) : option error * Conn :=
  if closed c then (Some (ErrNew "use of closed network connection"), c)
  else (None, mkConn (sent c ++ [msg]) (closed c)).

(** ** version.go *)

(** A [Version] handle; its [writer] back-reference is the node that made
    it and is left out. *)
Record Version := NewVersion {
  ver_version : Z;
  ver_data : list byte }.

(** ** utils.go and the rendezvous endpoint *)

Inductive entry : Type := Directory | RegularFile | SocketFile.

(** The part of the operating system [NewLeaderNode] touches: the entries
    of the file system, the paths a listener is bound to, and the failures
    [os.Stat] and [net.Listen] may report for reasons of their own. *)
Record OS := mkOS {
  fs : gmap string entry;
  listening : gset string;
  stat_fault : option error;
  listen_fault : option error }.

Definition os_Stat (path : string) (os : OS) : option entry * option error :=
  match stat_fault os with
  | Some e => (None, Some e)
  | None =>
      match fs os !! path with
      | Some info => (Some info, None)
      | None => (None, Some (ErrWrap "stat" ErrNotExist))
      end
  end.

Definition fileExists (path : string) (os : OS) : bool * option error :=
  let '(info, err) := os_Stat path os in
  match err with
  | Some e =>
      if errors_Is e ErrNotExist then (false, None) else (false, Some e)
  | None =>
      match info with
      | Some Directory => (false, Some (ErrNew "path is a directory"))
      | _ => (true, None)
      end
  end.

(** [net.Listen("unix", socket)]: binding creates the socket entry and
    fails when the path is taken. *)
Definition net_Listen (socket : string) (os : OS) : option error * OS :=
  match listen_fault os with
  | Some e => (Some e, os)
  | None =>
      match fs os !! socket with
      | Some _ => (Some (ErrNew "bind: address already in use"), os)
      | None =>
          (None, mkOS (<[socket := SocketFile]> (fs os))
                      ({[socket]} ∪ listening os)
                      (stat_fault os) (listen_fault os))
      end
  end.

(** ** leader.go *)

Module Leader.
Section Node.
Context {S : Type} `{Datastore S}.

(** [clients] maps a client id to its connection; [ds] is the state of the
    datastore the node owns; [watchChannels] holds, per watcher, the
    handles handed to it. *)
Record LeaderNode := mkLeaderNode {
  clients : gmap string Conn;
  ds : S;
  watchChannels : list (list Version) }.

Definition with_ds {A} (c : M S A) : M LeaderNode A :=
  fun n => match c (ds n) with
           | Returns (a, s) => Returns (a, mkLeaderNode (clients n) s (watchChannels n))
           | Panics => Panics
           end.

Definition set_clients (f : gmap string Conn -> gmap string Conn) : M LeaderNode unit :=
  modify (fun n => mkLeaderNode (f (clients n)) (ds n) (watchChannels n)).

Definition set_watchChannels (f : list (list Version) -> list (list Version))
  : M LeaderNode unit :=
  modify (fun n => mkLeaderNode (clients n) (ds n) (f (watchChannels n))).

(** The two goroutines the constructor starts are not part of the result. *)
Definition NewLeaderNode (socket : string) (ds : S) (os : OS)
  : exec (option LeaderNode * option error * S * OS) :=
  let '(exists_, err) := fileExists socket os in
  match err with
  | Some e => Returns (None, Some (ErrWrap "failed to check if socket exists" e), ds, os)
  | None =>
      if exists_ then Returns (None, Some ErrLeaderAlreadyExists, ds, os)
      else
        match ds_Open ds with
        | Panics => Panics
        | Returns (Some e, ds') =>
            Returns (None, Some (ErrWrap "failed to open datastore" e), ds', os)
        | Returns (None, ds') =>
            match net_Listen socket os with
            | (Some e, os') => Returns (None, Some (ErrWrap "failed to listen" e), ds', os')
            | (None, os') => Returns (Some (mkLeaderNode ∅ ds' []), None, ds', os')
            end
        end
  end.

Definition Version : M LeaderNode (Z * option error) :=
  do (v, _, err) <- with_ds ds_Get;
  match err with
  | Some e => ret (0, Some (ErrWrap "failed to get version" e))
  | None => ret (v, None)
  end.

Definition Data : M LeaderNode (list byte * option error) :=
  do (_, d, err) <- with_ds ds_Get;
  match err with
  | Some e => ret ([], Some (ErrWrap "failed to get data" e))
  | None => ret (d, None)
  end.

Definition Watch : M LeaderNode unit :=
  set_watchChannels (fun chs => chs ++ [[]]).

(** The loop [for k, c := range n.clients] of [write]: every connection
    whose id is not excluded gets one [Write] of [msg], whose error is
    dropped. Connections are independent, so the order of the iteration
    leaves no trace. *)
Definition broadcast (msg : list byte) (excludeClients : list string)
  (cs : gmap string Conn) : gmap string Conn :=
  map_imap (fun k c =>
    Some (if decide (k ∈ excludeClients) then c else snd (Conn_Write msg c))) cs.

Definition write (version : Z) (data : list byte) (excludeClients : list string)
  : M LeaderNode (Z * list byte * option error) :=
  do (v, err) <- Version;
  match err with
  | Some e => ret (0, [], Some (ErrWrap "failed to get version" e))
  | None =>
      if decide (version <> v) then ret (v, [], Some ErrVersionMismatch)
      else
        let version := uint64 (version + 1) in
        do err <- with_ds (ds_Put version data);
        match err with
        | Some e => ret (v, [], Some (ErrWrap "failed to put data" e))
        | None =>
            do n <- get;
            (if decide (0 < size (clients n))%nat then
               let update := Wire.mkVersionUpdateMessage version data in
               let body := Wire.VersionUpdateMessage_Encode update in
               let msg := Wire.PrependRequestLength body in
               set_clients (broadcast msg excludeClients)
             else ret tt);;
            ret (version, data, None)
        end
  end.

Definition Write (version : Z) (data : list byte) : M LeaderNode (option error) :=
  do (_, _, err) <- write version data [];
  ret err.

Definition handleClientRequest (clientID : string) (reqBody : list byte)
  : M LeaderNode unit :=
  do requestType <- lift_exec (Wire.GetMessageType reqBody);
  if decide (requestType = Wire.MessageTypeUpdateRequest) then
    do (err, updateReq) <-
      lift_exec (Wire.UpdateRequest_Decode Wire.UpdateRequest_zero reqBody);
    match err with
    | Some _ => ret tt
    | None =>
        do (newVersion, newData, err) <-
          write (Wire.req_Version updateReq) (Wire.req_Data updateReq) [clientID];
        let code :=
          match err with
          | None => Wire.ResponseErrorNone
          | Some e =>
              if decide (e = ErrVersionMismatch)
              then Wire.ResponseErrorMismatchedVersion
              else Wire.ResponseErrorWriteFailed
          end in
        let res :=
          Wire.mkUpdateResponse code (Wire.req_RequestID updateReq) newVersion newData in
        let data := Wire.UpdateResponse_Encode res in
        let msg := Wire.PrependRequestLength data in
        do n <- get;
        match clients n !! clientID with
        | None => panic
        | Some c =>
            set_clients (fun cs => <[clientID := snd (Conn_Write msg c)]> cs);;
            let v := NewVersion newVersion newData in
            set_watchChannels (fun chs => (fun ch => ch ++ [v]) <$> chs)
        end
    end
  else ret tt.

(** [syncRequests]: the requests taken off the channel, in order. *)
Fixpoint syncRequests (reqs : list (string * list byte)) : M LeaderNode unit :=
  match reqs with
  | [] => ret tt
  | (clientID, body) :: reqs' =>
      handleClientRequest clientID body;;
      syncRequests reqs'
  end.

(** [handleConnection] up to its reader goroutine; [id] is the identifier
    [uuid.New] draws. A failed [Get] is printed and what it returned is
    sent all the same; a connection the first frame cannot be written to
    is not registered. *)
Definition handleConnection (id : string) (conn : Conn) : M LeaderNode unit :=
  do (v, d, _) <- with_ds ds_Get;
  let update := Wire.mkVersionUpdateMessage v d in
  let body := Wire.VersionUpdateMessage_Encode update in
  let msg := Wire.PrependRequestLength body in
  match Conn_Write msg conn with
  | (Some _, _) => ret tt
  | (None, conn') => set_clients (fun cs => <[id := conn']> cs)
  end.

(** The frame [write] sends for an accepted [(version, data)], and the
    client map after its [if len(n.clients) > 0] block. *)
Definition update_frame (version : Z) (data : list byte) : list byte :=
  Wire.PrependRequestLength
    (Wire.VersionUpdateMessage_Encode (Wire.mkVersionUpdateMessage version data)).

Definition after_broadcast (version : Z) (data : list byte) (excl : list string)
  (cs : gmap string Conn) : gmap string Conn :=
  if decide (0 < size cs)%nat then broadcast (update_frame version data) excl cs else cs.

(** The frame that answers a request. *)
Definition response_frame (code requestID version : Z) (data : list byte) : list byte :=
  Wire.PrependRequestLength
    (Wire.UpdateResponse_Encode (Wire.mkUpdateResponse code requestID version data)).

(** The error code of the response to a request whose [write] returned
    [err], as the [if err != nil] block of [handleClientRequest] sets it. *)
Definition response_code (err : option error) : Z :=
  match err with
  | None => Wire.ResponseErrorNone
  | Some e =>
      if decide (e = ErrVersionMismatch)
      then Wire.ResponseErrorMismatchedVersion
      else Wire.ResponseErrorWriteFailed
  end.

(** A sequence of calls of [write], each with its expected version, data
    and excluded clients, and their results in order. *)
Fixpoint writes (ws : list (Z * list byte * list string))
  : M LeaderNode (list (Z * list byte * option error)) :=
  match ws with
  | [] => ret []
  | (version, data, excludeClients) :: ws' =>
      do r <- write version data excludeClients;
      do rs <- writes ws';
      ret (r :: rs)
  end.

End Node.
Arguments LeaderNode S : clear implicits.
End Leader.

(** What the nodes rely on in a datastore: reading again gives the same,
    and reading after a successful [Put] gives what was put. *)
Class LawfulDatastore (S : Type) `{Datastore S} : Prop := {
  get_stable : forall (s s1 : S) r,
    ds_Get s = Returns (r, s1) -> ds_Get s1 = Returns (r, s1);
  put_get : forall v d (s s1 : S),
    ds_Put v d s = Returns (None, s1) ->
    exists s2, ds_Get s1 = Returns ((v, d, None), s2) }.

(** ** The follower node *)

Module Follower.
Section Node.
Context {S : Type} `{Datastore S}.

(** A [response] channel is the list of responses handed to it. [server]
    is the connection to the leader; [readyChan] is [true] once closed. *)
Record FollowerNode := mkFollowerNode {
  ds : S;
  server : Conn;
  requests : gmap Z (list Wire.UpdateResponse);
  nextRequestID : Z;
  ready : bool;
  readyChan : bool;
  watchChannels : list (list Version) }.

Definition with_ds {A} (c : M S A) : M FollowerNode A :=
  fun n => match c (ds n) with
           | Returns (a, s) =>
               Returns (a, mkFollowerNode s (server n) (requests n) (nextRequestID n)
                             (ready n) (readyChan n) (watchChannels n))
           | Panics => Panics
           end.

Definition server_Write (msg : list byte) : M FollowerNode (option error) :=
  fun n => let '(err, c) := Conn_Write msg (server n) in
           Returns (err, mkFollowerNode (ds n) c (requests n) (nextRequestID n)
                           (ready n) (readyChan n) (watchChannels n)).

Definition set_requests
  (f : gmap Z (list Wire.UpdateResponse) -> gmap Z (list Wire.UpdateResponse))
  : M FollowerNode unit :=
  modify (fun n => mkFollowerNode (ds n) (server n) (f (requests n)) (nextRequestID n)
                     (ready n) (readyChan n) (watchChannels n)).

Definition set_nextRequestID (id : Z) : M FollowerNode unit :=
  modify (fun n => mkFollowerNode (ds n) (server n) (requests n) id
                     (ready n) (readyChan n) (watchChannels n)).

Definition set_ready : M FollowerNode unit :=
  modify (fun n => mkFollowerNode (ds n) (server n) (requests n) (nextRequestID n)
                     true true (watchChannels n)).

Definition set_watchChannels (f : list (list Version) -> list (list Version))
  : M FollowerNode unit :=
  modify (fun n => mkFollowerNode (ds n) (server n) (requests n) (nextRequestID n)
                     (ready n) (readyChan n) (f (watchChannels n))).

Definition Version : M FollowerNode (Z * option error) :=
  do (v, _, err) <- with_ds ds_Get;
  match err with
  | Some e => ret (0, Some (ErrWrap "failed to get version" e))
  | None => ret (v, None)
  end.

Definition Data : M FollowerNode (list byte * option error) :=
  do (_, d, err) <- with_ds ds_Get;
  match err with
  | Some e => ret ([], Some (ErrWrap "failed to get data" e))
  | None => ret (d, None)
  end.

Definition handleMessage (body : list byte) : M FollowerNode unit :=
  do mt <- lift_exec (Wire.GetMessageType body);
  if decide (mt = Wire.MessageTypeUpdateResponse) then
    do (err, res) <-
      lift_exec (Wire.UpdateResponse_Decode Wire.UpdateResponse_zero body);
    match err with
    | Some _ => ret tt
    | None =>
        do n <- get;
        match requests n !! Wire.res_RequestID res with
        | Some ch => set_requests (fun rs => <[Wire.res_RequestID res := ch ++ [res]]> rs)
        | None => ret tt
        end
    end
  else if decide (mt = Wire.MessageTypeVersionUpdate) then
    do (err, msg) <-
      lift_exec (Wire.VersionUpdateMessage_Decode Wire.VersionUpdateMessage_zero body);
    match err with
    | Some _ => ret tt
    | None =>
        do err <- with_ds (ds_Put (Wire.upd_Version msg) (Wire.upd_Data msg));
        match err with
        | Some _ => ret tt
        | None =>
            do n <- get;
            if negb (ready n) then set_ready
            else
              let v := NewVersion (Wire.upd_Version msg) (Wire.upd_Data msg) in
              set_watchChannels (fun chs => (fun ch => ch ++ [v]) <$> chs)
        end
    end
  else ret tt.

(** [Write] runs in three stretches. The first, [Write_send], goes from
    the entry to the [n.server.Write(req)] call and its error check; it
    yields [Some err] when [Write] returns there and [None] when the
    request is on the wire. *)
Definition Write_send (version : Z) (data : list byte) : M FollowerNode (option error) :=
  do (v, err) <- Version;
  match err with
  | Some e => ret (Some (ErrWrap "failed to get version" e))
  | None =>
      if decide (version <> v) then ret (Some ErrVersionMismatch)
      else
        do n <- get;
        let ur := Wire.mkUpdateRequest (nextRequestID n) version data in
        let body := Wire.UpdateRequest_Encode ur in
        let req := Wire.PrependRequestLength body in
        do err <- server_Write req;
        match err with
        | Some e => ret (Some (ErrWrap "failed to write to server" e))
        | None => ret None
        end
  end.

(** The second stretch: [resChan := make(response)], the entry in
    [n.requests] and [n.nextRequestID++]. It yields the key of the slot the
    caller then waits on. *)
Definition Write_register : M FollowerNode Z :=
  do n <- get;
  let id := nextRequestID n in
  set_requests (fun rs => <[id := []]> rs);;
  set_nextRequestID (uint64 (id + 1));;
  ret id.

(** The third stretch: the [switch] on the response [res] received from
    the slot. *)
Definition Write_translate (data : list byte) (res : Wire.UpdateResponse)
  : M FollowerNode (option error) :=
  if decide (Wire.res_Error res = Wire.ResponseErrorNone) then
    with_ds (ds_Put (Wire.res_Version res) data)
  else if decide (Wire.res_Error res = Wire.ResponseErrorMismatchedVersion) then
    ret (Some ErrVersionMismatch)
  else if decide (Wire.res_Error res = Wire.ResponseErrorWriteFailed) then
    ret (Some ErrLeaderFailedToWrite)
  else ret (Some (ErrValue "unknown error" (Wire.res_Error res))).

(** [Write], with [res] the response the slot delivers. *)
Definition Write (version : Z) (data : list byte) (res : Wire.UpdateResponse)
  : M FollowerNode (option error) :=
  do early <- Write_send version data;
  match early with
  | Some e => ret (Some e)
  | None =>
      do _ <- Write_register;
      Write_translate data res
  end.

(** The frame [Write] sends, and the node while [Write] waits on its
    slot: the store as the version check left it, the request on the wire,
    the slot registered, the next request id advanced. *)
Definition request_frame (id version : Z) (data : list byte) : list byte :=
  Wire.PrependRequestLength
    (Wire.UpdateRequest_Encode (Wire.mkUpdateRequest id version data)).

Definition set_ds (s : S) (n : FollowerNode) : FollowerNode :=
  mkFollowerNode s (server n) (requests n) (nextRequestID n)
    (ready n) (readyChan n) (watchChannels n).

Definition awaiting (n : FollowerNode) (s : S) (version : Z) (data : list byte)
  : FollowerNode :=
  mkFollowerNode s
    (mkConn (sent (server n) ++ [request_frame (nextRequestID n) version data]) false)
    (<[nextRequestID n := []]> (requests n))
    (uint64 (nextRequestID n + 1))
    (ready n) (readyChan n) (watchChannels n).

(** The node [NewFollowerNode] builds once the dial has succeeded, as it
    is before the reader goroutine has handled a frame. *)
Definition NewFollowerNode_node (ds : S) (conn : Conn) : FollowerNode :=
  mkFollowerNode ds conn ∅ 1 false false [].

(** Every registered request id lies below [nextRequestID]. *)
Definition ids_below (n : FollowerNode) : Prop :=
  forall k, is_Some (requests n !! k) -> 0 <= k < nextRequestID n.

End Node.
Arguments FollowerNode S : clear implicits.
End Follower.

(** ** version.go and interstate.go: handles and the State

    A handle's [writer] is a pointer to the State or node that made it:
    [Update] acts on that writer as it is when [Update] is called. *)

Class VersionWriter (W : Type) : Type := {
  vw_Write : Z -> list byte -> M W (option error) }.

Definition Version_Update {W : Type} `{VersionWriter W} (v : Version) (data : list byte)
  : M W (option error) :=
  do err <- vw_Write (ver_version v) data;
  match err with
  | Some e => ret (Some (ErrWrap "failed to write update" e))
  | None => ret None
  end.

(** The methods of the [Node] interface that [Current] and [Write] of the
    State call. *)
Class Node (N : Type) : Type := {
  node_Write : Z -> list byte -> M N (option error);
  node_Version : M N (Z * option error);
  node_Data : M N (list byte * option error) }.

Module State.
Section State.
Context {N : Type} `{Node N}.

(** [n] is nil until [Open] has set it; a call through it panics then. *)
Record State := mkState {
  n : option N }.

Definition with_n {A} (c : M N A) : M State A :=
  fun s => match n s with
           | None => Panics
           | Some nd =>
               match c nd with
               | Returns (a, nd') => Returns (a, mkState (Some nd'))
               | Panics => Panics
               end
           end.

Definition Current : M State (option Version * option error) :=
  do (v, err) <- with_n node_Version;
  match err with
  | Some e => ret (None, Some e)
  | None =>
      do (d, err) <- with_n node_Data;
      match err with
      | Some e => ret (None, Some e)
      | None => ret (Some (NewVersion v d), None)
      end
  end.

Definition Write (version : Z) (data : list byte) : M State (option error) :=
  with_n (node_Write version data).

End State.
Arguments State N : clear implicits.
End State.

#[export] Instance leader_Node {S : Type} `{Datastore S} : Node (Leader.LeaderNode S) := {
  node_Write := Leader.Write;
  node_Version := Leader.Version;
  node_Data := Leader.Data }.

#[export] Instance leader_VersionWriter {S : Type} `{Datastore S}
  : VersionWriter (Leader.LeaderNode S) := {
  vw_Write := Leader.Write }.

#[export] Instance state_VersionWriter {N : Type} `{Node N}
  : VersionWriter (State.State N) := {
  vw_Write := State.Write }.

(** ** appendonly/datastore.go *)

Module AppendOnly.

(** *** The file behind the store

    The failures the operating system may report for reasons of its own
    (permissions, a failing device), per kind of call. A failing write
    comes with the number of bytes that went to the file before the
    error. *)
Record Faults := mkFaults {
  open_fault : option error;
  stat_fault : option error;
  read_fault : option error;
  write_fault : option (nat * error);
  close_fault : option error }.

Definition no_faults : Faults := mkFaults None None None None None.

(** The file at the store's path: its bytes, or [None] while the path does
    not exist. *)
Record Disk := mkDisk {
  content : option (list byte);
  faults : Faults }.

(** An open [*os.File]: the position of the next read or write. *)
Record File := mkFile { pos : Z }.

Record Datastore := mkDatastore {
  fp : string;
  file : option File;
  fileVersion : Z;
  offset : Z;
  nextOffset : Z }.

(** The store and the file system it lives on. *)
Record World := mkWorld {
  aof : Datastore;
  disk : Disk }.

Definition FileVersionHeaderFieldSize : Z := 2.
Definition OffsetHeaderFieldSize : Z := 8.
Definition NextOffsetHeaderFieldSize : Z := 8.
Definition VersionHeaderFieldSize : Z := 8.

Definition FileVersionHeaderPos : Z := 0.
Definition OffsetHeaderPos : Z := FileVersionHeaderPos + FileVersionHeaderFieldSize.
Definition NextOffsetHeaderPos : Z := OffsetHeaderPos + OffsetHeaderFieldSize.
Definition VersionHeaderPos : Z := NextOffsetHeaderPos + NextOffsetHeaderFieldSize.

Definition NewDatastore (path : string) : Datastore := mkDatastore path None 1 0 0.

Definition bytes_of (d : Disk) : list byte := default [] (content d).

Definition set_file (f : option File) : M World unit :=
  modify (fun w => mkWorld (mkDatastore (fp (aof w)) f (fileVersion (aof w))
                              (offset (aof w)) (nextOffset (aof w))) (disk w)).

Definition set_offset (o : Z) : M World unit :=
  modify (fun w => mkWorld (mkDatastore (fp (aof w)) (file (aof w)) (fileVersion (aof w))
                              o (nextOffset (aof w))) (disk w)).

Definition set_nextOffset (o : Z) : M World unit :=
  modify (fun w => mkWorld (mkDatastore (fp (aof w)) (file (aof w)) (fileVersion (aof w))
                              (offset (aof w)) o) (disk w)).

Definition set_content (bs : list byte) : M World unit :=
  modify (fun w => mkWorld (aof w) (mkDisk (Some bs) (faults (disk w)))).

(** [os.OpenFile(aof.fp, os.O_RDWR|os.O_CREATE, 0644)]. *)
Definition os_OpenFile : M World (option File * option error) :=
  do w <- get;
  match open_fault (faults (disk w)) with
  | Some e => ret (None, Some e)
  | None =>
      set_content (bytes_of (disk w));;
      ret (Some (mkFile 0), None)
  end.

(** [os.Stat(aof.fp)], of which the source uses [Size()]. *)
Definition os_Stat : M World (Z * option error) :=
  do w <- get;
  match stat_fault (faults (disk w)) with
  | Some e => ret (0, Some e)
  | None =>
      match content (disk w) with
      | Some bs => ret (Z.of_nat (length bs), None)
      | None => ret (0, Some (ErrWrap "stat" ErrNotExist))
      end
  end.

(** [aof.file.Seek(off, 0)]: a negative offset is refused and leaves the
    position where it was. The source drops the result. *)
Definition file_Seek (off : Z) : M World unit :=
  do w <- get;
  match file (aof w) with
  | Some _ => if decide (0 <= off) then set_file (Some (mkFile off)) else ret tt
  | None => ret tt
  end.

(** [aof.file.Read(bb)] with [bb := make([]byte, n)]: the buffer after the
    call, the count and the error. At or past the end of the file the call
    reports [io.EOF]; before it, it reads what is there, possibly fewer
    than [n] bytes, and leaves the rest of the buffer zero. *)
Definition file_Read (n : nat) : M World (list byte * Z * option error) :=
  do w <- get;
  let zeros := replicate n "000"%byte in
  match file (aof w) with
  | None => ret (zeros, 0, Some (ErrNew "invalid argument"))
  | Some f =>
      match read_fault (faults (disk w)) with
      | Some e => ret (zeros, 0, Some e)
      | None =>
          let bs := bytes_of (disk w) in
          if decide (n = 0%nat) then ret (zeros, 0, None)
          else if decide (Z.of_nat (length bs) <= pos f) then ret (zeros, 0, Some EOF)
          else
            let got := take n (drop (Z.to_nat (pos f)) bs) in
            set_file (Some (mkFile (pos f + Z.of_nat (length got))));;
            ret (got ++ replicate (n - length got) "000"%byte,
                 Z.of_nat (length got), None)
      end
  end.

(** Writing [data] at position [p]: a gap past the end of the file reads as
    zeros; a write of no bytes changes nothing. *)
Definition write_at (p : nat) (data bs : list byte) : list byte :=
  match data with
  | [] => bs
  | _ => take p bs ++ replicate (p - length bs) "000"%byte ++ data
         ++ drop (p + length data) bs
  end.

(** [aof.file.Write(data)]: the count and the error. A write that fails
    may have written the first bytes of [data] already. *)
Definition file_Write (data : list byte) : M World (Z * option error) :=
  do w <- get;
  match file (aof w) with
  | None => ret (0, Some (ErrNew "invalid argument"))
  | Some f =>
      match write_fault (faults (disk w)) with
      | Some (k, e) =>
          let part := take k data in
          set_content (write_at (Z.to_nat (pos f)) part (bytes_of (disk w)));;
          set_file (Some (mkFile (pos f + Z.of_nat (length part))));;
          ret (Z.of_nat (length part), Some e)
      | None =>
          set_content (write_at (Z.to_nat (pos f)) data (bytes_of (disk w)));;
          set_file (Some (mkFile (pos f + Z.of_nat (length data))));;
          ret (Z.of_nat (length data), None)
      end
  end.

(** [aof.file.Close()]. *)
Definition file_Close : M World (option error) :=
  do w <- get;
  ret (close_fault (faults (disk w))).

(** *** The store *)

Definition headerOffset : Z :=
  FileVersionHeaderFieldSize + OffsetHeaderFieldSize
  + NextOffsetHeaderFieldSize + VersionHeaderFieldSize.

(** The body the four header readers share: nil check, [Seek] to the
    field, [Read] of its width; [io.EOF] yields zero and no error. *)
Definition readHeaderField (what : string) (at_ width : Z) : M World (Z * option error) :=
  do w <- get;
  match file (aof w) with
  | None => ret (0, Some ErrFileNotOpen)
  | Some _ =>
      file_Seek at_;;
      do (bb, _, err) <- file_Read (Z.to_nat width);
      match err with
      | Some e =>
          if errors_Is e EOF then ret (0, None) else ret (0, Some (ErrWrap what e))
      | None => ret (be_get bb, None)
      end
  end.

Definition readFileVersionHeader : M World (Z * option error) :=
  readHeaderField "failed to read file version"
    FileVersionHeaderPos FileVersionHeaderFieldSize.

Definition readOffsetHeader : M World (Z * option error) :=
  readHeaderField "failed to read offset" OffsetHeaderPos OffsetHeaderFieldSize.

Definition readNextOffsetHeader : M World (Z * option error) :=
  readHeaderField "failed to read next offset"
    NextOffsetHeaderPos NextOffsetHeaderFieldSize.

Definition readVersionHeader : M World (Z * option error) :=
  readHeaderField "failed to read version" VersionHeaderPos VersionHeaderFieldSize.

Definition writeHeaders (version : Z) : M World (option error) :=
  do w <- get;
  match file (aof w) with
  | None => ret (Some ErrFileNotOpen)
  | Some _ =>
      let headerBytes :=
        be_put 2 (uint16 (fileVersion (aof w)))
        ++ be_put 8 (uint64 (offset (aof w)))
        ++ be_put 8 (uint64 (nextOffset (aof w)))
        ++ be_put 8 (uint64 version) in
      file_Seek 0;;
      do (_, err) <- file_Write headerBytes;
      match err with
      | Some e => ret (Some (ErrWrap "failed to write headers" e))
      | None => ret None
      end
  end.

Definition Open : M World (option error) :=
  do w <- get;
  match file (aof w) with
  | Some _ => ret None
  | None =>
      do (f, err) <- os_OpenFile;
      match err with
      | Some e => ret (Some (ErrWrap "failed to open file" e))
      | None =>
          do (size, err) <- os_Stat;
          match err with
          | Some e => ret (Some (ErrWrap "failed to get file stats" e))
          | None =>
              set_file f;;
              if decide (size = 0) then ret None
              else
                do (fv, err) <- readFileVersionHeader;
                match err with
                | Some e => ret (Some e)
                | None =>
                    if decide (fv <> fileVersion (aof w))
                    then ret (Some ErrUnexpectedFileVersion)
                    else
                      do (o, err) <- readOffsetHeader;
                      set_offset o;;
                      match err with
                      | Some e => ret (Some e)
                      | None =>
                          do (no, err) <- readNextOffsetHeader;
                          set_nextOffset no;;
                          match err with
                          | Some e => ret (Some e)
                          | None =>
                              if decide (uint64 o > uint64 no)
                              then ret (Some ErrNextOffsetOutOfRange)
                              else if decide (int64 o > size)
                              then ret (Some ErrOffsetOutOfRange)
                              else ret None
                          end
                      end
                end
          end
      end
  end.

Definition Close : M World (option error) :=
  do w <- get;
  match file (aof w) with
  | None => ret None
  | Some _ =>
      do err <- file_Close;
      match err with
      | Some e => ret (Some (ErrWrap "failed to close file" e))
      | None => set_file None;; ret None
      end
  end.

(** [int] is 64 bits wide; [make([]byte, length)] panics on a negative
    [length]. It also panics on a length beyond what the platform can
    allocate; that limit is not part of the source and is left out. *)
Definition Get : M World (Z * list byte * option error) :=
  do w <- get;
  match file (aof w) with
  | None => ret (0, [], Some ErrFileNotOpen)
  | Some _ =>
      let length := int64 (int64 (nextOffset (aof w)) - int64 (offset (aof w))) in
      if decide (length < 0) then panic
      else
        do (version, err) <- readVersionHeader;
        match err with
        | Some e => ret (0, [], Some e)
        | None =>
            file_Seek (int64 (headerOffset + int64 (offset (aof w))));;
            do (data, n, err) <- file_Read (Z.to_nat length);
            match err with
            | Some e => ret (0, [], Some (ErrWrap "failed to read data" e))
            | None =>
                if decide (n <> length)
                then ret (0, [], Some (ErrNew "failed to read data: short read"))
                else ret (uint64 version, data, None)
            end
        end
  end.

Definition Put (version : Z) (data : list byte) : M World (option error) :=
  do w <- get;
  match file (aof w) with
  | None => ret (Some ErrFileNotOpen)
  | Some _ =>
      file_Seek (int64 (headerOffset + int64 (nextOffset (aof w))));;
      do (n, err) <- file_Write data;
      match err with
      | Some e => ret (Some (ErrWrap "failed to write data" e))
      | None =>
          if decide (n <> Z.of_nat (length data))
          then ret (Some (ErrNew "failed to write data: short write"))
          else
            set_offset (nextOffset (aof w));;
            set_nextOffset (uint64 (uint64 (nextOffset (aof w)) + uint64 (Z.of_nat (length data))));;
            do err <- writeHeaders version;
            match err with
            | Some e => ret (Some e)
            | None => ret None
            end
      end
  end.

(** The 26 bytes of the header block. *)
Definition header (fv o no v : Z) : list byte :=
  be_put 2 (uint16 fv) ++ be_put 8 (uint64 o) ++ be_put 8 (uint64 no)
  ++ be_put 8 (uint64 v).

(** A store that was never opened, on a disk where the file holds [bs] and
    no call fails for reasons of its own. *)
Definition closed_on (path : string) (bs : option (list byte)) : World :=
  mkWorld (NewDatastore path) (mkDisk bs no_faults).


(** open, put, put, close, open, get on one store: the five errors and
    what [Get] returned. *)
Definition put_put_reopen_get (v1 : Z) (d1 : list byte) (v2 : Z) (d2 : list byte)
  : M World (list (option error) * (Z * list byte * option error)) :=
  do e1 <- Open;
  do e2 <- Put v1 d1;
  do e3 <- Put v2 d2;
  do e4 <- Close;
  do e5 <- Open;
  do r <- Get;
  ret ([e1; e2; e3; e4; e5], r).

(** A call that, made on an open store, returns with the store open. *)
Definition keeps_open {A} (c : M World A) : Prop :=
  forall w r w', c w = Returns (r, w') ->
    is_Some (file (aof w)) -> is_Some (file (aof w')).

(** open, then get: the error of [Open] and what [Get] returned. *)
Definition open_get : M World (option error * (Z * list byte * option error)) :=
  do e <- Open;
  do r <- Get;
  ret (e, r).

End AppendOnly.

#[export] Instance appendonly_Datastore : Datastore AppendOnly.World := {
  ds_Open := AppendOnly.Open;
  ds_Close := AppendOnly.Close;
  ds_Get := AppendOnly.Get;
  ds_Put := AppendOnly.Put }.

(** ** Sample values *)

Definition sample_request : Wire.UpdateRequest :=
  Wire.mkUpdateRequest 1 7 ["t"%byte; "o"%byte].
Definition sample_response : Wire.UpdateResponse :=
  Wire.mkUpdateResponse Wire.ResponseErrorMismatchedVersion 1 8 ["s"%byte].
Definition sample_update : Wire.VersionUpdateMessage :=
  Wire.mkVersionUpdateMessage (2 ^ 64 - 1) [].

Definition sample_clients : gmap string Conn :=
  <["a" := mkConn [] false]> (<["b" := mkConn [] false]> (<["c" := mkConn [] true]> ∅)).

Definition sample_leader : Leader.LeaderNode Memory.Datastore :=
  Leader.mkLeaderNode sample_clients (Memory.mkDatastore 7 ["s"%byte]) [[]].

Definition sample_writes : list (Z * list byte * list string) :=
  [(7, ["t"%byte], []); (7, ["u"%byte], ["a"]); (8, ["v"%byte], ["a"])].

Definition sample_os : OS :=
  mkOS (<["/run/app/interstate.sock" := RegularFile]> (<["/run/dir" := Directory]> ∅))
       ∅ None None.

Definition sample_follower : Follower.FollowerNode Memory.Datastore :=
  Follower.mkFollowerNode (Memory.mkDatastore 7 ["s"%byte]) (mkConn [] false)
    ∅ 1 true true [].

Definition sample_header : list byte :=
  be_put 2 1 ++ be_put 8 0 ++ be_put 8 2 ++ be_put 8 7.

Definition sample_open_store : AppendOnly.World :=
  AppendOnly.mkWorld
    (AppendOnly.mkDatastore "/var/lib/app/state" (Some (AppendOnly.mkFile 26)) 1 0 2)
    (AppendOnly.mkDisk (Some (sample_header ++ ["h"%byte; "i"%byte]))
       AppendOnly.no_faults).

Definition sample_closed_store : AppendOnly.World :=
  AppendOnly.mkWorld
    (AppendOnly.mkDatastore "/var/lib/app/state" None 1 0 2)
    (AppendOnly.mkDisk (Some (sample_header ++ ["h"%byte; "i"%byte]))
       AppendOnly.no_faults).

(** A header whose Offset and NextOffset are both [2^63], and nothing
    after it: 26 bytes. *)
Definition far_offset_file : list byte := AppendOnly.header 1 (2 ^ 63) (2 ^ 63) 0.

(** The files of the tests of [Open]: file version 5; Offset 2 and
    NextOffset 1; Offset 100 and NextOffset 200. *)
Definition test_file_version_5 : list byte := be_put 2 5.
Definition test_file_offset_2_next_1 : list byte := be_put 2 1 ++ be_put 8 2 ++ be_put 8 1.
Definition test_file_offset_100_next_200 : list byte :=
  be_put 2 1 ++ be_put 8 100 ++ be_put 8 200.

Definition sample_free_os : OS := mkOS ∅ ∅ None None.

Definition sample_waiting_follower : Follower.FollowerNode Memory.Datastore :=
  Follower.mkFollowerNode (Memory.mkDatastore 7 ["s"%byte]) (mkConn [] false)
    (<[1 := []]> ∅) 2 true true [[]].

Definition sample_new_follower : Follower.FollowerNode Memory.Datastore :=
  Follower.mkFollowerNode Memory.NewDatastore (mkConn [] false) ∅ 1 false false [[]].

Definition sample_store_file : list byte := sample_header ++ ["h"%byte; "i"%byte].


(** * Properties *)

(** ** Bytes and big-endian integers *)

Lemma Z_of_byte_range (b : byte) : 0 <= Z_of_byte b < 256.
Proof.
  unfold Z_of_byte. pose proof (Byte.to_N_bounded b) as Hb. lia.
Qed.

Lemma land_255_range (z : Z) : 0 <= Z.land z 255 < 256.
Proof.
  change 255 with (Z.ones 8). rewrite Z.land_ones by lia.
  apply Z.mod_pos_bound. lia.
Qed.

Lemma Z_of_byte_of_Z (z : Z) : Z_of_byte (byte_of_Z z) = Z.land z 255.
Proof.
  unfold Z_of_byte, byte_of_Z.
  pose proof (land_255_range z) as Hr.
  destruct (Byte.of_N (Z.to_N (Z.land z 255))) as [b|] eqn:Hb; simpl.
  - apply Byte.to_of_N in Hb. rewrite Hb. lia.
  - apply Byte.of_N_None_iff in Hb. lia.
Qed.

Lemma byte_of_Z_of_byte (b : byte) : byte_of_Z (Z_of_byte b) = b.
Proof.
  unfold byte_of_Z.
  assert (Z.land (Z_of_byte b) 255 = Z_of_byte b) as ->.
  { change 255 with (Z.ones 8). rewrite Z.land_ones by lia.
    apply Z.mod_small, Z_of_byte_range. }
  unfold Z_of_byte. rewrite N2Z.id, Byte.of_to_N. reflexivity.
Qed.

Lemma length_be_put (n : nat) (v : Z) : length (be_put n v) = n.
Proof. induction n as [|n IH]; simpl; [reflexivity | now rewrite IH]. Qed.

(** Reading back a written integer keeps its low [8 * n] bits. *)
Lemma be_get_put (n : nat) (v : Z) :
  be_get (be_put n v) = Z.land v (Z.ones (8 * Z.of_nat n)).
Proof.
  induction n as [|n IH].
  - simpl. now rewrite Z.land_0_r.
  - cbn [be_put be_get]. rewrite IH, length_be_put, Z_of_byte_of_Z.
    apply Z.bits_inj'. intros i Hi.
    rewrite Z.lor_spec, Z.shiftl_spec, !Z.land_spec by lia.
    rewrite !(Z.testbit_ones_nonneg _ i) by lia.
    destruct (Z.ltb_spec i (8 * Z.of_nat n)) as [Hlt|Hge].
    + rewrite (Z.testbit_neg_r _ (i - 8 * Z.of_nat n)) by lia.
      rewrite (proj2 (Z.ltb_lt i (8 * Z.of_nat (S n)))) by lia.
      reflexivity.
    + rewrite ?Z.land_spec, Z.shiftr_spec by lia.
      change 255 with (Z.ones 8). rewrite Z.testbit_ones_nonneg by lia.
      replace (i - 8 * Z.of_nat n + 8 * Z.of_nat n) with i by lia.
      rewrite !andb_false_r, orb_false_r. f_equal.
      destruct (Z.ltb_spec (i - 8 * Z.of_nat n) 8),
               (Z.ltb_spec i (8 * Z.of_nat (S n))); try reflexivity; lia.
Qed.

Lemma be_get_put_small (n : nat) (v : Z) :
  0 <= v < 2 ^ (8 * Z.of_nat n) -> be_get (be_put n v) = v.
Proof.
  intros Hv. rewrite be_get_put, Z.land_ones by lia. now apply Z.mod_small.
Qed.

Lemma be_get_put_u64 (v : Z) : is_u64 v -> be_get (be_put 8 v) = v.
Proof. intros Hv. apply be_get_put_small. exact Hv. Qed.

Lemma int16_be_get_put (e : Z) : is_i16 e -> int16 (be_get (be_put 2 e)) = e.
Proof.
  unfold is_i16, int16, wrap. intros He.
  rewrite be_get_put, Z.land_ones by lia. change (8 * Z.of_nat 2) with 16.
  rewrite Z.mod_mod by lia.
  destruct (Z_lt_dec e 0) as [Hneg|Hpos].
  - assert (e mod 2 ^ 16 = e + 2 ^ 16) as ->.
    { symmetry. apply Z.mod_unique_pos with (q := -1); lia. }
    destruct (Z.ltb_spec (e + 2 ^ 16) (2 ^ 15)); lia.
  - rewrite Z.mod_small by lia.
    destruct (Z.ltb_spec e (2 ^ 15)); lia.
Qed.

(** ** Slices of a concatenation *)

Lemma slice_to_app (n : nat) (a b : list byte) :
  length a = n -> slice_to n (a ++ b) = Returns a.
Proof.
  intros <-. unfold slice_to.
  rewrite decide_True by (rewrite length_app; lia).
  now rewrite take_app_length.
Qed.

Lemma slice_from_app (n : nat) (a b : list byte) :
  length a = n -> slice_from n (a ++ b) = Returns b.
Proof.
  intros <-. unfold slice_from.
  rewrite decide_True by (rewrite length_app; lia).
  now rewrite drop_app_length.
Qed.

Lemma slice_app (lo hi : nat) (a b c : list byte) :
  length a = lo -> length b = (hi - lo)%nat -> (lo <= hi)%nat ->
  slice lo hi (a ++ b ++ c) = Returns b.
Proof.
  intros <- Hb Hle. unfold slice.
  rewrite decide_True by (rewrite !length_app; lia).
  rewrite drop_app_length, <- Hb. now rewrite take_app_length.
Qed.

Lemma BigEndian_Uint_put (n : nat) (v : Z) :
  BigEndian_Uint n (be_put n v) = Returns (be_get (be_put n v)).
Proof.
  unfold BigEndian_Uint.
  rewrite decide_True by (rewrite length_be_put; lia).
  rewrite firstn_all2 by (rewrite length_be_put; lia). reflexivity.
Qed.

(** ** The wire codec *)

Section Codec.
Import Wire.

Lemma GetMessageType_put (t : Z) (rest : list byte) :
  GetMessageType (be_put 2 t ++ rest) = Returns (int16 (be_get (be_put 2 t))).
Proof.
  unfold GetMessageType.
  rewrite slice_to_app by apply length_be_put.
  cbn [exec_bind]. rewrite BigEndian_Uint_put. reflexivity.
Qed.

Lemma UpdateRequest_Encode_layout (r : UpdateRequest) :
  UpdateRequest_Encode r =
  be_put 2 2 ++ be_put 8 (req_RequestID r) ++ be_put 8 (req_Version r) ++ req_Data r.
Proof.
  unfold UpdateRequest_Encode, binary_Append. now rewrite <- !app_assoc.
Qed.

Lemma UpdateResponse_Encode_layout (r : UpdateResponse) :
  UpdateResponse_Encode r =
  be_put 2 3 ++ be_put 8 (res_RequestID r) ++ be_put 2 (res_Error r) ++
  be_put 8 (res_Version r) ++ res_Data r.
Proof.
  unfold UpdateResponse_Encode, binary_Append. now rewrite <- !app_assoc.
Qed.

Lemma VersionUpdateMessage_Encode_layout (m : VersionUpdateMessage) :
  VersionUpdateMessage_Encode m = be_put 2 4 ++ be_put 8 (upd_Version m) ++ upd_Data m.
Proof.
  unfold VersionUpdateMessage_Encode, binary_Append. now rewrite <- !app_assoc.
Qed.

Ltac field_lengths :=
  repeat rewrite ?length_app, ?length_be_put; try reflexivity; try lia.

Lemma UpdateRequest_Decode_Encode (r r0 : UpdateRequest) :
  wf_UpdateRequest r ->
  UpdateRequest_Decode r0 (UpdateRequest_Encode r) = Returns (None, r).
Proof.
  intros [Hid Hver]. destruct r as [rid ver data]; cbn in Hid, Hver.
  rewrite UpdateRequest_Encode_layout; cbn [req_RequestID req_Version req_Data].
  unfold UpdateRequest_Decode.
  rewrite GetMessageType_put. cbn [exec_bind].
  rewrite decide_False by (intros Hne; now apply Hne).
  rewrite slice_from_app by field_lengths. cbn [exec_bind].
  rewrite slice_to_app by field_lengths. cbn [exec_bind].
  rewrite BigEndian_Uint_put. cbn [exec_bind].
  rewrite slice_app by field_lengths. cbn [exec_bind].
  rewrite BigEndian_Uint_put. cbn [exec_bind].
  rewrite (app_assoc (be_put 8 rid)), slice_from_app by field_lengths.
  cbn [exec_bind]. now rewrite !be_get_put_u64.
Qed.

Lemma UpdateResponse_Decode_Encode (r r0 : UpdateResponse) :
  wf_UpdateResponse r ->
  UpdateResponse_Decode r0 (UpdateResponse_Encode r) = Returns (None, r).
Proof.
  intros (He & Hid & Hver). destruct r as [e rid ver data]; cbn in He, Hid, Hver.
  rewrite UpdateResponse_Encode_layout;
    cbn [res_Error res_RequestID res_Version res_Data].
  unfold UpdateResponse_Decode.
  rewrite GetMessageType_put. cbn [exec_bind].
  rewrite decide_False by (intros Hne; now apply Hne).
  rewrite slice_from_app by field_lengths. cbn [exec_bind].
  rewrite slice_to_app by field_lengths. cbn [exec_bind].
  rewrite BigEndian_Uint_put. cbn [exec_bind].
  rewrite slice_app by field_lengths. cbn [exec_bind].
  rewrite BigEndian_Uint_put. cbn [exec_bind].
  rewrite (app_assoc (be_put 8 rid)).
  rewrite slice_app by field_lengths. cbn [exec_bind].
  rewrite BigEndian_Uint_put. cbn [exec_bind].
  rewrite (app_assoc (_ ++ _)), slice_from_app by field_lengths.
  cbn [exec_bind]. now rewrite !be_get_put_u64, int16_be_get_put.
Qed.

Lemma VersionUpdateMessage_Decode_Encode (m m0 : VersionUpdateMessage) :
  wf_VersionUpdateMessage m ->
  VersionUpdateMessage_Decode m0 (VersionUpdateMessage_Encode m) = Returns (None, m).
Proof.
  intros Hver. destruct m as [ver data]; cbn in Hver.
  rewrite VersionUpdateMessage_Encode_layout; cbn [upd_Version upd_Data].
  unfold VersionUpdateMessage_Decode.
  rewrite GetMessageType_put. cbn [exec_bind].
  rewrite decide_False by (intros Hne; now apply Hne).
  rewrite slice_from_app by field_lengths. cbn [exec_bind].
  rewrite slice_to_app by field_lengths. cbn [exec_bind].
  rewrite BigEndian_Uint_put. cbn [exec_bind].
  rewrite slice_from_app by field_lengths.
  cbn [exec_bind]. now rewrite !be_get_put_u64.
Qed.

End Codec.

Section CodecClaims.
Import Wire.

(** C2. Codec round trip. The body [Encode] produces is the two-byte
    big-endian type tag (2 for an UpdateRequest, 3 for an UpdateResponse, 4
    for a VersionUpdateMessage), then the fixed fields, big-endian, in the
    order of the taxonomy table, then the data up to the end of the frame;
    and the matching [Decode] of that body gives the message back, whatever
    the receiver held before. *)
Theorem codec_round_trip
  (rq : UpdateRequest) (rs : UpdateResponse) (vu : VersionUpdateMessage) :
  wf_UpdateRequest rq -> wf_UpdateResponse rs -> wf_VersionUpdateMessage vu ->
  (UpdateRequest_Encode rq =
     be_put 2 2 ++ be_put 8 (req_RequestID rq) ++ be_put 8 (req_Version rq)
     ++ req_Data rq
   /\ GetMessageType (UpdateRequest_Encode rq) = Returns MessageTypeUpdateRequest
   /\ forall r0, UpdateRequest_Decode r0 (UpdateRequest_Encode rq) = Returns (None, rq))
  /\
  (UpdateResponse_Encode rs =
     be_put 2 3 ++ be_put 8 (res_RequestID rs) ++ be_put 2 (res_Error rs)
     ++ be_put 8 (res_Version rs) ++ res_Data rs
   /\ GetMessageType (UpdateResponse_Encode rs) = Returns MessageTypeUpdateResponse
   /\ forall r0, UpdateResponse_Decode r0 (UpdateResponse_Encode rs) = Returns (None, rs))
  /\
  (VersionUpdateMessage_Encode vu =
     be_put 2 4 ++ be_put 8 (upd_Version vu) ++ upd_Data vu
   /\ GetMessageType (VersionUpdateMessage_Encode vu) = Returns MessageTypeVersionUpdate
   /\ forall m0, VersionUpdateMessage_Decode m0 (VersionUpdateMessage_Encode vu)
                 = Returns (None, vu)).
Proof.
  intros Hrq Hrs Hvu. split; [|split]; (split; [|split]).
  - apply UpdateRequest_Encode_layout.
  - rewrite UpdateRequest_Encode_layout. apply GetMessageType_put.
  - intros r0. now apply UpdateRequest_Decode_Encode.
  - apply UpdateResponse_Encode_layout.
  - rewrite UpdateResponse_Encode_layout. apply GetMessageType_put.
  - intros r0. now apply UpdateResponse_Decode_Encode.
  - apply VersionUpdateMessage_Encode_layout.
  - rewrite VersionUpdateMessage_Encode_layout. apply GetMessageType_put.
  - intros m0. now apply VersionUpdateMessage_Decode_Encode.
Qed.

Lemma codec_round_trip_witness :
  UpdateRequest_Decode UpdateRequest_zero (UpdateRequest_Encode sample_request)
    = Returns (None, sample_request)
  /\ UpdateResponse_Decode UpdateResponse_zero (UpdateResponse_Encode sample_response)
    = Returns (None, sample_response)
  /\ VersionUpdateMessage_Decode VersionUpdateMessage_zero
       (VersionUpdateMessage_Encode sample_update)
    = Returns (None, sample_update).
Proof.
  assert (wf_UpdateRequest sample_request) as H1 by (vm_compute; intuition congruence).
  assert (wf_UpdateResponse sample_response) as H2 by (vm_compute; intuition congruence).
  assert (wf_VersionUpdateMessage sample_update) as H3 by (vm_compute; intuition congruence).
  destruct (codec_round_trip sample_request sample_response sample_update H1 H2 H3)
    as ((_ & _ & Hq) & (_ & _ & Hs) & (_ & _ & Hu)).
  exact (conj (Hq _) (conj (Hs _) (Hu _))).
Defined.

End CodecClaims.

Section DecoderClaims.
Import Wire.

Lemma take_Encode_data (hdr data : list byte) (k : nat) :
  (length hdr <= k)%nat ->
  take k (hdr ++ data) = hdr ++ take (k - length hdr) data.
Proof.
  intros Hk. rewrite take_app.
  rewrite take_ge by lia. reflexivity.
Qed.

(** A decoder refuses a body of two or more bytes that carries another
    tag, and leaves its receiver as it was. *)
Lemma UpdateRequest_Decode_tag (r0 : UpdateRequest) (body : list byte) (mt : Z) :
  GetMessageType body = Returns mt -> mt <> MessageTypeUpdateRequest ->
  UpdateRequest_Decode r0 body
  = Returns (Some (ErrValue "unexpected message type" mt), r0).
Proof.
  intros Hmt Hne. unfold UpdateRequest_Decode. rewrite Hmt. cbn [exec_bind].
  now rewrite decide_True.
Qed.

Lemma UpdateResponse_Decode_tag (r0 : UpdateResponse) (body : list byte) (mt : Z) :
  GetMessageType body = Returns mt -> mt <> MessageTypeUpdateResponse ->
  UpdateResponse_Decode r0 body
  = Returns (Some (ErrValue "unexpected message type" mt), r0).
Proof.
  intros Hmt Hne. unfold UpdateResponse_Decode. rewrite Hmt. cbn [exec_bind].
  now rewrite decide_True.
Qed.

Lemma VersionUpdateMessage_Decode_tag
  (m0 : VersionUpdateMessage) (body : list byte) (mt : Z) :
  GetMessageType body = Returns mt -> mt <> MessageTypeVersionUpdate ->
  VersionUpdateMessage_Decode m0 body
  = Returns (Some (ErrValue "unexpected message type" mt), m0).
Proof.
  intros Hmt Hne. unfold VersionUpdateMessage_Decode. rewrite Hmt. cbn [exec_bind].
  now rewrite decide_True.
Qed.

Lemma GetMessageType_returns (body : list byte) :
  (2 <= length body)%nat -> exists mt, GetMessageType body = Returns mt.
Proof.
  intros Hlen. unfold GetMessageType, slice_to, BigEndian_Uint.
  rewrite decide_True by lia. cbn [exec_bind].
  rewrite decide_True by (rewrite length_take; lia). cbn [exec_bind].
  eauto.
Qed.

(** A prefix that keeps the tag and the fixed fields decodes without error,
    to the message with its data cut short. *)
Lemma UpdateRequest_Decode_prefix (r r0 : UpdateRequest) (k : nat) :
  wf_UpdateRequest r -> (18 <= k)%nat ->
  UpdateRequest_Decode r0 (take k (UpdateRequest_Encode r))
  = Returns (None, mkUpdateRequest (req_RequestID r) (req_Version r)
                     (take (k - 18) (req_Data r))).
Proof.
  intros Hwf Hk.
  rewrite <- (UpdateRequest_Decode_Encode
                (mkUpdateRequest (req_RequestID r) (req_Version r)
                   (take (k - 18) (req_Data r))) r0) by exact Hwf.
  f_equal. rewrite !UpdateRequest_Encode_layout. cbn [req_RequestID req_Version req_Data].
  set (hdr := be_put 2 2 ++ be_put 8 (req_RequestID r) ++ be_put 8 (req_Version r)).
  assert (length hdr = 18%nat) as Hlen by (subst hdr; now rewrite !length_app, !length_be_put).
  assert (forall d, be_put 2 2 ++ be_put 8 (req_RequestID r) ++ be_put 8 (req_Version r) ++ d
                    = hdr ++ d) as Hassoc
    by (intros d; subst hdr; now rewrite <- !app_assoc).
  rewrite !Hassoc, take_Encode_data by lia. now rewrite Hlen.
Qed.

Lemma UpdateResponse_Decode_prefix (r r0 : UpdateResponse) (k : nat) :
  wf_UpdateResponse r -> (20 <= k)%nat ->
  UpdateResponse_Decode r0 (take k (UpdateResponse_Encode r))
  = Returns (None, mkUpdateResponse (res_Error r) (res_RequestID r) (res_Version r)
                     (take (k - 20) (res_Data r))).
Proof.
  intros Hwf Hk.
  rewrite <- (UpdateResponse_Decode_Encode
                (mkUpdateResponse (res_Error r) (res_RequestID r) (res_Version r)
                   (take (k - 20) (res_Data r))) r0) by exact Hwf.
  f_equal. rewrite !UpdateResponse_Encode_layout.
  cbn [res_Error res_RequestID res_Version res_Data].
  set (hdr := be_put 2 3 ++ be_put 8 (res_RequestID r) ++ be_put 2 (res_Error r)
              ++ be_put 8 (res_Version r)).
  assert (length hdr = 20%nat) as Hlen by (subst hdr; now rewrite !length_app, !length_be_put).
  assert (forall d, be_put 2 3 ++ be_put 8 (res_RequestID r) ++ be_put 2 (res_Error r)
                    ++ be_put 8 (res_Version r) ++ d = hdr ++ d) as Hassoc
    by (intros d; subst hdr; now rewrite <- !app_assoc).
  rewrite !Hassoc, take_Encode_data by lia. now rewrite Hlen.
Qed.

Lemma VersionUpdateMessage_Decode_prefix (m m0 : VersionUpdateMessage) (k : nat) :
  wf_VersionUpdateMessage m -> (10 <= k)%nat ->
  VersionUpdateMessage_Decode m0 (take k (VersionUpdateMessage_Encode m))
  = Returns (None, mkVersionUpdateMessage (upd_Version m) (take (k - 10) (upd_Data m))).
Proof.
  intros Hwf Hk.
  rewrite <- (VersionUpdateMessage_Decode_Encode
                (mkVersionUpdateMessage (upd_Version m) (take (k - 10) (upd_Data m))) m0)
    by exact Hwf.
  f_equal. rewrite !VersionUpdateMessage_Encode_layout. cbn [upd_Version upd_Data].
  set (hdr := be_put 2 4 ++ be_put 8 (upd_Version m)).
  assert (length hdr = 10%nat) as Hlen by (subst hdr; now rewrite !length_app, !length_be_put).
  assert (forall d, be_put 2 4 ++ be_put 8 (upd_Version m) ++ d = hdr ++ d) as Hassoc
    by (intros d; subst hdr; now rewrite <- !app_assoc).
  rewrite !Hassoc, take_Encode_data by lia. now rewrite Hlen.
Qed.

(** C8, as the code has it. The decoders check the type tag and nothing
    else. A body of two or more bytes whose tag is not the decoder's is
    rejected with an error and the receiver is left as it was. Truncation
    is not detected: a prefix of an encoded message that still holds the tag
    and every fixed field (18 bytes for an UpdateRequest, 20 for an
    UpdateResponse, 10 for a VersionUpdateMessage) decodes without error to
    the message with its data cut short. *)
Theorem decoders_check_tag_only
  (rq : UpdateRequest) (rs : UpdateResponse) (vu : VersionUpdateMessage)
  (r0 : UpdateRequest) (s0 : UpdateResponse) (m0 : VersionUpdateMessage)
  (body : list byte) (k : nat) :
  wf_UpdateRequest rq -> wf_UpdateResponse rs -> wf_VersionUpdateMessage vu ->
  (2 <= length body)%nat ->
  (exists mt, GetMessageType body = Returns mt
     /\ (mt <> MessageTypeUpdateRequest ->
         UpdateRequest_Decode r0 body
         = Returns (Some (ErrValue "unexpected message type" mt), r0))
     /\ (mt <> MessageTypeUpdateResponse ->
         UpdateResponse_Decode s0 body
         = Returns (Some (ErrValue "unexpected message type" mt), s0))
     /\ (mt <> MessageTypeVersionUpdate ->
         VersionUpdateMessage_Decode m0 body
         = Returns (Some (ErrValue "unexpected message type" mt), m0)))
  /\ ((18 <= k)%nat ->
      UpdateRequest_Decode r0 (take k (UpdateRequest_Encode rq))
      = Returns (None, mkUpdateRequest (req_RequestID rq) (req_Version rq)
                         (take (k - 18) (req_Data rq))))
  /\ ((20 <= k)%nat ->
      UpdateResponse_Decode s0 (take k (UpdateResponse_Encode rs))
      = Returns (None, mkUpdateResponse (res_Error rs) (res_RequestID rs)
                         (res_Version rs) (take (k - 20) (res_Data rs))))
  /\ ((10 <= k)%nat ->
      VersionUpdateMessage_Decode m0 (take k (VersionUpdateMessage_Encode vu))
      = Returns (None, mkVersionUpdateMessage (upd_Version vu)
                         (take (k - 10) (upd_Data vu)))).
Proof.
  intros Hrq Hrs Hvu Hlen. split; [|split; [|split]].
  - destruct (GetMessageType_returns body Hlen) as [mt Hmt].
    exists mt. split; [exact Hmt|]. split; [|split]; intros Hne.
    + now apply UpdateRequest_Decode_tag.
    + now apply UpdateResponse_Decode_tag.
    + now apply VersionUpdateMessage_Decode_tag.
  - intros Hk. now apply UpdateRequest_Decode_prefix.
  - intros Hk. now apply UpdateResponse_Decode_prefix.
  - intros Hk. now apply VersionUpdateMessage_Decode_prefix.
Qed.

Lemma decoders_check_tag_only_witness :
  UpdateRequest_Decode UpdateRequest_zero (VersionUpdateMessage_Encode sample_update)
  = Returns (Some (ErrValue "unexpected message type" 4), UpdateRequest_zero)
  /\ UpdateResponse_Decode UpdateResponse_zero
       (take 20 (UpdateResponse_Encode sample_response))
     = Returns (None, mkUpdateResponse ResponseErrorMismatchedVersion 1 8 []).
Proof.
  assert (wf_UpdateRequest sample_request) as H1 by (vm_compute; intuition congruence).
  assert (wf_UpdateResponse sample_response) as H2 by (vm_compute; intuition congruence).
  assert (wf_VersionUpdateMessage sample_update) as H3 by (vm_compute; intuition congruence).
  assert (2 <= length (VersionUpdateMessage_Encode sample_update))%nat as H4
    by (vm_compute; lia).
  destruct (decoders_check_tag_only sample_request sample_response sample_update
              UpdateRequest_zero UpdateResponse_zero VersionUpdateMessage_zero
              (VersionUpdateMessage_Encode sample_update) 20 H1 H2 H3 H4)
    as ((mt & Hmt & Hq & _ & _) & _ & Hs & _).
  assert (mt = 4) as -> by (vm_compute in Hmt; congruence).
  split.
  - apply Hq. discriminate.
  - apply Hs. lia.
Defined.

(** C8, as the specification has it, fails: cutting the last byte off an
    encoded UpdateRequest gives a body that decodes without error; cutting
    it inside the fixed fields gives one on which the decoder panics. *)
Lemma truncation_is_not_rejected :
  let body := UpdateRequest_Encode sample_request in
  ((length (take 19 body) < length body)%nat
   /\ UpdateRequest_Decode UpdateRequest_zero (take 19 body)
      = Returns (None, mkUpdateRequest 1 7 ["t"%byte]))
  /\ ((length (take 17 body) < length body)%nat
      /\ UpdateRequest_Decode UpdateRequest_zero (take 17 body) = Panics).
Proof.
  cbv zeta. split; split.
  - vm_compute. lia.
  - vm_compute. reflexivity.
  - vm_compute. lia.
  - vm_compute. reflexivity.
Qed.

End DecoderClaims.

(** ** The in-memory datastore is lawful *)

#[export] Instance memory_lawful : LawfulDatastore Memory.Datastore.
Proof.
  split.
  - intros s s1 r Hget. cbv in Hget. injection Hget as <- <-. reflexivity.
  - intros v d s s1 Hput. cbv in Hput. injection Hput as <-.
    eexists. reflexivity.
Qed.

(** ** The leader's write *)

Section LeaderWrite.
Context {S : Type} `{LawfulDatastore S}.
Import Leader.

Implicit Types n : LeaderNode S.

Lemma write_mismatch n version data excl v d s1 :
  ds_Get (ds n) = Returns ((v, d, None), s1) -> version <> v ->
  write version data excl n
  = Returns ((v, [], Some ErrVersionMismatch),
             mkLeaderNode (clients n) s1 (watchChannels n)).
Proof.
  intros Hget Hne. unfold write, Version, bind, with_ds. rewrite Hget. cbn.
  now rewrite decide_True.
Qed.

Lemma write_accepted n data excl v d s1 s2 :
  ds_Get (ds n) = Returns ((v, d, None), s1) ->
  ds_Put (uint64 (v + 1)) data s1 = Returns (None, s2) ->
  write v data excl n
  = Returns ((uint64 (v + 1), data, None),
             mkLeaderNode (after_broadcast (uint64 (v + 1)) data excl (clients n))
               s2 (watchChannels n)).
Proof.
  intros Hget Hput. unfold write, Version, bind, with_ds. rewrite Hget. cbn.
  rewrite decide_False by (intros Hne; now apply Hne). cbn.
  rewrite Hput. cbn. unfold after_broadcast.
  destruct (decide (0 < size (clients n))%nat); reflexivity.
Qed.

Lemma write_put_fails n data excl v d s1 s2 e :
  ds_Get (ds n) = Returns ((v, d, None), s1) ->
  ds_Put (uint64 (v + 1)) data s1 = Returns (Some e, s2) ->
  write v data excl n
  = Returns ((v, [], Some (ErrWrap "failed to put data" e)),
             mkLeaderNode (clients n) s2 (watchChannels n)).
Proof.
  intros Hget Hput. unfold write, Version, bind, with_ds. rewrite Hget. cbn.
  rewrite decide_False by (intros Hne; now apply Hne). cbn.
  rewrite Hput. reflexivity.
Qed.

(** What a returned [write] tells about the store, when the store held
    version [v] before. *)
Lemma write_inv n version data excl v d s1 r n' :
  ds_Get (ds n) = Returns ((v, d, None), s1) ->
  write version data excl n = Returns (r, n') ->
  r.2 = None \/ r.2 = Some ErrVersionMismatch ->
  (r.2 = Some ErrVersionMismatch
   /\ ds_Get (ds n') = Returns ((v, d, None), ds n'))
  \/ (r.2 = None
      /\ exists s3, ds_Get (ds n') = Returns ((uint64 (v + 1), data, None), s3)).
Proof.
  intros Hget Hw Hr.
  destruct (decide (version = v)) as [->|Hne].
  - destruct (ds_Put (uint64 (v + 1)) data s1) as [[[e|] s2]|] eqn:Hput.
    + rewrite (write_put_fails _ _ _ _ _ _ _ _ Hget Hput) in Hw.
      injection Hw as <- <-. cbn in Hr. destruct Hr; discriminate.
    + rewrite (write_accepted _ _ _ _ _ _ _ Hget Hput) in Hw.
      injection Hw as <- <-. right. split; [reflexivity|].
      cbn. eapply put_get, Hput.
    + unfold write, Version, bind, with_ds in Hw. rewrite Hget in Hw. cbn in Hw.
      rewrite decide_False in Hw by (intros Hne; now apply Hne). cbn in Hw.
      rewrite Hput in Hw. discriminate.
  - rewrite (write_mismatch _ _ _ _ _ _ _ Hget Hne) in Hw.
    injection Hw as <- <-. left. split; [reflexivity|].
    cbn. eapply get_stable, Hget.
Qed.

Lemma uint64_range (a : Z) : is_u64 (uint64 a).
Proof. unfold is_u64, uint64, wrap. apply Z.mod_pos_bound. lia. Qed.

Lemma uint64_small (a : Z) : is_u64 a -> uint64 a = a.
Proof. unfold is_u64, uint64, wrap. intros Ha. now apply Z.mod_small. Qed.

Lemma uint64_add_l (a b : Z) : uint64 (uint64 a + b) = uint64 (a + b).
Proof. unfold uint64, wrap. now rewrite Z.add_mod_idemp_l by lia. Qed.

Lemma writes_version ws : forall n rs n' v d s1,
  is_u64 v ->
  ds_Get (ds n) = Returns ((v, d, None), s1) ->
  writes ws n = Returns (rs, n') ->
  Forall (fun r => r.2 = None \/ r.2 = Some ErrVersionMismatch) rs ->
  exists d' s',
    ds_Get (ds n')
    = Returns ((uint64 (v + Z.of_nat (length (filter (fun r => r.2 = None) rs))),
                d', None), s').
Proof.
  induction ws as [|[[version data] excl] ws IH]; intros n rs n' v d s1 Hv Hget Hw Hall.
  - cbn in Hw. injection Hw as <- <-. cbn.
    rewrite Z.add_0_r, uint64_small by exact Hv. eauto.
  - cbn [writes] in Hw. unfold bind in Hw.
    destruct (write version data excl n) as [[r n1]|] eqn:Hw1; [|discriminate].
    fold (@writes S _) in Hw.
    destruct (writes ws n1) as [[rs' n2]|] eqn:Hw2; [|discriminate].
    injection Hw as <- <-.
    apply Forall_cons in Hall as [Hr Hall].
    destruct (write_inv _ _ _ _ _ _ _ _ _ Hget Hw1 Hr) as [[Herr Hget1]|[Herr [s3 Hget1]]].
    + destruct (IH _ _ _ _ _ _ Hv Hget1 Hw2 Hall) as (d' & s' & Hfin).
      exists d', s'. rewrite Hfin.
      rewrite filter_cons_False by (rewrite Herr; discriminate). reflexivity.
    + destruct (IH _ _ _ _ _ _ (uint64_range _) Hget1 Hw2 Hall) as (d' & s' & Hfin).
      exists d', s'. rewrite Hfin.
      rewrite filter_cons_True by exact Herr. cbn [length].
      rewrite uint64_add_l.
      set (k := length (filter (fun r => r.2 = None) rs')).
      replace (v + 1 + Z.of_nat k) with (v + Z.of_nat (Datatypes.S k)) by lia.
      reflexivity.
Qed.

(** C1. Postcondition of the leader's [write] on a datastore that holds
    version [v]. An expected version other than [v] gives
    [(v, nil, ErrVersionMismatch)]; no [Put] runs and the store still holds
    what it held. The expected version [v] with a [Put] that succeeds puts
    [(v+1, data)] and gives [(v+1, data, nil)]; with a [Put] that fails it
    gives [v] and the error. Hence after any run of writes, each accepted or
    turned down for its version, the store holds the initial version plus
    the number of accepted writes. Versions are [uint64]: [v+1] is taken
    modulo [2^64], and is [v+1] itself while that fits. *)
Theorem leader_write_postcondition n version data excl v d s1 :
  is_u64 v ->
  ds_Get (ds n) = Returns ((v, d, None), s1) ->
  (version <> v ->
     write version data excl n
     = Returns ((v, [], Some ErrVersionMismatch),
                mkLeaderNode (clients n) s1 (watchChannels n))
     /\ ds_Get s1 = Returns ((v, d, None), s1))
  /\ (version = v ->
      (forall s2, ds_Put (uint64 (v + 1)) data s1 = Returns (None, s2) ->
         write version data excl n
         = Returns ((uint64 (v + 1), data, None),
                    mkLeaderNode (after_broadcast (uint64 (v + 1)) data excl (clients n))
                      s2 (watchChannels n))
         /\ exists s3, ds_Get s2 = Returns ((uint64 (v + 1), data, None), s3))
      /\ (forall e s2, ds_Put (uint64 (v + 1)) data s1 = Returns (Some e, s2) ->
         write version data excl n
         = Returns ((v, [], Some (ErrWrap "failed to put data" e)),
                    mkLeaderNode (clients n) s2 (watchChannels n))))
  /\ (forall ws rs n',
      writes ws n = Returns (rs, n') ->
      Forall (fun r => r.2 = None \/ r.2 = Some ErrVersionMismatch) rs ->
      let k := Z.of_nat (length (filter (fun r => r.2 = None) rs)) in
      (exists d' s', ds_Get (ds n') = Returns ((uint64 (v + k), d', None), s'))
      /\ (v + k < 2 ^ 64 -> uint64 (v + k) = v + k)).
Proof.
  intros Hv Hget. split; [|split].
  - intros Hne. split.
    + now apply write_mismatch with (d := d).
    + eapply get_stable, Hget.
  - intros ->. split.
    + intros s2 Hput. split.
      * now apply write_accepted with (d := d) (s1 := s1).
      * eapply put_get, Hput.
    + intros e s2 Hput. now apply write_put_fails with (d := d) (s1 := s1).
  - intros ws rs n' Hw Hall k. split.
    + eapply writes_version; eassumption.
    + intros Hk. apply uint64_small. unfold is_u64 in *. subst k. lia.
Qed.

End LeaderWrite.

Lemma leader_write_postcondition_witness :
  Leader.write 5 ["t"%byte] [] sample_leader
  = Returns ((7, [], Some ErrVersionMismatch), sample_leader)
  /\ (exists n',
        Leader.write 7 ["t"%byte] ["a"] sample_leader
        = Returns ((8, ["t"%byte], None), n')
        /\ Leader.ds n' = Memory.mkDatastore 8 ["t"%byte])
  /\ (exists rs n' d' s',
        Leader.writes sample_writes sample_leader = Returns (rs, n')
        /\ ds_Get (Leader.ds n') = Returns ((9, d', None), s')).
Proof.
  assert (is_u64 7) as Hv by (vm_compute; intuition congruence).
  assert (ds_Get (Leader.ds sample_leader)
          = Returns ((7, ["s"%byte], None), Leader.ds sample_leader)) as Hget
    by reflexivity.
  split; [|split].
  - destruct (leader_write_postcondition sample_leader 5 ["t"%byte] [] 7 _ _ Hv Hget)
      as (Hmis & _ & _).
    assert (5 <> 7) as Hne by discriminate.
    destruct (Hmis Hne) as [Hw _]. exact Hw.
  - destruct (leader_write_postcondition sample_leader 7 ["t"%byte] ["a"] 7 _ _ Hv Hget)
      as (_ & Hacc & _).
    destruct (Hacc eq_refl) as [Hok _].
    destruct (Hok (Memory.mkDatastore 8 ["t"%byte]) eq_refl) as [Hw _].
    eexists. split; [exact Hw|reflexivity].
  - destruct (leader_write_postcondition sample_leader 7 [] [] 7 _ _ Hv Hget)
      as (_ & _ & Hrun).
    destruct (Leader.writes sample_writes sample_leader) as [[rs n']|] eqn:Hw;
      [|vm_compute in Hw; discriminate].
    assert (Forall (fun r => r.2 = None \/ r.2 = Some ErrVersionMismatch) rs) as Hall.
    { vm_compute in Hw. injection Hw as <- <-.
      repeat first [apply Forall_nil | apply Forall_cons; split]; cbn; auto. }
    destruct (Hrun _ rs n' Hw Hall) as [(d' & s' & Hfin) _].
    exists rs, n', d', s'. split; [reflexivity|].
    rewrite Hfin. vm_compute in Hw. injection Hw as <- <-. reflexivity.
Defined.

(** ** The leader's handling of an UpdateRequest *)

Section LeaderRequest.
Context {S : Type} `{Datastore S}.
Import Leader.

Implicit Types n : LeaderNode S.

Lemma lookup_broadcast (msg : list byte) (excl : list string)
  (cs : gmap string Conn) (k : string) :
  broadcast msg excl cs !! k
  = (fun c => if decide (k ∈ excl) then c else snd (Conn_Write msg c)) <$> cs !! k.
Proof.
  unfold broadcast. rewrite map_lookup_imap.
  destruct (cs !! k); reflexivity.
Qed.

Lemma after_broadcast_nonempty version data excl (cs : gmap string Conn) k c :
  cs !! k = Some c ->
  after_broadcast version data excl cs = broadcast (update_frame version data) excl cs.
Proof.
  intros Hk. unfold after_broadcast.
  rewrite decide_True; [reflexivity|].
  assert (size cs <> 0%nat) by (eapply map_size_ne_0_lookup_2; eauto). lia.
Qed.

Lemma Conn_Write_open (msg : list byte) (c : Conn) :
  closed c = false -> snd (Conn_Write msg c) = mkConn (sent c ++ [msg]) false.
Proof. intros Hc. unfold Conn_Write. rewrite Hc. reflexivity. Qed.

(** The node an accepted request of client [c] leaves behind. *)
Lemma handleClientRequest_accepted n c conn rid v data d s1 s2 :
  is_u64 rid -> is_u64 v ->
  clients n !! c = Some conn ->
  ds_Get (ds n) = Returns ((v, d, None), s1) ->
  ds_Put (uint64 (v + 1)) data s1 = Returns (None, s2) ->
  handleClientRequest c
    (Wire.UpdateRequest_Encode (Wire.mkUpdateRequest rid v data)) n
  = Returns (tt,
      mkLeaderNode
        (<[c := snd (Conn_Write
                      (response_frame Wire.ResponseErrorNone rid (uint64 (v + 1)) data)
                      conn)]>
           (broadcast (update_frame (uint64 (v + 1)) data) [c] (clients n)))
        s2
        ((fun ch => ch ++ [NewVersion (uint64 (v + 1)) data]) <$> watchChannels n)).
Proof.
  intros Hrid Hv Hc Hget Hput.
  unfold handleClientRequest, bind, lift_exec.
  rewrite UpdateRequest_Encode_layout at 1.
  rewrite GetMessageType_put.
  rewrite decide_True by reflexivity.
  rewrite UpdateRequest_Decode_Encode by (split; assumption).
  cbn [Wire.req_Version Wire.req_Data Wire.req_RequestID].
  assert (forall excl,
    write v data excl n
    = Returns ((uint64 (v + 1), data, None),
               mkLeaderNode (after_broadcast (uint64 (v + 1)) data excl (clients n))
                 s2 (watchChannels n))) as Hw.
  { intros excl. unfold write, Version, bind, with_ds. rewrite Hget. cbn.
    rewrite decide_False by (intros Hne; now apply Hne). cbn.
    rewrite Hput. cbn. unfold after_broadcast.
    destruct (decide (0 < size (clients n))%nat); reflexivity. }
  rewrite Hw. cbn [get clients].
  rewrite (after_broadcast_nonempty _ _ _ _ _ _ Hc), lookup_broadcast, Hc.
  cbn. rewrite decide_True by apply list_elem_of_singleton, eq_refl. reflexivity.
Qed.

(** C3. When the leader accepts the UpdateRequest of client [c], every
    other client in the map gets one [Write] of the frame
    [VersionUpdate(v+1, data)], and [c] gets one [Write], of the
    [UpdateResponse] that carries its request id, no error and
    [(v+1, data)]; the set of clients is as before. *)
Theorem broadcast_excludes_originator n c conn rid v data d s1 s2 :
  is_u64 rid -> is_u64 v ->
  clients n !! c = Some conn ->
  ds_Get (ds n) = Returns ((v, d, None), s1) ->
  ds_Put (uint64 (v + 1)) data s1 = Returns (None, s2) ->
  exists n',
    handleClientRequest c
      (Wire.UpdateRequest_Encode (Wire.mkUpdateRequest rid v data)) n
    = Returns (tt, n')
    /\ ds n' = s2
    /\ (forall k ck, k <> c -> clients n !! k = Some ck ->
          clients n' !! k
          = Some (snd (Conn_Write (update_frame (uint64 (v + 1)) data) ck)))
    /\ clients n' !! c
       = Some (snd (Conn_Write
                      (response_frame Wire.ResponseErrorNone rid (uint64 (v + 1)) data)
                      conn))
    /\ (forall k, clients n !! k = None -> clients n' !! k = None).
Proof.
  intros Hrid Hv Hc Hget Hput.
  eexists. split; [eapply handleClientRequest_accepted; eassumption|].
  cbn [ds clients]. split; [reflexivity|]. split; [|split].
  - intros k ck Hne Hk.
    rewrite lookup_insert_ne by congruence.
    rewrite lookup_broadcast, Hk. cbn.
    rewrite decide_False by (intros Hin; apply list_elem_of_singleton in Hin; congruence).
    reflexivity.
  - apply lookup_insert_eq.
  - intros k Hk.
    rewrite lookup_insert_ne by congruence.
    now rewrite lookup_broadcast, Hk.
Qed.

End LeaderRequest.

Lemma broadcast_excludes_originator_witness :
  exists n',
    Leader.handleClientRequest "a"
      (Wire.UpdateRequest_Encode (Wire.mkUpdateRequest 1 7 ["t"%byte])) sample_leader
    = Returns (tt, n')
    /\ Leader.clients n' !! "b"
       = Some (mkConn [Leader.update_frame 8 ["t"%byte]] false)
    /\ Leader.clients n' !! "a"
       = Some (mkConn [Leader.response_frame Wire.ResponseErrorNone 1 8 ["t"%byte]] false).
Proof.
  assert (is_u64 1) as Hrid by (vm_compute; intuition congruence).
  assert (is_u64 7) as Hv by (vm_compute; intuition congruence).
  assert (Leader.clients sample_leader !! "a" = Some (mkConn [] false)) as Hc
    by reflexivity.
  assert (ds_Get (Leader.ds sample_leader)
          = Returns ((7, ["s"%byte], None), Leader.ds sample_leader)) as Hget
    by reflexivity.
  assert (ds_Put (uint64 (7 + 1)) ["t"%byte] (Leader.ds sample_leader)
          = Returns (None, Memory.mkDatastore 8 ["t"%byte])) as Hput
    by reflexivity.
  destruct (broadcast_excludes_originator sample_leader "a" (mkConn [] false)
              1 7 ["t"%byte] ["s"%byte] (Leader.ds sample_leader)
              (Memory.mkDatastore 8 ["t"%byte]) Hrid Hv Hc Hget Hput)
    as (n' & Hrun & _ & Hothers & Hself & _).
  exists n'. split; [exact Hrun|]. split.
  - rewrite (Hothers "b" (mkConn [] false)); [reflexivity|discriminate|reflexivity].
  - rewrite Hself. reflexivity.
Defined.

(** ** Construction of the leader *)

Section LeaderConstruction.
Context {S : Type} `{Datastore S}.

(** C9. With a file that is not a directory at the endpoint's path,
    [NewLeaderNode] returns [ErrLeaderAlreadyExists]; the datastore is as
    it was (it has not been opened) and so is the operating system (no
    listener has been bound). With a directory there it returns another
    error, which [errors.Is] does not take for [ErrLeaderAlreadyExists],
    again without touching either. *)
Theorem leader_mutual_exclusion (socket : string) (ds : S) (os : OS) (e : entry) :
  stat_fault os = None ->
  fs os !! socket = Some e ->
  (e <> Directory ->
     Leader.NewLeaderNode socket ds os
     = Returns (None, Some ErrLeaderAlreadyExists, ds, os))
  /\ (e = Directory ->
      exists err,
        Leader.NewLeaderNode socket ds os = Returns (None, Some err, ds, os)
        /\ err = ErrWrap "failed to check if socket exists" (ErrNew "path is a directory")
        /\ errors_Is err ErrLeaderAlreadyExists = false).
Proof.
  intros Hstat Hentry. split.
  - intros Hfile. unfold Leader.NewLeaderNode, fileExists, os_Stat.
    rewrite Hstat, Hentry. destruct e; [contradiction| |]; reflexivity.
  - intros ->. eexists. split; [|split; reflexivity].
    unfold Leader.NewLeaderNode, fileExists, os_Stat.
    rewrite Hstat, Hentry. reflexivity.
Qed.

End LeaderConstruction.

Lemma leader_mutual_exclusion_witness :
  Leader.NewLeaderNode "/run/app/interstate.sock" Memory.NewDatastore sample_os
  = Returns (None, Some ErrLeaderAlreadyExists, Memory.NewDatastore, sample_os)
  /\ exists err,
       Leader.NewLeaderNode "/run/dir" Memory.NewDatastore sample_os
       = Returns (None, Some err, Memory.NewDatastore, sample_os)
       /\ errors_Is err ErrLeaderAlreadyExists = false.
Proof.
  assert (stat_fault sample_os = None) as Hstat by reflexivity.
  assert (fs sample_os !! "/run/app/interstate.sock" = Some RegularFile) as Hfile
    by reflexivity.
  assert (fs sample_os !! "/run/dir" = Some Directory) as Hdir by reflexivity.
  split.
  - apply (leader_mutual_exclusion _ Memory.NewDatastore sample_os RegularFile Hstat Hfile).
    discriminate.
  - destruct (leader_mutual_exclusion _ Memory.NewDatastore sample_os Directory Hstat Hdir)
      as [_ Hd].
    destruct (Hd eq_refl) as (err & Hrun & _ & His).
    exists err. split; assumption.
Defined.

(** ** The follower's write *)

Section FollowerWrite.
Context {S : Type} `{Datastore S}.
Import Follower.

Implicit Types n : FollowerNode S.

Lemma Write_send_mismatch n version data v d s1 :
  ds_Get (ds n) = Returns ((v, d, None), s1) -> version <> v ->
  Write_send version data n = Returns (Some ErrVersionMismatch, set_ds s1 n).
Proof.
  intros Hget Hne. unfold Write_send, Version, bind, with_ds. rewrite Hget. cbn.
  now rewrite decide_True.
Qed.

Lemma Write_send_sent n data v d s1 :
  ds_Get (ds n) = Returns ((v, d, None), s1) -> closed (server n) = false ->
  Write_send v data n
  = Returns (None,
             mkFollowerNode s1
               (mkConn (sent (server n) ++ [request_frame (nextRequestID n) v data]) false)
               (requests n) (nextRequestID n) (ready n) (readyChan n) (watchChannels n)).
Proof.
  intros Hget Hopen. unfold Write_send, Version, bind, with_ds. rewrite Hget. cbn.
  rewrite decide_False by (intros Hne; now apply Hne). cbn.
  unfold server_Write, Conn_Write. cbn. rewrite Hopen. reflexivity.
Qed.

Lemma Write_send_fails n data v d s1 :
  ds_Get (ds n) = Returns ((v, d, None), s1) -> closed (server n) = true ->
  Write_send v data n
  = Returns (Some (ErrWrap "failed to write to server"
                     (ErrNew "use of closed network connection")),
             set_ds s1 n).
Proof.
  intros Hget Hclosed. unfold Write_send, Version, bind, with_ds. rewrite Hget. cbn.
  rewrite decide_False by (intros Hne; now apply Hne). cbn.
  unfold server_Write, Conn_Write. cbn. rewrite Hclosed. cbn.
  unfold set_ds. destruct (server n); reflexivity.
Qed.

Lemma Write_register_spec n :
  Write_register n
  = Returns (nextRequestID n,
             mkFollowerNode (ds n) (server n) (<[nextRequestID n := []]> (requests n))
               (uint64 (nextRequestID n + 1)) (ready n) (readyChan n) (watchChannels n)).
Proof. reflexivity. Qed.

Lemma Write_awaiting n data res v d s1 :
  ds_Get (ds n) = Returns ((v, d, None), s1) -> closed (server n) = false ->
  Write v data res n = Write_translate data res (awaiting n s1 v data).
Proof.
  intros Hget Hopen. unfold Write, bind at 1.
  rewrite (Write_send_sent _ _ _ _ _ Hget Hopen). reflexivity.
Qed.

(** C4. How the follower's [Write] turns the leader's answer into its
    result. An expected version other than the local one gives
    [ErrVersionMismatch] and nothing is written to the connection. Else,
    once the request is sent, a response with code [None] makes the
    follower put the data it sent under the response's version, and the
    result of [Write] is the result of that [Put]; [MismatchedVersion]
    gives [ErrVersionMismatch], [WriteFailed] gives [ErrLeaderFailedToWrite],
    and any other code an error that is none of the named ones. *)
Theorem follower_write_translation n version data res v d s1 :
  ds_Get (ds n) = Returns ((v, d, None), s1) ->
  (version <> v ->
     Write version data res n = Returns (Some ErrVersionMismatch, set_ds s1 n)
     /\ server (set_ds s1 n) = server n)
  /\ (version = v -> closed (server n) = false ->
      let n2 := awaiting n s1 v data in
      (Wire.res_Error res = Wire.ResponseErrorNone ->
         Write version data res n = with_ds (ds_Put (Wire.res_Version res) data) n2
         /\ forall s2, ds_Put (Wire.res_Version res) data s1 = Returns (None, s2) ->
              Write version data res n = Returns (None, set_ds s2 n2))
      /\ (Wire.res_Error res = Wire.ResponseErrorMismatchedVersion ->
          Write version data res n = Returns (Some ErrVersionMismatch, n2))
      /\ (Wire.res_Error res = Wire.ResponseErrorWriteFailed ->
          Write version data res n = Returns (Some ErrLeaderFailedToWrite, n2))
      /\ (Wire.res_Error res <> Wire.ResponseErrorNone ->
          Wire.res_Error res <> Wire.ResponseErrorMismatchedVersion ->
          Wire.res_Error res <> Wire.ResponseErrorWriteFailed ->
          Write version data res n
          = Returns (Some (ErrValue "unknown error" (Wire.res_Error res)), n2))).
Proof.
  intros Hget. split.
  - intros Hne. split; [|reflexivity].
    unfold Write, bind. now rewrite (Write_send_mismatch _ _ _ _ _ _ Hget Hne).
  - intros -> Hopen n2.
    rewrite (Write_awaiting _ _ _ _ _ _ Hget Hopen). fold n2.
    unfold Write_translate. split; [|split; [|split]].
    + intros Hcode. rewrite decide_True by exact Hcode. split; [reflexivity|].
      intros s2 Hput. unfold with_ds. cbn [ds n2 awaiting]. rewrite Hput. reflexivity.
    + intros Hcode. rewrite Hcode. reflexivity.
    + intros Hcode. rewrite Hcode. reflexivity.
    + intros H0 H1 H2. now rewrite !decide_False.
Qed.

Lemma handleMessage_response n (res : Wire.UpdateResponse) :
  Wire.wf_UpdateResponse res ->
  handleMessage (Wire.UpdateResponse_Encode res) n
  = Returns (tt,
      match requests n !! Wire.res_RequestID res with
      | Some ch =>
          mkFollowerNode (ds n) (server n)
            (<[Wire.res_RequestID res := ch ++ [res]]> (requests n))
            (nextRequestID n) (ready n) (readyChan n) (watchChannels n)
      | None => n
      end).
Proof.
  intros Hwf. unfold handleMessage, bind, lift_exec.
  rewrite UpdateResponse_Encode_layout at 1. rewrite GetMessageType_put.
  rewrite decide_True by reflexivity.
  rewrite UpdateResponse_Decode_Encode by exact Hwf. cbn [get].
  destruct (requests n !! Wire.res_RequestID res); reflexivity.
Qed.

(** C5. The code sends first and registers afterwards, and an answer
    handled in between is lost. Take a call that passes the version check
    on an open connection, with no slot under the current [nextRequestID].
    When [n.server.Write] has returned, the request is on the wire and
    there is still no slot under its id. [handleMessage], given the answer
    to that request at this point, finds no slot, drops the answer and
    leaves the node as it is. The registration that follows enters an
    empty slot, and that is the channel [Write] then receives from: the
    one answer to the request is gone. Handled after the registration, the
    same answer is delivered to the slot. *)
Theorem answer_before_registration_is_lost n data v d s1 (res : Wire.UpdateResponse) :
  ds_Get (ds n) = Returns ((v, d, None), s1) ->
  closed (server n) = false ->
  requests n !! nextRequestID n = None ->
  Wire.wf_UpdateResponse res ->
  Wire.res_RequestID res = nextRequestID n ->
  let id := nextRequestID n in
  let answer := Wire.UpdateResponse_Encode res in
  exists n1 n2 n3,
    Write_send v data n = Returns (None, n1)
    /\ sent (server n1) = sent (server n) ++ [request_frame id v data]
    /\ requests n1 !! id = None
    /\ handleMessage answer n1 = Returns (tt, n1)
    /\ Write_register n1 = Returns (id, n2)
    /\ requests n2 !! id = Some []
    /\ handleMessage answer n2 = Returns (tt, n3)
    /\ requests n3 !! id = Some [res].
Proof.
  intros Hget Hopen Hfree Hres Hid id answer.
  do 3 eexists.
  split; [apply (Write_send_sent _ _ _ _ _ Hget Hopen)|].
  cbn [server sent requests].
  split; [reflexivity|]. split; [exact Hfree|].
  split.
  { subst answer. rewrite (handleMessage_response _ res Hres).
    cbn [requests]. rewrite Hid, Hfree. reflexivity. }
  split; [rewrite Write_register_spec; reflexivity|].
  cbn [requests nextRequestID].
  split; [apply lookup_insert_eq|].
  split.
  { subst answer. rewrite (handleMessage_response _ res Hres).
    cbn [requests]. rewrite Hid, lookup_insert_eq. reflexivity. }
  cbn [requests]. apply lookup_insert_eq.
Qed.

End FollowerWrite.

Lemma follower_write_translation_witness :
  Follower.Write 5 ["t"%byte] sample_response sample_follower
  = Returns (Some ErrVersionMismatch, sample_follower)
  /\ Follower.Write 7 ["t"%byte] (Wire.mkUpdateResponse Wire.ResponseErrorNone 1 8 [])
       sample_follower
     = Returns (None,
                Follower.set_ds (Memory.mkDatastore 8 ["t"%byte])
                  (Follower.awaiting sample_follower (Follower.ds sample_follower)
                     7 ["t"%byte]))
  /\ Follower.Write 7 ["t"%byte] sample_response sample_follower
     = Returns (Some ErrVersionMismatch,
                Follower.awaiting sample_follower (Follower.ds sample_follower)
                  7 ["t"%byte]).
Proof.
  assert (ds_Get (Follower.ds sample_follower)
          = Returns ((7, ["s"%byte], None), Follower.ds sample_follower)) as Hget
    by reflexivity.
  assert (closed (Follower.server sample_follower) = false) as Hopen by reflexivity.
  split; [|split].
  - destruct (follower_write_translation sample_follower 5 ["t"%byte]
                sample_response 7 _ _ Hget) as [Hmis _].
    assert (5 <> 7) as Hne by discriminate.
    destruct (Hmis Hne) as [Hw _]. exact Hw.
  - destruct (follower_write_translation sample_follower 7 ["t"%byte]
                (Wire.mkUpdateResponse Wire.ResponseErrorNone 1 8 []) 7 _ _ Hget)
      as [_ Hacc].
    destruct (Hacc eq_refl Hopen) as [Hnone _].
    destruct (Hnone eq_refl) as [_ Hput].
    apply Hput. reflexivity.
  - destruct (follower_write_translation sample_follower 7 ["t"%byte]
                sample_response 7 _ _ Hget) as [_ Hacc].
    destruct (Hacc eq_refl Hopen) as (_ & Hmism & _).
    apply Hmism. reflexivity.
Defined.

Lemma answer_before_registration_is_lost_witness :
  exists n1 n2,
    Follower.Write_send 7 ["t"%byte] sample_follower = Returns (None, n1)
    /\ sent (Follower.server n1) = [Follower.request_frame 1 7 ["t"%byte]]
    /\ Follower.requests n1 !! 1 = None
    /\ Follower.handleMessage
         (Wire.UpdateResponse_Encode
            (Wire.mkUpdateResponse Wire.ResponseErrorNone 1 8 ["t"%byte])) n1
       = Returns (tt, n1)
    /\ Follower.Write_register n1 = Returns (1, n2)
    /\ Follower.requests n2 !! 1 = Some [].
Proof.
  assert (ds_Get (Follower.ds sample_follower)
          = Returns ((7, ["s"%byte], None), Follower.ds sample_follower)) as Hget
    by reflexivity.
  assert (closed (Follower.server sample_follower) = false) as Hopen by reflexivity.
  assert (Follower.requests sample_follower !! Follower.nextRequestID sample_follower
          = None) as Hfree by reflexivity.
  assert (Wire.wf_UpdateResponse
            (Wire.mkUpdateResponse Wire.ResponseErrorNone 1 8 ["t"%byte])) as Hres
    by (vm_compute; intuition congruence).
  destruct (answer_before_registration_is_lost sample_follower ["t"%byte] 7 _ _
              (Wire.mkUpdateResponse Wire.ResponseErrorNone 1 8 ["t"%byte])
              Hget Hopen Hfree Hres eq_refl)
    as (n1 & n2 & _ & H1 & H2 & H3 & H4 & H5 & H6 & _).
  exists n1, n2. repeat split; assumption.
Defined.

(** ** The append-only log: open and close *)

Section AppendOnlyOpenClose.
Import AppendOnly.

Lemma Get_not_open (w : World) :
  file (aof w) = None -> Get w = Returns ((0, [], Some ErrFileNotOpen), w).
Proof. intros Hf. unfold Get, bind, get. cbn. now rewrite Hf. Qed.

Lemma Put_not_open (v : Z) (data : list byte) (w : World) :
  file (aof w) = None -> Put v data w = Returns (Some ErrFileNotOpen, w).
Proof. intros Hf. unfold Put, bind, get. cbn. now rewrite Hf. Qed.

Lemma Close_returns_nil (w w' : World) :
  Close w = Returns (None, w') -> file (aof w') = None.
Proof.
  unfold Close, bind, get, file_Close. cbn.
  destruct (file (aof w)) as [f|] eqn:Hf; cbn.
  - destruct (close_fault (faults (disk w))); cbn; [discriminate|].
    intros Hw. injection Hw as <-. reflexivity.
  - intros Hw. injection Hw as <-. exact Hf.
Qed.

(** C10. [Open] on a store that is open returns nil at once and changes
    nothing, neither the handle nor the header fields in memory nor the
    file; [Close] on a store that is not open returns nil and changes
    nothing; after a [Close] that returned nil, [Get] and [Put] return
    [ErrFileNotOpen]. *)
Theorem open_close_idempotent (w : World) :
  (forall f, file (aof w) = Some f -> Open w = Returns (None, w))
  /\ (file (aof w) = None -> Close w = Returns (None, w))
  /\ (forall w', Close w = Returns (None, w') ->
        Get w' = Returns ((0, [], Some ErrFileNotOpen), w')
        /\ forall v data, Put v data w' = Returns (Some ErrFileNotOpen, w')).
Proof.
  split; [|split].
  - intros f Hf. unfold Open, bind, get. cbn. now rewrite Hf.
  - intros Hf. unfold Close, bind, get. cbn. now rewrite Hf.
  - intros w' Hclose. apply Close_returns_nil in Hclose. split.
    + now apply Get_not_open.
    + intros v data. now apply Put_not_open.
Qed.

End AppendOnlyOpenClose.

Lemma open_close_idempotent_witness :
  AppendOnly.Open sample_open_store = Returns (None, sample_open_store)
  /\ AppendOnly.Close sample_closed_store = Returns (None, sample_closed_store)
  /\ AppendOnly.Close sample_open_store = Returns (None, sample_closed_store)
  /\ AppendOnly.Get sample_closed_store
     = Returns ((0, [], Some ErrFileNotOpen), sample_closed_store)
  /\ AppendOnly.Put 8 ["x"%byte] sample_closed_store
     = Returns (Some ErrFileNotOpen, sample_closed_store).
Proof.
  assert (AppendOnly.Close sample_open_store = Returns (None, sample_closed_store))
    as Hclose by reflexivity.
  destruct (open_close_idempotent sample_open_store) as (Hopen & _ & Hafter).
  destruct (open_close_idempotent sample_closed_store) as (_ & Hclosed & _).
  destruct (Hafter _ Hclose) as [Hget Hput].
  split; [exact (Hopen _ eq_refl)|].
  split; [exact (Hclosed eq_refl)|].
  split; [exact Hclose|].
  split; [exact Hget|exact (Hput _ _)].
Defined.

(** ** The append-only log: validation on open *)

(** The three tests of [Open] in datastore_test.go. *)
Example Open_test_file_version :
  returned (AppendOnly.Open (AppendOnly.closed_on "f" (Some test_file_version_5)))
  = Returns (Some ErrUnexpectedFileVersion).
Proof. vm_compute. reflexivity. Qed.

Example Open_test_next_offset :
  returned (AppendOnly.Open (AppendOnly.closed_on "f" (Some test_file_offset_2_next_1)))
  = Returns (Some ErrNextOffsetOutOfRange).
Proof. vm_compute. reflexivity. Qed.

Example Open_test_offset :
  returned (AppendOnly.Open (AppendOnly.closed_on "f" (Some test_file_offset_100_next_200)))
  = Returns (Some ErrOffsetOutOfRange).
Proof. vm_compute. reflexivity. Qed.

(** C6 fails on this file. Its Offset header, [2^63], exceeds its size, 26
    bytes, and is not greater than its NextOffset; [Open] compares
    [int64(aof.offset)], which is negative, with the size and returns nil
    where the claim, and the comment on that check, ask for
    [ErrOffsetOutOfRange]. *)
Theorem Open_accepts_offset_past_file_size :
  let w := AppendOnly.closed_on "f" (Some far_offset_file) in
  Z.of_nat (length far_offset_file) = 26
  /\ be_get (take 2 far_offset_file) = 1
  /\ be_get (take 8 (drop 2 far_offset_file)) = 2 ^ 63
  /\ be_get (take 8 (drop 10 far_offset_file)) = 2 ^ 63
  /\ int64 (2 ^ 63) = - 2 ^ 63
  /\ exists w',
       AppendOnly.Open w = Returns (None, w')
       /\ AppendOnly.offset (AppendOnly.aof w') = 2 ^ 63
       /\ AppendOnly.nextOffset (AppendOnly.aof w') = 2 ^ 63.
Proof.
  cbv zeta. repeat (split; [vm_compute; reflexivity|]).
  eexists. split; [vm_compute; reflexivity|].
  split; vm_compute; reflexivity.
Qed.

(** ** The append-only log: writing into the file *)

Section WriteAt.
Import AppendOnly.

Implicit Types bs data : list byte.

Lemma length_header (fv o no v : Z) : length (header fv o no v) = 26%nat.
Proof. unfold header. now rewrite !length_app, !length_be_put. Qed.

Lemma length_write_at (p : nat) data bs :
  data <> [] ->
  length (write_at p data bs) = (length bs `max` (p + length data))%nat.
Proof.
  intros Hne. destruct data as [|b data]; [contradiction|].
  unfold write_at.
  rewrite !length_app, length_take, length_replicate, length_drop. lia.
Qed.

Lemma length_write_at_ge (p : nat) data bs :
  (length bs <= length (write_at p data bs))%nat.
Proof.
  destruct data as [|b data]; [reflexivity|].
  rewrite length_write_at by discriminate. lia.
Qed.


(** A write leaves what lies before it as it was. *)
Lemma read_before_write_at (q m p : nat) data bs :
  (q + m <= p)%nat -> (q + m <= length bs)%nat ->
  take m (drop q (write_at p data bs)) = take m (drop q bs).
Proof.
  intros Hp Hlen. destruct data as [|b data]; [reflexivity|].
  unfold write_at.
  rewrite drop_app_le by (rewrite length_take; lia).
  rewrite take_app_le by (rewrite length_drop, length_take; lia).
  rewrite !take_drop_commute, take_take.
  do 2 f_equal. lia.
Qed.

(** A write at the start leaves what lies after it as it was. *)
Lemma drop_write_at_0 (q : nat) data bs :
  (length data <= q)%nat -> drop q (write_at 0 data bs) = drop q bs.
Proof.
  intros Hq. destruct data as [|b data]; [reflexivity|].
  unfold write_at. rewrite take_0, Nat.sub_0_l, Nat.add_0_l.
  change (replicate 0 "000"%byte) with (@nil byte). rewrite !app_nil_l.
  rewrite drop_app_ge by exact Hq.
  rewrite drop_drop. f_equal. lia.
Qed.


(** The fields of a header block, read back. *)
Lemma header_fields (fv o no v : Z) bs :
  take 26 bs = header fv o no v ->
  take 2 (drop 0 bs) = be_put 2 (uint16 fv)
  /\ take 8 (drop 2 bs) = be_put 8 (uint64 o)
  /\ take 8 (drop 10 bs) = be_put 8 (uint64 no)
  /\ take 8 (drop 18 bs) = be_put 8 (uint64 v)
  /\ (26 <= length bs)%nat.
Proof.
  intros Hhdr.
  assert (26 <= length bs)%nat as Hlen.
  { apply (f_equal length) in Hhdr. rewrite length_take, length_header in Hhdr. lia. }
  assert (forall q m, (q + m <= 26)%nat ->
            take m (drop q bs) = take m (drop q (header fv o no v))) as Hin.
  { intros q m Hqm. rewrite <- Hhdr.
    rewrite !take_drop_commute, take_take. do 2 f_equal. lia. }
  unfold header in Hin.
  repeat split; [..|exact Hlen]; rewrite Hin by lia.
  - rewrite drop_0. now rewrite take_app_length' by (symmetry; apply length_be_put).
  - rewrite drop_app_length' by (symmetry; apply length_be_put).
    now rewrite take_app_length' by (symmetry; apply length_be_put).
  - rewrite (app_assoc (be_put 2 _)).
    rewrite drop_app_length' by (rewrite length_app, !length_be_put; lia).
    now rewrite take_app_length' by (symmetry; apply length_be_put).
  - rewrite (app_assoc (be_put 2 _)), (app_assoc (_ ++ _)).
    rewrite drop_app_length' by (rewrite !length_app, !length_be_put; lia).
    now rewrite take_ge by (rewrite length_be_put; lia).
Qed.

End WriteAt.

(** ** The append-only log: the calls on the file *)

Section AppendOnlyCalls.
Import AppendOnly.

Implicit Types bs data : list byte.

Local Abbreviation world path f fv o no bs flt :=
  (mkWorld (mkDatastore path f fv o no) (mkDisk (Some bs) flt)).

Lemma int64_small (z : Z) : 0 <= z < 2 ^ 63 -> int64 z = z.
Proof.
  intros Hz. unfold int64, wrap. rewrite Z.mod_small by lia.
  destruct (Z.ltb_spec z (2 ^ 63)); lia.
Qed.

Lemma bind_returns {St A B} (c : M St A) (k : A -> M St B) (s s' : St) (a : A) :
  c s = Returns (a, s') -> bind c k s = k a s'.
Proof. intros Hc. unfold bind. now rewrite Hc. Qed.

Lemma file_Seek_spec path f fv o no dk (off : Z) :
  0 <= off ->
  file_Seek off (mkWorld (mkDatastore path (Some f) fv o no) dk)
  = Returns (tt, mkWorld (mkDatastore path (Some (mkFile off)) fv o no) dk).
Proof.
  intros Hoff. unfold file_Seek, bind, get. cbn.
  now rewrite decide_True.
Qed.

Lemma file_Read_spec path p fv o no bs flt (n : nat) :
  read_fault flt = None -> 0 <= p -> (0 < n)%nat ->
  (Z.to_nat p + n <= length bs)%nat ->
  file_Read n (world path (Some (mkFile p)) fv o no bs flt)
  = Returns ((take n (drop (Z.to_nat p) bs), Z.of_nat n, None),
             world path (Some (mkFile (p + Z.of_nat n))) fv o no bs flt).
Proof.
  intros Hflt Hp Hn Hlen. unfold file_Read, bind, get. cbn. rewrite Hflt.
  rewrite decide_False by lia. rewrite decide_False by lia. cbn.
  assert (length (take n (drop (Z.to_nat p) bs)) = n) as ->
    by (rewrite length_take, length_drop; lia).
  rewrite Nat.sub_diag. cbn [replicate]. now rewrite app_nil_r.
Qed.


Lemma file_Write_spec path p fv o no bs flt data :
  write_fault flt = None ->
  file_Write data (world path (Some (mkFile p)) fv o no bs flt)
  = Returns ((Z.of_nat (length data), None),
             world path (Some (mkFile (p + Z.of_nat (length data)))) fv o no
               (write_at (Z.to_nat p) data bs) flt).
Proof. intros Hflt. unfold file_Write, bind, get. cbn. now rewrite Hflt. Qed.

Lemma readHeaderField_spec what (a w : Z) path f fv o no bs flt :
  read_fault flt = None -> 0 <= a -> 0 < w ->
  (Z.to_nat a + Z.to_nat w <= length bs)%nat ->
  readHeaderField what a w (world path (Some f) fv o no bs flt)
  = Returns ((be_get (take (Z.to_nat w) (drop (Z.to_nat a) bs)), None),
             world path (Some (mkFile (a + w))) fv o no bs flt).
Proof.
  intros Hflt Ha Hw Hlen. unfold readHeaderField.
  rewrite (bind_returns _ _ _ _ _ eq_refl). cbn [aof file].
  rewrite (bind_returns _ _ _ _ _ (file_Seek_spec _ _ _ _ _ _ _ Ha)).
  rewrite (bind_returns _ _ _ _ _
             (file_Read_spec _ _ _ _ _ _ _ (Z.to_nat w) Hflt Ha ltac:(lia) Hlen)).
  unfold ret. now rewrite Z2Nat.id by lia.
Qed.

Lemma writeHeaders_spec v path f fv o no bs flt :
  write_fault flt = None ->
  writeHeaders v (world path (Some f) fv o no bs flt)
  = Returns (None,
             world path (Some (mkFile 26)) fv o no
               (write_at 0 (header fv o no v) bs) flt).
Proof.
  intros Hflt. unfold writeHeaders.
  rewrite (bind_returns _ _ _ _ _ eq_refl). cbn [aof file fileVersion offset nextOffset].
  rewrite (bind_returns _ _ _ _ _ (file_Seek_spec _ _ _ _ _ _ 0 ltac:(lia))).
  fold (header fv o no v).
  rewrite (bind_returns _ _ _ _ _ (file_Write_spec _ _ _ _ _ _ _ _ Hflt)).
  unfold ret. now rewrite length_header.
Qed.

Lemma Put_spec v data path f fv o no bs flt :
  write_fault flt = None ->
  0 <= no -> 26 + no + Z.of_nat (length data) < 2 ^ 63 ->
  Put v data (world path (Some f) fv o no bs flt)
  = Returns (None,
             world path (Some (mkFile 26)) fv no (no + Z.of_nat (length data))
               (write_at 0 (header fv no (no + Z.of_nat (length data)) v)
                  (write_at (Z.to_nat (26 + no)) data bs)) flt).
Proof.
  intros Hflt Hno Hfit. unfold Put.
  rewrite (bind_returns _ _ _ _ _ eq_refl). cbn [aof file nextOffset].
  assert (int64 (headerOffset + int64 no) = 26 + no) as ->.
  { rewrite (int64_small no) by lia. change headerOffset with 26.
    apply int64_small. lia. }
  rewrite (bind_returns _ _ _ _ _ (file_Seek_spec _ _ _ _ _ _ (26 + no) ltac:(lia))).
  rewrite (bind_returns _ _ _ _ _ (file_Write_spec _ _ _ _ _ _ _ _ Hflt)).
  rewrite decide_False by (intros Hne; now apply Hne).
  assert (uint64 (uint64 no + uint64 (Z.of_nat (length data)))
          = no + Z.of_nat (length data)) as ->.
  { rewrite (uint64_small no), (uint64_small (Z.of_nat _)); unfold is_u64; try lia.
    apply uint64_small. unfold is_u64. lia. }
  unfold set_offset, set_nextOffset.
  rewrite (bind_returns _ _ _ _ _ eq_refl).
  rewrite (bind_returns _ _ _ _ _ eq_refl).
  cbn [aof disk fp file fileVersion offset nextOffset].
  rewrite (bind_returns _ _ _ _ _ (writeHeaders_spec v _ _ _ _ _ _ _ Hflt)).
  reflexivity.
Qed.


Lemma Open_fresh path fv o no c flt :
  open_fault flt = None -> stat_fault flt = None -> default [] c = [] ->
  Open (mkWorld (mkDatastore path None fv o no) (mkDisk c flt))
  = Returns (None, world path (Some (mkFile 0)) fv o no [] flt).
Proof.
  intros Hopen Hstat Hc. unfold Open, bind, get, os_OpenFile, os_Stat, bytes_of.
  cbn. rewrite Hopen. cbn. rewrite Hstat, Hc. reflexivity.
Qed.


(** The checks of [Open] on a file that holds a whole header block, in the
    order the code makes them. The third compares [int64] of the Offset. *)
Lemma Open_checks path fv o no bs flt (fvh oh nh vh : Z) :
  open_fault flt = None -> stat_fault flt = None -> read_fault flt = None ->
  is_u16 fv -> is_u16 fvh -> is_u64 oh -> is_u64 nh ->
  take 26 bs = header fvh oh nh vh ->
  returned (Open (mkWorld (mkDatastore path None fv o no) (mkDisk (Some bs) flt)))
  = Returns (if decide (fvh <> fv) then Some ErrUnexpectedFileVersion
             else if decide (oh > nh) then Some ErrNextOffsetOutOfRange
             else if decide (int64 oh > Z.of_nat (length bs))
                  then Some ErrOffsetOutOfRange
             else None).
Proof.
  intros Hopen Hstat Hread Hfv Hfvh Hoh64 Hnh64 Hhdr.
  destruct (header_fields _ _ _ _ _ Hhdr) as (Hf1 & Hf2 & Hf3 & _ & Hlen).
  assert (forall what a w f' o' no', 0 <= a -> 0 < w -> a + w <= 26 ->
            readHeaderField what a w (world path (Some f') fv o' no' bs flt)
            = Returns ((be_get (take (Z.to_nat w) (drop (Z.to_nat a) bs)), None),
                       world path (Some (mkFile (a + w))) fv o' no' bs flt)) as Hfield.
  { intros what a w f' o' no' Ha Hw Haw.
    apply readHeaderField_spec; [exact Hread|lia|lia|lia]. }
  unfold Open.
  rewrite (bind_returns _ _ _ _ _ eq_refl). cbn [aof file].
  assert (os_OpenFile (mkWorld (mkDatastore path None fv o no) (mkDisk (Some bs) flt))
          = Returns ((Some (mkFile 0), None),
                     mkWorld (mkDatastore path None fv o no) (mkDisk (Some bs) flt)))
    as HopenFile
    by (unfold os_OpenFile, bind, get; cbn; rewrite Hopen; reflexivity).
  rewrite (bind_returns _ _ _ _ _ HopenFile).
  assert (os_Stat (mkWorld (mkDatastore path None fv o no) (mkDisk (Some bs) flt))
          = Returns ((Z.of_nat (length bs), None),
                     mkWorld (mkDatastore path None fv o no) (mkDisk (Some bs) flt)))
    as HstatFile
    by (unfold os_Stat, bind, get; cbn; rewrite Hstat; reflexivity).
  rewrite (bind_returns _ _ _ _ _ HstatFile).
  unfold set_file at 1. rewrite (bind_returns _ _ _ _ _ eq_refl).
  cbn [aof disk fp file fileVersion offset nextOffset].
  rewrite decide_False by lia.
  unfold readFileVersionHeader.
  rewrite (bind_returns _ _ _ _ _
             (Hfield _ 0 2 _ _ _ ltac:(lia) ltac:(lia) ltac:(lia))).
  change (Z.to_nat 2) with 2%nat. change (Z.to_nat 0) with 0%nat.
  rewrite Hf1, be_get_put_small
    by (unfold uint16, wrap; apply Z.mod_pos_bound; lia).
  assert (uint16 fvh = fvh) as -> by (unfold uint16, wrap; now apply Z.mod_small).
  destruct (decide (fvh <> fv)) as [Hne|Heq]; [reflexivity|].
  unfold readOffsetHeader.
  rewrite (bind_returns _ _ _ _ _
             (Hfield _ 2 8 _ _ _ ltac:(lia) ltac:(lia) ltac:(lia))).
  change (Z.to_nat 8) with 8%nat. change (Z.to_nat 2) with 2%nat.
  rewrite Hf2, be_get_put_u64, (uint64_small oh) by (try apply uint64_range; exact Hoh64).
  unfold set_offset at 1. rewrite (bind_returns _ _ _ _ _ eq_refl).
  cbn [aof disk fp file fileVersion offset nextOffset].
  unfold readNextOffsetHeader.
  rewrite (bind_returns _ _ _ _ _
             (Hfield _ 10 8 _ _ _ ltac:(lia) ltac:(lia) ltac:(lia))).
  change (Z.to_nat 8) with 8%nat. change (Z.to_nat 10) with 10%nat.
  rewrite Hf3, be_get_put_u64, (uint64_small nh) by (try apply uint64_range; exact Hnh64).
  unfold set_nextOffset at 1. rewrite (bind_returns _ _ _ _ _ eq_refl).
  cbn [aof disk fp file fileVersion offset nextOffset].
  rewrite (uint64_small oh), (uint64_small nh) by assumption.
  destruct (decide (oh > nh)); [reflexivity|].
  destruct (decide (int64 oh > Z.of_nat (length bs))); reflexivity.
Qed.


End AppendOnlyCalls.

(** ** The append-only log: round trip *)

Section AppendOnlyRoundTrip.
Import AppendOnly.

Implicit Types bs d : list byte.

(** The file after [Put v1 d1] and [Put v2 d2] on a store whose NextOffset
    was [n0]. *)
Local Abbreviation after_put fv n v d bs :=
  (write_at 0 (header fv n (n + Z.of_nat (length d)) v)
     (write_at (Z.to_nat (26 + n)) d bs)).


Lemma after_put_length fv n v d bs :
  0 <= n ->
  (26 <= length (after_put fv n v d bs))%nat
  /\ (length bs <= length (after_put fv n v d bs))%nat
  /\ (d <> [] -> 26 + n + Z.of_nat (length d) <= Z.of_nat (length (after_put fv n v d bs))).
Proof.
  intros Hn.
  assert (header fv n (n + Z.of_nat (length d)) v <> []) as Hne
    by (intros Hnil; apply (f_equal length) in Hnil;
        rewrite length_header in Hnil; discriminate).
  rewrite (length_write_at 0 _ _ Hne), length_header.
  pose proof (length_write_at_ge (Z.to_nat (26 + n)) d bs) as Hge.
  split; [lia|]. split; [lia|].
  intros Hd. rewrite (length_write_at _ _ _ Hd) in *. lia.
Qed.


Lemma after_put_before fv n v d bs (q m : nat) :
  0 <= n -> (26 <= q)%nat -> (q + m <= Z.to_nat (26 + n))%nat ->
  (q + m <= length bs)%nat ->
  take m (drop q (after_put fv n v d bs)) = take m (drop q bs).
Proof.
  intros Hn Hq Hqm Hlen. rewrite drop_write_at_0 by (rewrite length_header; lia).
  now apply read_before_write_at.
Qed.



End AppendOnlyRoundTrip.


(** The same sequence on a file that holds a value already. *)
Example round_trip_on_existing_file :
  returned
    (AppendOnly.put_put_reopen_get 8 ["x"%byte] 9 []
       (AppendOnly.closed_on "f" (Some (sample_header ++ ["h"%byte; "i"%byte]))))
  = Returns ([None; None; None; None; None], (9, [], None)).
Proof. vm_compute. reflexivity. Qed.

(** * Further properties of the code *)

(** ** Big-endian integers, the other way round *)

Lemma testbit_above (x k i : Z) :
  0 <= x < 2 ^ k -> 0 <= k <= i -> Z.testbit x i = false.
Proof.
  intros Hx Hk. destruct (Z.eq_dec x 0) as [->|Hnz]; [apply Z.bits_0|].
  apply Z.bits_above_log2; [lia|].
  apply Z.lt_le_trans with k; [|lia].
  apply Z.log2_lt_pow2; lia.
Qed.

Lemma be_get_range (bs : list byte) : 0 <= be_get bs < 2 ^ (8 * Z.of_nat (length bs)).
Proof.
  induction bs as [|b bs IH].
  - cbn. lia.
  - cbn [be_get length]. pose proof (Z_of_byte_range b) as Hb.
    set (n := Z.of_nat (length bs)) in *.
    assert (0 <= n) as Hn by (subst n; lia).
    assert (Z.lor (Z.shiftl (Z_of_byte b) (8 * n)) (be_get bs)
            = Z_of_byte b * 2 ^ (8 * n) + be_get bs) as ->.
    { rewrite Z.shiftl_mul_pow2 by lia. symmetry. apply Z.add_nocarry_lor.
      apply Z.bits_inj'. intros i Hi. rewrite Z.land_spec, Z.bits_0.
      destruct (Z.ltb_spec i (8 * n)) as [Hlt|Hge].
      - rewrite Z.mul_pow2_bits_low by lia. reflexivity.
      - rewrite (testbit_above (be_get bs) (8 * n) i) by lia.
        apply andb_false_r. }
    replace (8 * Z.of_nat (Datatypes.S (length bs))) with (8 + 8 * n) by (subst n; lia).
    rewrite Z.pow_add_r by lia. change (2 ^ 8) with 256. nia.
Qed.

(** The bytes [be_put n] writes depend on the low [8 * n] bits only. *)
Lemma be_put_low (n : nat) : forall (m : Z) (v v' : Z),
  8 * Z.of_nat n <= m ->
  Z.land v (Z.ones m) = Z.land v' (Z.ones m) ->
  be_put n v = be_put n v'.
Proof.
  induction n as [|n IH]; intros m v v' Hm Hlow; [reflexivity|].
  cbn [be_put]. f_equal.
  - unfold byte_of_Z. do 3 f_equal.
    apply Z.bits_inj'. intros i Hi.
    rewrite !Z.land_spec, !Z.shiftr_spec by lia.
    change 255 with (Z.ones 8). rewrite Z.testbit_ones_nonneg by lia.
    destruct (Z.ltb_spec i 8) as [Hlt|Hge]; [|now rewrite !andb_false_r].
    rewrite !andb_true_r.
    apply (f_equal (fun z => Z.testbit z (i + 8 * Z.of_nat n))) in Hlow.
    rewrite !Z.land_spec, Z.testbit_ones_nonneg in Hlow by lia.
    rewrite (proj2 (Z.ltb_lt _ _)) in Hlow by lia.
    now rewrite !andb_true_r in Hlow.
  - apply (IH m); [lia|exact Hlow].
Qed.

Lemma be_put_get (bs : list byte) : be_put (length bs) (be_get bs) = bs.
Proof.
  induction bs as [|b bs IH]; [reflexivity|].
  cbn [length be_put be_get].
  pose proof (be_get_range bs) as Hr. pose proof (Z_of_byte_range b) as Hb.
  set (n := Z.of_nat (length bs)) in *.
  assert (0 <= n) as Hn by (subst n; lia).
  f_equal.
  - rewrite <- (byte_of_Z_of_byte b) at 2. unfold byte_of_Z. do 3 f_equal.
    apply Z.bits_inj'. intros i Hi.
    rewrite !Z.land_spec, Z.shiftr_spec, Z.lor_spec, Z.shiftl_spec by lia.
    replace (i + 8 * n - 8 * n) with i by lia.
    rewrite (testbit_above (be_get bs) (8 * n) (i + 8 * n)) by lia.
    now rewrite orb_false_r.
  - transitivity (be_put (length bs) (be_get bs)); [|exact IH].
    apply (be_put_low _ (8 * n)); [lia|].
    apply Z.bits_inj'. intros i Hi.
    rewrite !Z.land_spec, Z.lor_spec, Z.shiftl_spec, Z.testbit_ones_nonneg by lia.
    destruct (Z.ltb_spec i (8 * n)) as [Hlt|Hge]; [|now rewrite !andb_false_r].
    rewrite (Z.testbit_neg_r _ (i - 8 * n)) by lia. reflexivity.
Qed.

(** ** Framing and the decoders on arbitrary bodies *)

Section WireBodies.
Import Wire.

Lemma slice_to_inv (n : nat) (s b : list byte) :
  slice_to n s = Returns b -> (n <= length s)%nat /\ b = take n s.
Proof.
  unfold slice_to. destruct (decide (n <= length s)%nat); [|discriminate].
  intros Hb. injection Hb as <-. split; [assumption|reflexivity].
Qed.

Lemma slice_from_inv (n : nat) (s b : list byte) :
  slice_from n s = Returns b -> (n <= length s)%nat /\ b = drop n s.
Proof.
  unfold slice_from. destruct (decide (n <= length s)%nat); [|discriminate].
  intros Hb. injection Hb as <-. split; [assumption|reflexivity].
Qed.

Lemma slice_inv (lo hi : nat) (s b : list byte) :
  slice lo hi s = Returns b ->
  (lo <= hi <= length s)%nat /\ b = take (hi - lo) (drop lo s).
Proof.
  unfold slice. destruct (decide (lo <= hi <= length s)%nat); [|discriminate].
  intros Hb. injection Hb as <-. split; [assumption|reflexivity].
Qed.

Lemma BigEndian_Uint_inv (n : nat) (b : list byte) (z : Z) :
  BigEndian_Uint n b = Returns z -> (n <= length b)%nat /\ z = be_get (take n b).
Proof.
  unfold BigEndian_Uint. destruct (decide (n <= length b)%nat); [|discriminate].
  intros Hz. injection Hz as <-. split; [assumption|reflexivity].
Qed.

Lemma GetMessageType_inv (body : list byte) (mt : Z) :
  GetMessageType body = Returns mt ->
  (2 <= length body)%nat /\ mt = int16 (be_get (take 2 body)).
Proof.
  unfold GetMessageType. intros Hmt.
  destruct (slice_to 2 body) as [b|] eqn:Hb; [|discriminate].
  apply slice_to_inv in Hb as [Hlen ->]. cbn [exec_bind] in Hmt.
  destruct (BigEndian_Uint 2 (take 2 body)) as [u|] eqn:Hu; [|discriminate].
  apply BigEndian_Uint_inv in Hu as [_ ->]. cbn [exec_bind] in Hmt.
  injection Hmt as <-. rewrite take_take. split; [exact Hlen|reflexivity].
Qed.

Lemma GetMessageType_short (body : list byte) :
  (length body < 2)%nat -> GetMessageType body = Panics.
Proof.
  intros Hlen. unfold GetMessageType, slice_to.
  now rewrite decide_False by lia.
Qed.

(** Two bytes that read as the tag [t] are the two bytes [t] is written as. *)
Lemma tag_bytes (b : list byte) (t : Z) :
  length b = 2%nat -> 0 <= t < 2 ^ 15 -> int16 (be_get b) = t -> b = be_put 2 t.
Proof.
  intros Hlen Ht Htag. pose proof (be_get_range b) as Hr. rewrite Hlen in Hr.
  change (2 ^ (8 * Z.of_nat 2)) with (2 ^ 16) in Hr.
  unfold int16, wrap in Htag. rewrite Z.mod_small in Htag by lia.
  destruct (Z.ltb_spec (be_get b) (2 ^ 15)); [|lia].
  rewrite <- Htag, <- Hlen. symmetry. apply be_put_get.
Qed.

Lemma be_put_int16 (u : Z) : be_put 2 (int16 u) = be_put 2 u.
Proof.
  apply (be_put_low 2 16); [lia|]. rewrite !Z.land_ones by lia.
  unfold int16, wrap. destruct (Z.ltb_spec (u mod 2 ^ 16) (2 ^ 15)).
  - apply Z.mod_mod. lia.
  - rewrite <- (Z.mod_add (u mod 2 ^ 16 - 2 ^ 16) 1) by lia.
    replace (u mod 2 ^ 16 - 2 ^ 16 + 1 * 2 ^ 16) with (u mod 2 ^ 16) by lia.
    apply Z.mod_mod. lia.
Qed.

Lemma int16_range (u : Z) : is_i16 (int16 u).
Proof.
  unfold is_i16, int16, wrap.
  pose proof (Z.mod_pos_bound u (2 ^ 16) ltac:(lia)) as Hr.
  destruct (Z.ltb_spec (u mod 2 ^ 16) (2 ^ 15)); lia.
Qed.

Lemma be_get_u64 (b : list byte) : length b = 8%nat -> is_u64 (be_get b).
Proof.
  intros Hlen. pose proof (be_get_range b) as Hr. rewrite Hlen in Hr. exact Hr.
Qed.

Lemma UpdateRequest_Encode_Decode (r0 r : UpdateRequest) (body : list byte) :
  UpdateRequest_Decode r0 body = Returns (None, r) ->
  UpdateRequest_Encode r = body /\ wf_UpdateRequest r.
Proof.
  unfold UpdateRequest_Decode. intros Hdec.
  destruct (GetMessageType body) as [mt|] eqn:Hmt; [|discriminate].
  apply GetMessageType_inv in Hmt as [Hlen Hmt]. cbn [exec_bind] in Hdec.
  destruct (decide (mt <> MessageTypeUpdateRequest)) as [|Htag]; [discriminate|].
  apply dec_stable in Htag.
  destruct (slice_from 2 body) as [rest|] eqn:H1; [|discriminate].
  apply slice_from_inv in H1 as [_ ->]. cbn [exec_bind] in Hdec.
  destruct (slice_to 8 (drop 2 body)) as [b1|] eqn:H2; [|discriminate].
  apply slice_to_inv in H2 as [Hl2 ->]. cbn [exec_bind] in Hdec.
  destruct (BigEndian_Uint 8 _) as [rid|] eqn:H3 in Hdec; [|discriminate].
  apply BigEndian_Uint_inv in H3 as [_ ->]. cbn [exec_bind] in Hdec.
  destruct (slice 8 16 (drop 2 body)) as [b2|] eqn:H4; [|discriminate].
  apply slice_inv in H4 as [Hl4 ->]. cbn [exec_bind] in Hdec.
  destruct (BigEndian_Uint 8 _) as [ver|] eqn:H5 in Hdec; [|discriminate].
  apply BigEndian_Uint_inv in H5 as [_ ->]. cbn [exec_bind] in Hdec.
  destruct (slice_from 16 (drop 2 body)) as [data|] eqn:H6; [|discriminate].
  apply slice_from_inv in H6 as [_ ->]. cbn [exec_bind] in Hdec.
  injection Hdec as <-. rewrite !take_take. change (16 - 8)%nat with 8%nat.
  change (8 `min` 8)%nat with 8%nat.
  set (f1 := take 8 (drop 2 body)). set (f2 := take 8 (drop 8 (drop 2 body))).
  assert (length f1 = 8%nat) as Hf1 by (subst f1; rewrite length_take; lia).
  assert (length f2 = 8%nat) as Hf2
    by (subst f2; rewrite length_take, length_drop; lia).
  split.
  - rewrite UpdateRequest_Encode_layout. cbn [req_RequestID req_Version req_Data].
    assert (take 2 body = be_put 2 2) as <-.
    { apply tag_bytes; [rewrite length_take; lia | lia |].
      rewrite <- Hmt. exact Htag. }
    rewrite <- Hf1 at 1. rewrite be_put_get.
    rewrite <- Hf2 at 1. rewrite be_put_get.
    subst f1 f2.
    rewrite <- (take_drop 2 body) at 5. f_equal.
    rewrite <- (take_drop 8 (drop 2 body)) at 4. f_equal.
    rewrite <- (take_drop 8 (drop 8 (drop 2 body))) at 2. f_equal.
    rewrite !drop_drop. reflexivity.
  - split; cbn; now apply be_get_u64.
Qed.

Lemma be_put_get_len (n : nat) (bs : list byte) :
  length bs = n -> be_put n (be_get bs) = bs.
Proof. intros <-. apply be_put_get. Qed.

Lemma drop_split (l : list byte) (a b c : nat) :
  c = (a + b)%nat -> take b (drop a l) ++ drop c l = drop a l.
Proof. intros ->. rewrite <- drop_drop. apply take_drop. Qed.

Lemma UpdateResponse_Encode_Decode (r0 r : UpdateResponse) (body : list byte) :
  UpdateResponse_Decode r0 body = Returns (None, r) ->
  UpdateResponse_Encode r = body /\ wf_UpdateResponse r.
Proof.
  unfold UpdateResponse_Decode. intros Hdec.
  destruct (GetMessageType body) as [mt|] eqn:Hmt; [|discriminate].
  apply GetMessageType_inv in Hmt as [Hlen Hmt]. cbn [exec_bind] in Hdec.
  destruct (decide (mt <> MessageTypeUpdateResponse)) as [|Htag]; [discriminate|].
  apply dec_stable in Htag.
  destruct (slice_from 2 body) as [rest|] eqn:H1; [|discriminate].
  apply slice_from_inv in H1 as [_ ->]. cbn [exec_bind] in Hdec.
  destruct (slice_to 8 (drop 2 body)) as [b1|] eqn:H2; [|discriminate].
  apply slice_to_inv in H2 as [Hl2 ->]. cbn [exec_bind] in Hdec.
  destruct (BigEndian_Uint 8 _) as [rid|] eqn:H3 in Hdec; [|discriminate].
  apply BigEndian_Uint_inv in H3 as [_ ->]. cbn [exec_bind] in Hdec.
  destruct (slice 8 10 (drop 2 body)) as [b2|] eqn:H4; [|discriminate].
  apply slice_inv in H4 as [Hl4 ->]. cbn [exec_bind] in Hdec.
  destruct (BigEndian_Uint 2 _) as [e|] eqn:H5 in Hdec; [|discriminate].
  apply BigEndian_Uint_inv in H5 as [_ ->]. cbn [exec_bind] in Hdec.
  destruct (slice 10 18 (drop 2 body)) as [b3|] eqn:H6; [|discriminate].
  apply slice_inv in H6 as [Hl6 ->]. cbn [exec_bind] in Hdec.
  destruct (BigEndian_Uint 8 _) as [ver|] eqn:H7 in Hdec; [|discriminate].
  apply BigEndian_Uint_inv in H7 as [_ ->]. cbn [exec_bind] in Hdec.
  destruct (slice_from 18 (drop 2 body)) as [data|] eqn:H8; [|discriminate].
  apply slice_from_inv in H8 as [_ ->]. cbn [exec_bind] in Hdec.
  injection Hdec as <-. rewrite !take_take, !drop_drop.
  change (10 - 8)%nat with 2%nat. change (18 - 10)%nat with 8%nat.
  change (8 `min` 8)%nat with 8%nat. change (2 `min` 2)%nat with 2%nat.
  change (2 + 8)%nat with 10%nat. change (2 + 10)%nat with 12%nat.
  change (2 + 18)%nat with 20%nat.
  rewrite length_drop in *.
  set (f1 := take 8 (drop 2 body)). set (f2 := take 2 (drop 10 body)).
  set (f3 := take 8 (drop 12 body)).
  assert (length f1 = 8%nat) as Hf1 by (subst f1; rewrite length_take, length_drop; lia).
  assert (length f2 = 2%nat) as Hf2 by (subst f2; rewrite length_take, length_drop; lia).
  assert (length f3 = 8%nat) as Hf3 by (subst f3; rewrite length_take, length_drop; lia).
  split.
  - rewrite UpdateResponse_Encode_layout.
    cbn [res_Error res_RequestID res_Version res_Data].
    assert (take 2 body = be_put 2 3) as <-.
    { apply tag_bytes; [rewrite length_take; lia | lia |].
      rewrite <- Hmt. exact Htag. }
    rewrite be_put_int16.
    rewrite (be_put_get_len 8 f1 Hf1), (be_put_get_len 2 f2 Hf2),
      (be_put_get_len 8 f3 Hf3).
    subst f1 f2 f3.
    rewrite (drop_split body 12 8 20), (drop_split body 10 2 12),
      (drop_split body 2 8 10) by reflexivity.
    apply take_drop.
  - split; [apply int16_range|]. split; cbn; now apply be_get_u64.
Qed.

Lemma VersionUpdateMessage_Encode_Decode
  (m0 m : VersionUpdateMessage) (body : list byte) :
  VersionUpdateMessage_Decode m0 body = Returns (None, m) ->
  VersionUpdateMessage_Encode m = body /\ wf_VersionUpdateMessage m.
Proof.
  unfold VersionUpdateMessage_Decode. intros Hdec.
  destruct (GetMessageType body) as [mt|] eqn:Hmt; [|discriminate].
  apply GetMessageType_inv in Hmt as [Hlen Hmt]. cbn [exec_bind] in Hdec.
  destruct (decide (mt <> MessageTypeVersionUpdate)) as [|Htag]; [discriminate|].
  apply dec_stable in Htag.
  destruct (slice_from 2 body) as [rest|] eqn:H1; [|discriminate].
  apply slice_from_inv in H1 as [_ ->]. cbn [exec_bind] in Hdec.
  destruct (slice_to 8 (drop 2 body)) as [b1|] eqn:H2; [|discriminate].
  apply slice_to_inv in H2 as [Hl2 ->]. cbn [exec_bind] in Hdec.
  destruct (BigEndian_Uint 8 _) as [ver|] eqn:H3 in Hdec; [|discriminate].
  apply BigEndian_Uint_inv in H3 as [_ ->]. cbn [exec_bind] in Hdec.
  destruct (slice_from 8 (drop 2 body)) as [data|] eqn:H4; [|discriminate].
  apply slice_from_inv in H4 as [_ ->]. cbn [exec_bind] in Hdec.
  injection Hdec as <-. rewrite !take_take, !drop_drop.
  change (8 `min` 8)%nat with 8%nat. change (2 + 8)%nat with 10%nat.
  rewrite length_drop in *.
  set (f1 := take 8 (drop 2 body)).
  assert (length f1 = 8%nat) as Hf1 by (subst f1; rewrite length_take, length_drop; lia).
  split.
  - rewrite VersionUpdateMessage_Encode_layout. cbn [upd_Version upd_Data].
    assert (take 2 body = be_put 2 4) as <-.
    { apply tag_bytes; [rewrite length_take; lia | lia |].
      rewrite <- Hmt. exact Htag. }
    rewrite (be_put_get_len 8 f1 Hf1). subst f1.
    rewrite (drop_split body 2 8 10) by reflexivity.
    apply take_drop.
  - cbn. now apply be_get_u64.
Qed.

End WireBodies.

Section WireExtras.
Import Wire.

(** X1. Framing. On a stream that starts with a frame made by
    [PrependRequestLength], [GetMessageLength] reads the length of the
    body, the body is the bytes that follow the eight of the length, and
    the rest of the stream starts right after it. *)
Theorem frame_round_trip (body rest : list byte) :
  Z.of_nat (length body) < 2 ^ 63 ->
  let stream := PrependRequestLength body ++ rest in
  GetMessageLength stream = Returns (Z.of_nat (length body))
  /\ take (length body) (drop 8 stream) = body
  /\ drop (8 + length body) stream = rest.
Proof.
  intros Hlen stream. subst stream. unfold PrependRequestLength.
  rewrite <- app_assoc. split; [|split].
  - unfold GetMessageLength.
    rewrite slice_to_app by apply length_be_put. cbn [exec_bind].
    rewrite BigEndian_Uint_put. cbn [exec_bind].
    rewrite be_get_put_u64 by apply uint64_range.
    rewrite uint64_small by (unfold is_u64; lia).
    f_equal. unfold int64, wrap. rewrite Z.mod_small by lia.
    destruct (Z.ltb_spec (Z.of_nat (length body)) (2 ^ 63)); lia.
  - rewrite drop_app_length' by (symmetry; apply length_be_put).
    apply take_app_length.
  - rewrite app_assoc. apply drop_app_length'.
    now rewrite length_app, length_be_put.
Qed.

(** X2. A body a decoder accepts is the encoding of what it decoded, and
    the decoded fields lie within their types: decoding loses nothing. *)
Theorem decode_then_encode (body : list byte)
  (r0 rq : UpdateRequest) (s0 rs : UpdateResponse) (m0 vu : VersionUpdateMessage) :
  (UpdateRequest_Decode r0 body = Returns (None, rq) ->
     UpdateRequest_Encode rq = body /\ wf_UpdateRequest rq)
  /\ (UpdateResponse_Decode s0 body = Returns (None, rs) ->
      UpdateResponse_Encode rs = body /\ wf_UpdateResponse rs)
  /\ (VersionUpdateMessage_Decode m0 body = Returns (None, vu) ->
      VersionUpdateMessage_Encode vu = body /\ wf_VersionUpdateMessage vu).
Proof.
  split; [|split].
  - apply UpdateRequest_Encode_Decode.
  - apply UpdateResponse_Encode_Decode.
  - apply VersionUpdateMessage_Encode_Decode.
Qed.

(** X3. Each decoder refuses the encodings of the two other kinds, with
    the tag it found in the error and its receiver untouched. *)
Theorem decoders_reject_other_kinds
  (rq r0 : UpdateRequest) (rs s0 : UpdateResponse) (vu m0 : VersionUpdateMessage) :
  UpdateRequest_Decode r0 (UpdateResponse_Encode rs)
    = Returns (Some (ErrValue "unexpected message type" 3), r0)
  /\ UpdateRequest_Decode r0 (VersionUpdateMessage_Encode vu)
    = Returns (Some (ErrValue "unexpected message type" 4), r0)
  /\ UpdateResponse_Decode s0 (UpdateRequest_Encode rq)
    = Returns (Some (ErrValue "unexpected message type" 2), s0)
  /\ UpdateResponse_Decode s0 (VersionUpdateMessage_Encode vu)
    = Returns (Some (ErrValue "unexpected message type" 4), s0)
  /\ VersionUpdateMessage_Decode m0 (UpdateRequest_Encode rq)
    = Returns (Some (ErrValue "unexpected message type" 2), m0)
  /\ VersionUpdateMessage_Decode m0 (UpdateResponse_Encode rs)
    = Returns (Some (ErrValue "unexpected message type" 3), m0).
Proof.
  assert (GetMessageType (UpdateRequest_Encode rq) = Returns 2) as Hq
    by (rewrite UpdateRequest_Encode_layout; apply GetMessageType_put).
  assert (GetMessageType (UpdateResponse_Encode rs) = Returns 3) as Hs
    by (rewrite UpdateResponse_Encode_layout; apply GetMessageType_put).
  assert (GetMessageType (VersionUpdateMessage_Encode vu) = Returns 4) as Hu
    by (rewrite VersionUpdateMessage_Encode_layout; apply GetMessageType_put).
  split; [|split; [|split; [|split; [|split]]]].
  - now apply UpdateRequest_Decode_tag.
  - now apply UpdateRequest_Decode_tag.
  - now apply UpdateResponse_Decode_tag.
  - now apply UpdateResponse_Decode_tag.
  - now apply VersionUpdateMessage_Decode_tag.
  - now apply VersionUpdateMessage_Decode_tag.
Qed.

Lemma decode_fields_ok (body : list byte) (k : nat) :
  (2 + k <= length body)%nat ->
  slice_from 2 body = Returns (drop 2 body)
  /\ (forall lo hi, (lo <= hi <= k)%nat ->
        slice lo hi (drop 2 body) = Returns (take (hi - lo) (drop lo (drop 2 body))))
  /\ (forall hi, (hi <= k)%nat -> slice_to hi (drop 2 body) = Returns (take hi (drop 2 body)))
  /\ (forall lo, (lo <= k)%nat -> slice_from lo (drop 2 body) = Returns (drop lo (drop 2 body))).
Proof.
  intros Hlen. unfold slice_from, slice, slice_to. repeat split.
  - now rewrite decide_True by lia.
  - intros lo hi Hlh. now rewrite decide_True by (rewrite length_drop; lia).
  - intros hi Hhi. now rewrite decide_True by (rewrite length_drop; lia).
  - intros lo Hlo. now rewrite decide_True by (rewrite length_drop; lia).
Qed.

Lemma BigEndian_Uint_take (n : nat) (s : list byte) :
  (n <= length s)%nat -> BigEndian_Uint n (take n s) = Returns (be_get (take n s)).
Proof.
  intros Hn. unfold BigEndian_Uint.
  rewrite decide_True by (rewrite length_take; lia). now rewrite take_take, Nat.min_id.
Qed.

(** X4. When a decoder panics, on a body of two bytes or more.
    [UpdateRequest.Decode] panics on a body that carries its tag and is
    shorter than the 18 bytes of tag and fixed fields, and on no other;
    likewise [UpdateResponse.Decode] with 20 bytes and
    [VersionUpdateMessage.Decode] with 10. The last slice of each decoder,
    [body[16:]], [body[18:]] or [body[8:]], is checked against the length,
    so spare capacity does not change which bodies panic. *)
Theorem decoder_panics_iff_short (body : list byte)
  (r0 : UpdateRequest) (s0 : UpdateResponse) (m0 : VersionUpdateMessage) :
  (2 <= length body)%nat ->
  (UpdateRequest_Decode r0 body = Panics <->
     GetMessageType body = Returns MessageTypeUpdateRequest /\ (length body < 18)%nat)
  /\ (UpdateResponse_Decode s0 body = Panics <->
      GetMessageType body = Returns MessageTypeUpdateResponse /\ (length body < 20)%nat)
  /\ (VersionUpdateMessage_Decode m0 body = Panics <->
      GetMessageType body = Returns MessageTypeVersionUpdate /\ (length body < 10)%nat).
Proof.
  intros Hlong.
  destruct (GetMessageType_returns body Hlong) as [mt Hmt].
  unfold UpdateRequest_Decode, UpdateResponse_Decode, VersionUpdateMessage_Decode.
  rewrite Hmt. cbn [exec_bind].
  split; [|split].
  - destruct (decide (mt <> MessageTypeUpdateRequest)) as [Hne|Heq].
    { split; [discriminate|]. intros [Heq _]. congruence. }
    apply dec_stable in Heq. subst mt.
    destruct (decide (length body < 18)%nat) as [Hlt|Hge].
    + split; [intros _; split; [reflexivity|exact Hlt]|]. intros _.
      unfold slice_from, slice_to, slice, BigEndian_Uint.
      rewrite decide_True by lia. cbn [exec_bind].
      destruct (decide (8 <= length (drop 2 body))%nat) as [H8|]; [|reflexivity].
      cbn [exec_bind]. rewrite decide_True by (rewrite length_take; lia).
      cbn [exec_bind].
      now rewrite decide_False by (rewrite length_drop; lia).
    + split; [|intros [_ ?]; lia].
      destruct (decode_fields_ok body 16 ltac:(lia)) as (H1 & H2 & H3 & H4).
      rewrite H1. cbn [exec_bind]. rewrite H3 by lia. cbn [exec_bind].
      rewrite BigEndian_Uint_take by (rewrite length_drop; lia). cbn [exec_bind].
      rewrite H2 by lia. cbn [exec_bind].
      rewrite BigEndian_Uint_take by (rewrite !length_drop; lia). cbn [exec_bind].
      rewrite H4 by lia. discriminate.
  - destruct (decide (mt <> MessageTypeUpdateResponse)) as [Hne|Heq].
    { split; [discriminate|]. intros [Heq _]. congruence. }
    apply dec_stable in Heq. subst mt.
    destruct (decide (length body < 20)%nat) as [Hlt|Hge].
    + split; [intros _; split; [reflexivity|exact Hlt]|]. intros _.
      unfold slice_from, slice_to, slice, BigEndian_Uint.
      rewrite decide_True by lia. cbn [exec_bind].
      destruct (decide (8 <= length (drop 2 body))%nat) as [H8|]; [|reflexivity].
      cbn [exec_bind]. rewrite decide_True by (rewrite length_take; lia).
      cbn [exec_bind].
      destruct (decide (8 <= 10 <= length (drop 2 body))%nat) as [H10|]; [|reflexivity].
      cbn [exec_bind].
      rewrite decide_True by (rewrite length_take, length_drop; lia).
      cbn [exec_bind].
      now rewrite decide_False by (rewrite length_drop; lia).
    + split; [|intros [_ ?]; lia].
      destruct (decode_fields_ok body 18 ltac:(lia)) as (H1 & H2 & H3 & H4).
      rewrite H1. cbn [exec_bind]. rewrite H3 by lia. cbn [exec_bind].
      rewrite BigEndian_Uint_take by (rewrite length_drop; lia). cbn [exec_bind].
      rewrite H2 by lia. cbn [exec_bind].
      rewrite BigEndian_Uint_take by (rewrite !length_drop; lia). cbn [exec_bind].
      rewrite H2 by lia. cbn [exec_bind].
      rewrite BigEndian_Uint_take by (rewrite !length_drop; lia). cbn [exec_bind].
      rewrite H4 by lia. discriminate.
  - destruct (decide (mt <> MessageTypeVersionUpdate)) as [Hne|Heq].
    { split; [discriminate|]. intros [Heq _]. congruence. }
    apply dec_stable in Heq. subst mt.
    destruct (decide (length body < 10)%nat) as [Hlt|Hge].
    + split; [intros _; split; [reflexivity|exact Hlt]|]. intros _.
      unfold slice_from, slice_to, slice, BigEndian_Uint.
      rewrite decide_True by lia. cbn [exec_bind].
      now rewrite decide_False by (rewrite length_drop; lia).
    + split; [|intros [_ ?]; lia].
      destruct (decode_fields_ok body 8 ltac:(lia)) as (H1 & H2 & H3 & H4).
      rewrite H1. cbn [exec_bind]. rewrite H3 by lia. cbn [exec_bind].
      rewrite BigEndian_Uint_take by (rewrite length_drop; lia). cbn [exec_bind].
      rewrite H4 by lia. discriminate.
Qed.

End WireExtras.

Lemma UpdateRequest_Decode_cut (r0 : Wire.UpdateRequest) (body : list byte) :
  Wire.GetMessageType body = Returns Wire.MessageTypeUpdateRequest ->
  (length body < 18)%nat ->
  Wire.UpdateRequest_Decode r0 body = Panics.
Proof.
  intros Hmt Hshort. pose proof (GetMessageType_inv _ _ Hmt) as [Hlen _].
  unfold Wire.UpdateRequest_Decode. rewrite Hmt. cbn [exec_bind].
  rewrite decide_False by (intros Hne; now apply Hne).
  unfold slice_from, slice_to, slice, BigEndian_Uint.
  rewrite decide_True by lia. cbn [exec_bind].
  destruct (decide (8 <= length (drop 2 body))%nat) as [H8|]; [|reflexivity].
  cbn [exec_bind]. rewrite decide_True by (rewrite length_take; lia).
  cbn [exec_bind].
  now rewrite decide_False by (rewrite length_drop; lia).
Qed.

(** ** The leader: requests that are not accepted, and what is not a request *)

Section LeaderExtras.
Context {S : Type} `{Datastore S}.
Import Leader.

Implicit Types n : LeaderNode S.

(** What [handleClientRequest] does with a well-formed request once
    [write] has returned. *)
Lemma handleClientRequest_after_write n c rid version data nv nd err n1 :
  is_u64 rid -> is_u64 version ->
  write version data [c] n = Returns ((nv, nd, err), n1) ->
  handleClientRequest c
    (Wire.UpdateRequest_Encode (Wire.mkUpdateRequest rid version data)) n
  = match clients n1 !! c with
    | None => Panics
    | Some conn =>
        Returns (tt,
          mkLeaderNode
            (<[c := snd (Conn_Write (response_frame (response_code err) rid nv nd) conn)]>
               (clients n1))
            (ds n1)
            ((fun ch => ch ++ [NewVersion nv nd]) <$> watchChannels n1))
    end.
Proof.
  intros Hrid Hv Hw.
  unfold handleClientRequest, bind, lift_exec.
  rewrite UpdateRequest_Encode_layout at 1.
  rewrite GetMessageType_put.
  rewrite decide_True by reflexivity.
  rewrite UpdateRequest_Decode_Encode by (split; assumption).
  cbn [Wire.req_Version Wire.req_Data Wire.req_RequestID].
  rewrite Hw. cbn [get].
  destruct (clients n1 !! c) as [conn|]; [|reflexivity].
  destruct n1 as [cs s ws]. destruct err as [e|]; reflexivity.
Qed.

(** X5. A request the leader does not accept. When the expected version
    is not the leader's, or when the [Put] fails, the requesting client
    gets one frame, the UpdateResponse with the request id, the code
    MismatchedVersion resp. WriteFailed, the leader's version [v] and no
    data; no other client is written to; every watcher is still handed a
    handle, for [(v, nil)]. *)
Theorem rejected_request_response n c conn rid version data v d s1 :
  is_u64 rid -> is_u64 version ->
  clients n !! c = Some conn ->
  ds_Get (ds n) = Returns ((v, d, None), s1) ->
  (version <> v ->
     handleClientRequest c
       (Wire.UpdateRequest_Encode (Wire.mkUpdateRequest rid version data)) n
     = Returns (tt,
         mkLeaderNode
           (<[c := snd (Conn_Write
                          (response_frame Wire.ResponseErrorMismatchedVersion rid v [])
                          conn)]> (clients n))
           s1
           ((fun ch => ch ++ [NewVersion v []]) <$> watchChannels n)))
  /\ (version = v ->
      forall e s2, ds_Put (uint64 (v + 1)) data s1 = Returns (Some e, s2) ->
        handleClientRequest c
          (Wire.UpdateRequest_Encode (Wire.mkUpdateRequest rid version data)) n
        = Returns (tt,
            mkLeaderNode
              (<[c := snd (Conn_Write
                             (response_frame Wire.ResponseErrorWriteFailed rid v [])
                             conn)]> (clients n))
              s2
              ((fun ch => ch ++ [NewVersion v []]) <$> watchChannels n))).
Proof.
  intros Hrid Hver Hc Hget. split.
  - intros Hne.
    assert (write version data [c] n
            = Returns ((v, [], Some ErrVersionMismatch),
                       mkLeaderNode (clients n) s1 (watchChannels n))) as Hw.
    { unfold write, Version, bind, with_ds. rewrite Hget. cbn.
      now rewrite decide_True. }
    rewrite (handleClientRequest_after_write _ _ _ _ _ _ _ _ _ Hrid Hver Hw).
    cbn [clients ds watchChannels]. rewrite Hc. reflexivity.
  - intros -> e s2 Hput.
    assert (write v data [c] n
            = Returns ((v, [], Some (ErrWrap "failed to put data" e)),
                       mkLeaderNode (clients n) s2 (watchChannels n))) as Hw.
    { unfold write, Version, bind, with_ds. rewrite Hget. cbn.
      rewrite decide_False by (intros Hne; now apply Hne). cbn.
      rewrite Hput. reflexivity. }
    rewrite (handleClientRequest_after_write _ _ _ _ _ _ _ _ _ Hrid Hver Hw).
    cbn [clients ds watchChannels]. rewrite Hc. reflexivity.
Qed.

(** X6. What is not an UpdateRequest is dropped: a body of two or more
    bytes with another tag leaves the node exactly as it was, whoever
    sent it. *)
Theorem other_frames_are_dropped n c (body : list byte) (mt : Z) :
  Wire.GetMessageType body = Returns mt ->
  mt <> Wire.MessageTypeUpdateRequest ->
  handleClientRequest c body n = Returns (tt, n).
Proof.
  intros Hmt Hne. unfold handleClientRequest, bind, lift_exec.
  rewrite Hmt. now rewrite decide_False.
Qed.

(** X7. What stops the serializer. [handleClientRequest] panics on a
    body of fewer than two bytes, on a request cut short inside its fixed
    fields, and, after [write] has run, on a request whose client is no
    longer in the client map. *)
Theorem serializer_panics n c (body : list byte) rid version data nv nd err n1 :
  ((length body < 2)%nat -> handleClientRequest c body n = Panics)
  /\ (Wire.GetMessageType body = Returns Wire.MessageTypeUpdateRequest ->
      (length body < 18)%nat -> handleClientRequest c body n = Panics)
  /\ (is_u64 rid -> is_u64 version ->
      write version data [c] n = Returns ((nv, nd, err), n1) ->
      clients n !! c = None ->
      handleClientRequest c
        (Wire.UpdateRequest_Encode (Wire.mkUpdateRequest rid version data)) n
      = Panics).
Proof.
  split; [|split].
  - intros Hshort. unfold handleClientRequest, bind, lift_exec.
    now rewrite GetMessageType_short.
  - intros Hmt Hshort. unfold handleClientRequest, bind, lift_exec.
    rewrite Hmt. rewrite decide_True by reflexivity.
    now rewrite UpdateRequest_Decode_cut.
  - intros Hrid Hver Hw Hc.
    rewrite (handleClientRequest_after_write _ _ _ _ _ _ _ _ _ Hrid Hver Hw).
    assert (clients n1 !! c = None) as ->; [|reflexivity].
    revert Hw. unfold write, Version, bind, with_ds.
    destruct (ds_Get (ds n)) as [[[[v d] [e|]] s1]|]; cbn; try discriminate.
    + intros Hw. injection Hw as <- <- <- <-. exact Hc.
    + destruct (decide (version <> v)); cbn.
      * intros Hw. injection Hw as <- <- <- <-. exact Hc.
      * destruct (ds_Put (uint64 (version + 1)) data s1) as [[[e|] s2]|];
          cbn; try discriminate.
        -- intros Hw. injection Hw as <- <- <- <-. exact Hc.
        -- destruct (decide (0 < size (clients n))%nat); cbn;
             intros Hw; injection Hw as <- <- <- <-; cbn [clients].
           ++ now rewrite lookup_broadcast, Hc.
           ++ exact Hc.
Qed.

End LeaderExtras.

(** ** The leader: order of requests, local writes, construction *)

Section LeaderOrder.
Context {S : Type} `{Datastore S}.
Import Leader.

Implicit Types n : LeaderNode S.

Lemma uint64_succ_ne (v : Z) : is_u64 v -> uint64 (v + 1) <> v.
Proof.
  unfold is_u64, uint64, wrap. intros Hv.
  destruct (Z_lt_dec (v + 1) (2 ^ 64)) as [Hlt|Hge].
  - rewrite Z.mod_small by lia. lia.
  - replace (v + 1) with (2 ^ 64) by lia. rewrite Z.mod_same by lia. lia.
Qed.

Lemma handleClientRequest_mismatch n c conn rid version data v d s1 :
  is_u64 rid -> is_u64 version ->
  clients n !! c = Some conn ->
  ds_Get (ds n) = Returns ((v, d, None), s1) -> version <> v ->
  handleClientRequest c
    (Wire.UpdateRequest_Encode (Wire.mkUpdateRequest rid version data)) n
  = Returns (tt,
      mkLeaderNode
        (<[c := snd (Conn_Write
                       (response_frame Wire.ResponseErrorMismatchedVersion rid v [])
                       conn)]> (clients n))
        s1
        ((fun ch => ch ++ [NewVersion v []]) <$> watchChannels n)).
Proof.
  intros Hrid Hver Hc Hget Hne.
  assert (write version data [c] n
          = Returns ((v, [], Some ErrVersionMismatch),
                     mkLeaderNode (clients n) s1 (watchChannels n))) as Hw.
  { unfold write, Version, bind, with_ds. rewrite Hget. cbn.
    now rewrite decide_True. }
  rewrite (handleClientRequest_after_write _ _ _ _ _ _ _ _ _ Hrid Hver Hw).
  cbn [clients ds watchChannels]. rewrite Hc. reflexivity.
Qed.

(** X8. Two clients ask for the same version. The request handled first
    is accepted; the second client gets the broadcast of the first's data
    and then, for its own request, MismatchedVersion with the new version:
    of two writes that expect the same version exactly one goes through. *)
Theorem first_request_wins n c1 c2 conn1 conn2 rid1 rid2 v d1 d2 d s1 s2 s3 :
  is_u64 rid1 -> is_u64 rid2 -> is_u64 v -> c1 <> c2 ->
  clients n !! c1 = Some conn1 -> clients n !! c2 = Some conn2 ->
  ds_Get (ds n) = Returns ((v, d, None), s1) ->
  ds_Put (uint64 (v + 1)) d1 s1 = Returns (None, s2) ->
  ds_Get s2 = Returns ((uint64 (v + 1), d1, None), s3) ->
  exists n',
    syncRequests
      [(c1, Wire.UpdateRequest_Encode (Wire.mkUpdateRequest rid1 v d1));
       (c2, Wire.UpdateRequest_Encode (Wire.mkUpdateRequest rid2 v d2))] n
    = Returns (tt, n')
    /\ ds n' = s3
    /\ clients n' !! c1
       = Some (snd (Conn_Write
                      (response_frame Wire.ResponseErrorNone rid1 (uint64 (v + 1)) d1)
                      conn1))
    /\ clients n' !! c2
       = Some (snd (Conn_Write
                      (response_frame Wire.ResponseErrorMismatchedVersion rid2
                         (uint64 (v + 1)) [])
                      (snd (Conn_Write (update_frame (uint64 (v + 1)) d1) conn2)))).
Proof.
  intros Hrid1 Hrid2 Hv Hc Hc1 Hc2 Hget Hput Hget2.
  cbn [syncRequests]. unfold bind at 1.
  rewrite (handleClientRequest_accepted n c1 conn1 rid1 v d1 d s1 s2
             Hrid1 Hv Hc1 Hget Hput).
  unfold bind at 1.
  set (cs1 := <[c1 := _]> (broadcast _ [c1] (clients n))).
  assert (cs1 !! c2 = Some (snd (Conn_Write (update_frame (uint64 (v + 1)) d1) conn2)))
    as Hc2'.
  { subst cs1. rewrite lookup_insert_ne by exact Hc.
    rewrite lookup_broadcast, Hc2. cbn.
    rewrite decide_False; [reflexivity|].
    intros Hin. apply list_elem_of_singleton in Hin. congruence. }
  rewrite (handleClientRequest_mismatch (mkLeaderNode cs1 s2 _) c2 _ rid2 v d2
             (uint64 (v + 1)) d1 s3 Hrid2 Hv Hc2' Hget2);
    [|intros Heq; now apply (uint64_succ_ne v)].
  eexists. split; [reflexivity|]. cbn [ds clients].
  split; [reflexivity|]. split.
  - rewrite lookup_insert_ne by congruence. subst cs1. apply lookup_insert_eq.
  - apply lookup_insert_eq.
Qed.

(** X9. After [NewLeaderNode] has made a leader on a free path, the path
    holds the socket, a listener is bound to it, the node has no clients,
    and another [NewLeaderNode] on the same path is refused with
    [ErrLeaderAlreadyExists] without touching its datastore. *)
Theorem second_leader_is_refused (socket : string) (ds0 ds1 ds2 : S) (os : OS) :
  fs os !! socket = None -> stat_fault os = None -> listen_fault os = None ->
  ds_Open ds0 = Returns (None, ds1) ->
  exists os',
    NewLeaderNode socket ds0 os
    = Returns (Some (mkLeaderNode ∅ ds1 []), None, ds1, os')
    /\ fs os' !! socket = Some SocketFile
    /\ socket ∈ listening os'
    /\ NewLeaderNode socket ds2 os'
       = Returns (None, Some ErrLeaderAlreadyExists, ds2, os').
Proof.
  intros Hfree Hstat Hlisten Hopen. eexists. split.
  - unfold NewLeaderNode, fileExists, os_Stat, net_Listen.
    rewrite Hstat, Hfree. cbn. rewrite Hopen, Hlisten. reflexivity.
  - cbn [fs listening]. split; [apply lookup_insert_eq|].
    split; [set_solver|].
    unfold NewLeaderNode, fileExists, os_Stat. cbn [stat_fault fs].
    rewrite ?Hstat, lookup_insert_eq. reflexivity.
Qed.

(** X10. A write made on the leader itself. An accepted [Write] sends the
    VersionUpdate to every client, none left out, hands nothing to the
    watchers, and [Version] and [Data] then give the new version and the
    data. *)
Theorem leader_local_write n data v d s1 s2 s3 :
  ds_Get (ds n) = Returns ((v, d, None), s1) ->
  ds_Put (uint64 (v + 1)) data s1 = Returns (None, s2) ->
  ds_Get s2 = Returns ((uint64 (v + 1), data, None), s3) ->
  exists n',
    Write v data n = Returns (None, n')
    /\ watchChannels n' = watchChannels n
    /\ (forall k ck, clients n !! k = Some ck ->
          clients n' !! k
          = Some (snd (Conn_Write (update_frame (uint64 (v + 1)) data) ck)))
    /\ (forall k, clients n !! k = None -> clients n' !! k = None)
    /\ returned (Version n') = Returns (uint64 (v + 1), None)
    /\ returned (Data n') = Returns (data, None).
Proof.
  intros Hget Hput Hget2.
  assert (write v data [] n
          = Returns ((uint64 (v + 1), data, None),
                     mkLeaderNode (after_broadcast (uint64 (v + 1)) data [] (clients n))
                       s2 (watchChannels n))) as Hw.
  { unfold write, Version, bind, with_ds. rewrite Hget. cbn.
    rewrite decide_False by (intros Hne; now apply Hne). cbn.
    rewrite Hput. cbn. unfold after_broadcast.
    destruct (decide (0 < size (clients n))%nat); reflexivity. }
  eexists. split; [unfold Write, bind; rewrite Hw; reflexivity|].
  cbn [watchChannels clients]. split; [reflexivity|]. split; [|split; [|split]].
  - intros k ck Hk.
    rewrite (after_broadcast_nonempty _ _ _ _ _ _ Hk), lookup_broadcast, Hk. cbn.
    rewrite decide_False; [reflexivity|]. apply not_elem_of_nil.
  - intros k Hk. unfold after_broadcast.
    destruct (decide (0 < size (clients n))%nat); [|exact Hk].
    now rewrite lookup_broadcast, Hk.
  - unfold Version, bind, with_ds. cbn [ds]. rewrite Hget2. reflexivity.
  - unfold Data, bind, with_ds. cbn [ds]. rewrite Hget2. reflexivity.
Qed.

(** X11. The clients have no say in a write: with the same datastore, two
    nodes return the same from [write] and leave the same datastore,
    whatever their client maps and whoever is excluded. A connection that
    is closed, or gone, does not undo or fail the write. *)
Theorem write_ignores_clients n1 n2 version data excl1 excl2 :
  ds n1 = ds n2 ->
  match write version data excl1 n1, write version data excl2 n2 with
  | Returns (r1, m1), Returns (r2, m2) => r1 = r2 /\ ds m1 = ds m2
  | Panics, Panics => True
  | _, _ => False
  end.
Proof.
  intros Hds. unfold write, Version, bind, with_ds. rewrite <- Hds.
  destruct (ds_Get (ds n1)) as [[[[v d] [e|]] s1]|]; cbn; auto.
  destruct (decide (version <> v)); cbn; auto.
  destruct (ds_Put (uint64 (version + 1)) data s1) as [[[e|] s2]|]; cbn; auto.
  destruct (decide (0 < size (clients n1))%nat),
           (decide (0 < size (clients n2))%nat); cbn; auto.
Qed.

End LeaderOrder.

(** ** The follower: incoming frames *)

Section FollowerExtras.
Context {S : Type} `{Datastore S}.
Import Follower.

Implicit Types n : FollowerNode S.

Lemma handleMessage_update n ver data :
  is_u64 ver ->
  handleMessage
    (Wire.VersionUpdateMessage_Encode (Wire.mkVersionUpdateMessage ver data)) n
  = match ds_Put ver data (ds n) with
    | Panics => Panics
    | Returns (Some _, s1) => Returns (tt, set_ds s1 n)
    | Returns (None, s1) =>
        if ready n
        then Returns (tt,
               mkFollowerNode s1 (server n) (requests n) (nextRequestID n)
                 (ready n) (readyChan n)
                 ((fun ch => ch ++ [NewVersion ver data]) <$> watchChannels n))
        else Returns (tt,
               mkFollowerNode s1 (server n) (requests n) (nextRequestID n)
                 true true (watchChannels n))
    end.
Proof.
  intros Hver. unfold handleMessage, bind, lift_exec.
  rewrite VersionUpdateMessage_Encode_layout at 1. rewrite GetMessageType_put.
  rewrite decide_False by discriminate. rewrite decide_True by reflexivity.
  rewrite VersionUpdateMessage_Decode_Encode by exact Hver.
  cbn [Wire.upd_Version Wire.upd_Data]. unfold with_ds.
  destruct (ds_Put ver data (ds n)) as [[[e|] s1]|]; [reflexivity| |reflexivity].
  cbn. destruct (ready n); reflexivity.
Qed.

(** X12. A VersionUpdate at the follower. The first one that is stored
    makes the node ready and releases the constructor, and tells no
    watcher; every later one is stored and handed to each watcher once. A
    VersionUpdate whose [Put] fails changes only the datastore: a
    bootstrap frame that cannot be stored leaves the node not ready. *)
Theorem follower_applies_update n ver data :
  is_u64 ver ->
  let body :=
    Wire.VersionUpdateMessage_Encode (Wire.mkVersionUpdateMessage ver data) in
  (forall s1, ds_Put ver data (ds n) = Returns (None, s1) -> ready n = false ->
     handleMessage body n
     = Returns (tt, mkFollowerNode s1 (server n) (requests n) (nextRequestID n)
                      true true (watchChannels n)))
  /\ (forall s1, ds_Put ver data (ds n) = Returns (None, s1) -> ready n = true ->
      handleMessage body n
      = Returns (tt, mkFollowerNode s1 (server n) (requests n) (nextRequestID n)
                       true (readyChan n)
                       ((fun ch => ch ++ [NewVersion ver data]) <$> watchChannels n)))
  /\ (forall e s1, ds_Put ver data (ds n) = Returns (Some e, s1) ->
      handleMessage body n = Returns (tt, set_ds s1 n)).
Proof.
  intros Hver body. subst body. rewrite (handleMessage_update n ver data Hver).
  split; [|split].
  - intros s1 -> ->. reflexivity.
  - intros s1 -> Hready. rewrite Hready. reflexivity.
  - intros e s1 ->. reflexivity.
Qed.

(** X13. An UpdateResponse at the follower goes to the slot registered
    under its request id and to no other; when no slot is registered under
    that id it is dropped and the node stays as it was. A frame that is
    neither an UpdateResponse nor a VersionUpdate is dropped as well. *)
Theorem follower_routes_response n (res : Wire.UpdateResponse)
  (body : list byte) (mt : Z) :
  Wire.wf_UpdateResponse res ->
  (forall ch, requests n !! Wire.res_RequestID res = Some ch ->
     exists n',
       handleMessage (Wire.UpdateResponse_Encode res) n = Returns (tt, n')
       /\ requests n' !! Wire.res_RequestID res = Some (ch ++ [res])
       /\ (forall k, k <> Wire.res_RequestID res -> requests n' !! k = requests n !! k)
       /\ ds n' = ds n /\ server n' = server n)
  /\ (requests n !! Wire.res_RequestID res = None ->
      handleMessage (Wire.UpdateResponse_Encode res) n = Returns (tt, n))
  /\ (Wire.GetMessageType body = Returns mt ->
      mt <> Wire.MessageTypeUpdateResponse -> mt <> Wire.MessageTypeVersionUpdate ->
      handleMessage body n = Returns (tt, n)).
Proof.
  intros Hwf. split; [|split].
  - intros ch Hch. rewrite (handleMessage_response n res Hwf), Hch.
    eexists. split; [reflexivity|]. cbn [requests ds server].
    split; [apply lookup_insert_eq|]. split; [|split; reflexivity].
    intros k Hk. now rewrite lookup_insert_ne.
  - intros Hnone. now rewrite (handleMessage_response n res Hwf), Hnone.
  - intros Hmt Hne1 Hne2. unfold handleMessage, bind, lift_exec. rewrite Hmt.
    now rewrite !decide_False.
Qed.

(** X14. Request ids are fresh. While every registered id lies below
    [nextRequestID], and that counter has not reached its last value,
    [Write] registers its slot under an id that has no slot yet, leaves the
    other slots alone, and keeps the ids below the counter. *)
Theorem request_ids_are_fresh n :
  ids_below n -> 0 <= nextRequestID n -> nextRequestID n + 1 < 2 ^ 64 ->
  exists n',
    Write_register n = Returns (nextRequestID n, n')
    /\ requests n !! nextRequestID n = None
    /\ requests n' !! nextRequestID n = Some []
    /\ (forall k, k <> nextRequestID n -> requests n' !! k = requests n !! k)
    /\ nextRequestID n' = nextRequestID n + 1
    /\ ids_below n'.
Proof.
  intros Hbelow Hpos Hmax. eexists. split; [apply Write_register_spec|].
  cbn [requests nextRequestID].
  assert (requests n !! nextRequestID n = None) as Hfresh.
  { destruct (requests n !! nextRequestID n) eqn:Hk; [|reflexivity].
    destruct (Hbelow (nextRequestID n)) as [_ Hlt]; [rewrite Hk; eauto|lia]. }
  assert (uint64 (nextRequestID n + 1) = nextRequestID n + 1) as Hnext
    by (apply uint64_small; unfold is_u64; lia).
  split; [exact Hfresh|]. split; [apply lookup_insert_eq|].
  split; [intros k Hk; now rewrite lookup_insert_ne|].
  split; [exact Hnext|].
  intros k Hk. cbn [requests nextRequestID] in *. rewrite Hnext.
  destruct (decide (k = nextRequestID n)) as [->|Hne]; [lia|].
  rewrite lookup_insert_ne in Hk by congruence.
  specialize (Hbelow k Hk). lia.
Qed.

End FollowerExtras.

(** ** A write forwarded by a follower, end to end *)

Section ForwardedWrite.
Context {SL SF : Type} `{Datastore SL} `{Datastore SF}.

(** X15. A follower and the leader hold version [v]. The follower's
    [Write] sends its request and registers the slot; the leader handles
    the body of that frame and accepts it; the follower's reader handles
    the body of the leader's answer, which lands in that slot; [Write]
    takes it from there and puts the data under the leader's new version.
    Afterwards both datastores have had [(v+1, data)] put into them and
    [Write] has returned nil. *)
Theorem forwarded_write
  (nF : Follower.FollowerNode SF) (nL : Leader.LeaderNode SL)
  (c : string) (conn : Conn) (v : Z) (data dF dL : list byte)
  (f1 f2 : SF) (s1 s2 : SL) :
  is_u64 v -> is_u64 (Follower.nextRequestID nF) ->
  closed (Follower.server nF) = false ->
  ds_Get (Follower.ds nF) = Returns ((v, dF, None), f1) ->
  ds_Put (uint64 (v + 1)) data f1 = Returns (None, f2) ->
  Leader.clients nL !! c = Some conn -> closed conn = false ->
  ds_Get (Leader.ds nL) = Returns ((v, dL, None), s1) ->
  ds_Put (uint64 (v + 1)) data s1 = Returns (None, s2) ->
  let id := Follower.nextRequestID nF in
  let request := Wire.UpdateRequest_Encode (Wire.mkUpdateRequest id v data) in
  let res := Wire.mkUpdateResponse Wire.ResponseErrorNone id (uint64 (v + 1)) data in
  let answer := Wire.UpdateResponse_Encode res in
  exists nF1 nF2 nL' nF3 nF4,
    Follower.Write_send v data nF = Returns (None, nF1)
    /\ sent (Follower.server nF1)
       = sent (Follower.server nF) ++ [Wire.PrependRequestLength request]
    /\ Follower.Write_register nF1 = Returns (id, nF2)
    /\ Leader.handleClientRequest c request nL = Returns (tt, nL')
    /\ (exists conn', Leader.clients nL' !! c = Some conn'
          /\ sent conn' = sent conn ++ [Wire.PrependRequestLength answer])
    /\ Leader.ds nL' = s2
    /\ Follower.handleMessage answer nF2 = Returns (tt, nF3)
    /\ Follower.requests nF3 !! id = Some [res]
    /\ Follower.Write_translate data res nF3 = Returns (None, nF4)
    /\ Follower.ds nF4 = f2.
Proof.
  intros Hv Hid Hopen HgetF HputF Hc Hconn HgetL HputL id request res answer.
  assert (is_u64 (uint64 (v + 1))) as Hv' by apply uint64_range.
  assert (Wire.wf_UpdateResponse res) as Hres.
  { split; [|split]; [change (is_i16 0); unfold is_i16; lia|exact Hid|exact Hv']. }
  do 5 eexists.
  split; [apply (Write_send_sent _ _ _ _ _ HgetF Hopen)|].
  cbn [Follower.server sent]. split; [reflexivity|].
  split; [rewrite Write_register_spec; reflexivity|].
  split; [apply (handleClientRequest_accepted nL c conn id v data dL s1 s2
                   Hid Hv Hc HgetL HputL)|].
  cbn [Leader.clients Leader.ds]. split.
  { eexists. split; [apply lookup_insert_eq|].
    rewrite Conn_Write_open by exact Hconn. reflexivity. }
  split; [reflexivity|].
  split; [rewrite (handleMessage_response _ res Hres); reflexivity|].
  cbn [Follower.requests Follower.nextRequestID Wire.res_RequestID res].
  rewrite lookup_insert_eq. cbn [Follower.requests].
  split; [apply lookup_insert_eq|].
  unfold Follower.Write_translate. cbn [Wire.res_Error Wire.res_Version res].
  rewrite decide_True by reflexivity.
  unfold Follower.with_ds. cbn [Follower.ds]. rewrite HputF.
  split; reflexivity.
Qed.

End ForwardedWrite.

(** ** The append-only log: one session, the file format, failures *)

Section AppendOnlyExtras.
Import AppendOnly.

Implicit Types bs data : list byte.

Local Abbreviation world path f fv o no bs flt :=
  (mkWorld (mkDatastore path f fv o no) (mkDisk (Some bs) flt)).

Local Abbreviation after_put fv n v d bs :=
  (write_at 0 (header fv n (n + Z.of_nat (length d)) v)
     (write_at (Z.to_nat (26 + n)) d bs)).


(** X17. The log only appends, on a store whose NextOffset [no] leaves
    room for the data below the signed range of the seek offset,
    [26 + no + len(data) < 2^63]: there [Put] succeeds when its writes do,
    does not shorten the file and leaves every byte of the data region
    below the old NextOffset as it was, so values put before stay where
    they are. Without the bound the seek of [Put] is refused and the
    write lands where the last read or write left the file position. *)
Theorem put_only_appends path f fv o no bs flt v data (q m : nat) :
  write_fault flt = None ->
  0 <= no -> 26 + no + Z.of_nat (length data) < 2 ^ 63 ->
  (26 <= q)%nat -> Z.of_nat (q + m) <= 26 + no -> (q + m <= length bs)%nat ->
  exists w1,
    Put v data (world path (Some f) fv o no bs flt) = Returns (None, w1)
    /\ (length bs <= length (bytes_of (disk w1)))%nat
    /\ take m (drop q (bytes_of (disk w1))) = take m (drop q bs).
Proof.
  intros Hwrite Hno Hfit Hq Hqm Hlen.
  eexists. split; [apply Put_spec; assumption|].
  cbn [disk bytes_of content default].
  destruct (after_put_length fv no v data bs Hno) as (_ & Hge & _).
  split; [exact Hge|].
  apply after_put_before; [exact Hno|exact Hq|lia|exact Hlen].
Qed.

(** Past the bound of X16 and X17: [Open] accepts the 26-byte file whose
    header has Offset 0 and NextOffset [2^63]; the seek of [Put] is to a
    negative offset and is refused, [Put] returns nil all the same, and
    the [Get] that follows fails. *)
Example put_past_the_seek_range :
  returned
    ((do e1 <- Open;
      do e2 <- Put 1 ["x"%byte];
      do r <- Get;
      ret (e1, e2, r))
       (closed_on "f" (Some (header 1 0 (2 ^ 63) 0))))
  = Returns (None, None, (0, [], Some (ErrWrap "failed to read data" EOF))).
Proof. vm_compute. reflexivity. Qed.

(** X18. The checks of [Open], on a file that holds a whole header block,
    in the order the code makes them: first the file version, then Offset
    against NextOffset, then Offset, converted to [int64], against the size
    of the file. *)
Theorem open_validation_order path fv o no bs flt (fvh oh nh vh : Z) :
  open_fault flt = None -> stat_fault flt = None -> read_fault flt = None ->
  is_u16 fv -> is_u16 fvh -> is_u64 oh -> is_u64 nh ->
  take 26 bs = header fvh oh nh vh ->
  let result :=
    returned (Open (mkWorld (mkDatastore path None fv o no) (mkDisk (Some bs) flt))) in
  (fvh <> fv -> result = Returns (Some ErrUnexpectedFileVersion))
  /\ (fvh = fv -> oh > nh -> result = Returns (Some ErrNextOffsetOutOfRange))
  /\ (fvh = fv -> oh <= nh -> int64 oh > Z.of_nat (length bs) ->
      result = Returns (Some ErrOffsetOutOfRange))
  /\ (fvh = fv -> oh <= nh -> int64 oh <= Z.of_nat (length bs) ->
      result = Returns None).
Proof.
  intros Hopen Hstat Hread Hfv Hfvh Hoh Hnh Hhdr result. subst result.
  rewrite (Open_checks path fv o no bs flt fvh oh nh vh) by assumption.
  split; [|split; [|split]].
  - intros Hne. now rewrite decide_True.
  - intros Heq Hgt. rewrite decide_False by (intros Hne; now apply Hne).
    now rewrite decide_True.
  - intros Heq Hle Hgt. rewrite decide_False by (intros Hne; now apply Hne).
    rewrite decide_False by lia. now rewrite decide_True.
  - intros Heq Hle Hsz. rewrite decide_False by (intros Hne; now apply Hne).
    rewrite decide_False by lia. now rewrite decide_False by lia.
Qed.


End AppendOnlyExtras.

Section AppendOnlyFailures.
Import AppendOnly.

Implicit Types w : World.

(** X20. A store opened on a file that is absent or empty is at version
    0 with no data: [Get] returns [(0, [], nil)], and the file is created
    empty. *)
Theorem fresh_store_reads_zero (path : string) (c : option (list byte)) :
  default [] c = [] ->
  exists w,
    open_get (closed_on path c) = Returns ((None, (0, [], None)), w)
    /\ content (disk w) = Some [].
Proof.
  intros Hc. unfold open_get, closed_on, NewDatastore.
  rewrite (bind_returns _ _ _ _ _ (Open_fresh path 1 0 0 c no_faults eq_refl eq_refl Hc)).
  eexists. split; reflexivity.
Qed.

Lemma keeps_open_ret {A} (a : A) : keeps_open (ret a).
Proof. intros w r w' Hrun Hopen. injection Hrun as <- <-. exact Hopen. Qed.

Lemma keeps_open_bind {A B} (c : M World A) (k : A -> M World B) :
  keeps_open c -> (forall a, keeps_open (k a)) -> keeps_open (bind c k).
Proof.
  intros Hc Hk w r w' Hrun Hopen. unfold bind in Hrun.
  destruct (c w) as [[a w1]|] eqn:Hcw; [|discriminate].
  eapply Hk; [exact Hrun|]. eapply Hc; eassumption.
Qed.

Lemma keeps_open_modify (g : World -> World) :
  (forall w, is_Some (file (aof w)) -> is_Some (file (aof (g w)))) ->
  keeps_open (modify g).
Proof. intros Hg w r w' Hrun Hopen. injection Hrun as <- <-. now apply Hg. Qed.

Lemma keeps_open_readHeaderField what a wd : keeps_open (readHeaderField what a wd).
Proof.
  unfold readHeaderField, file_Seek, file_Read.
  apply keeps_open_bind; [intros w r w' Hrun Ho; injection Hrun as <- <-; exact Ho|].
  intros w0. destruct (file (aof w0)); [|apply keeps_open_ret].
  apply keeps_open_bind.
  - apply keeps_open_bind; [intros w r w' Hrun Ho; injection Hrun as <- <-; exact Ho|].
    intros w1. destruct (file (aof w1)); [|apply keeps_open_ret].
    destruct (decide (0 <= a)); [|apply keeps_open_ret].
    apply keeps_open_modify. intros w _. cbn. eauto.
  - intros _. apply keeps_open_bind.
    + apply keeps_open_bind; [intros w r w' Hrun Ho; injection Hrun as <- <-; exact Ho|].
      intros w1. destruct (file (aof w1)); [|apply keeps_open_ret].
      destruct (read_fault (faults (disk w1))); [apply keeps_open_ret|].
      destruct (decide (Z.to_nat wd = 0%nat)); [apply keeps_open_ret|].
      destruct (decide _); [apply keeps_open_ret|].
      apply keeps_open_bind; [|intros _; apply keeps_open_ret].
      apply keeps_open_modify. intros w _. cbn. eauto.
    + intros [[bb cnt] [e|]]; [|apply keeps_open_ret].
      destruct (errors_Is e EOF); apply keeps_open_ret.
Qed.

(** X21. An [Open] that fails on what it reads leaves the file open.
    Once the file could be opened and sized, whatever [Open] returns, the
    store holds the handle; so after a failed [Open] a second [Open]
    returns nil at once, without reading the header again. *)
Theorem failed_open_leaves_store_open w r w' :
  file (aof w) = None ->
  open_fault (faults (disk w)) = None -> stat_fault (faults (disk w)) = None ->
  Open w = Returns (r, w') ->
  is_Some (file (aof w')) /\ Open w' = Returns (None, w').
Proof.
  intros Hclosed Hopen Hstat Hrun.
  assert (is_Some (file (aof w'))) as Hfile.
  { revert Hrun. unfold Open. rewrite (bind_returns _ _ _ _ _ eq_refl).
    rewrite Hclosed.
    assert (os_OpenFile w
            = Returns ((Some (mkFile 0), None),
                       mkWorld (aof w) (mkDisk (Some (bytes_of (disk w)))
                                          (faults (disk w))))) as H1
      by (unfold os_OpenFile, bind, get; cbn; rewrite Hopen; reflexivity).
    rewrite (bind_returns _ _ _ _ _ H1).
    assert (os_Stat (mkWorld (aof w) (mkDisk (Some (bytes_of (disk w)))
                                        (faults (disk w))))
            = Returns ((Z.of_nat (length (bytes_of (disk w))), None),
                       mkWorld (aof w) (mkDisk (Some (bytes_of (disk w)))
                                          (faults (disk w))))) as H2
      by (unfold os_Stat, bind, get; cbn; rewrite Hstat; reflexivity).
    rewrite (bind_returns _ _ _ _ _ H2).
    unfold set_file at 1. rewrite (bind_returns _ _ _ _ _ eq_refl).
    intros Hrun. revert Hrun.
    match goal with
    | |- ?tail ?w1 = _ -> _ =>
        assert (keeps_open tail) as Hkeeps; [|intros Hrun; eapply Hkeeps;
                                               [exact Hrun|cbn; eauto]]
    end.
    destruct (decide _); [apply keeps_open_ret|].
    apply keeps_open_bind; [apply keeps_open_readHeaderField|].
    intros [fv [e|]]; [apply keeps_open_ret|].
    destruct (decide _); [apply keeps_open_ret|].
    apply keeps_open_bind; [apply keeps_open_readHeaderField|].
    intros [o [e|]].
    { apply keeps_open_bind; [|intros _; apply keeps_open_ret].
      apply keeps_open_modify. intros w0 Ho. exact Ho. }
    apply keeps_open_bind; [apply keeps_open_modify; intros w0 Ho; exact Ho|].
    intros _.
    apply keeps_open_bind; [apply keeps_open_readHeaderField|].
    intros [no [e|]].
    { apply keeps_open_bind; [|intros _; apply keeps_open_ret].
      apply keeps_open_modify. intros w0 Ho. exact Ho. }
    apply keeps_open_bind; [apply keeps_open_modify; intros w0 Ho; exact Ho|].
    intros _.
    destruct (decide _); [apply keeps_open_ret|].
    destruct (decide _); apply keeps_open_ret. }
  split; [exact Hfile|].
  destruct Hfile as [f Hf]. unfold Open, bind, get. cbn. now rewrite Hf.
Qed.

Local Abbreviation world path f fv o no bs flt :=
  (mkWorld (mkDatastore path f fv o no) (mkDisk (Some bs) flt)).



End AppendOnlyFailures.

(** ** Handles: reading the current version and updating through it *)

Section Handles.
Context {S : Type} `{LawfulDatastore S}.

Local Abbreviation state_of nd := (State.mkState (Some nd)).

Lemma Current_leader (nd : Leader.LeaderNode S) v d s1 :
  ds_Get (Leader.ds nd) = Returns ((v, d, None), s1) ->
  State.Current (state_of nd)
  = Returns ((Some (NewVersion v d), None),
             state_of (Leader.mkLeaderNode (Leader.clients nd) s1
                         (Leader.watchChannels nd))).
Proof.
  intros Hget. pose proof (get_stable _ _ _ Hget) as Hget'.
  unfold State.Current, bind, State.with_n. cbn.
  unfold Leader.Version, Leader.Data, bind, Leader.with_ds. rewrite Hget. cbn.
  rewrite Hget'. reflexivity.
Qed.

Lemma Update_leader_accepted (nd : Leader.LeaderNode S) h data d s1 s2 :
  ds_Get (Leader.ds nd) = Returns ((ver_version h, d, None), s1) ->
  ds_Put (uint64 (ver_version h + 1)) data s1 = Returns (None, s2) ->
  Version_Update h data (state_of nd)
  = Returns (None,
             state_of (Leader.mkLeaderNode
                         (Leader.after_broadcast (uint64 (ver_version h + 1)) data []
                            (Leader.clients nd))
                         s2 (Leader.watchChannels nd))).
Proof.
  intros Hget Hput.
  unfold Version_Update, bind. cbn. unfold State.Write, State.with_n. cbn.
  unfold Leader.Write, bind.
  rewrite (write_accepted _ _ _ _ _ _ _ Hget Hput). reflexivity.
Qed.

Lemma Update_leader_stale (nd : Leader.LeaderNode S) h data v d s1 :
  ds_Get (Leader.ds nd) = Returns ((v, d, None), s1) ->
  ver_version h <> v ->
  Version_Update h data (state_of nd)
  = Returns (Some (ErrWrap "failed to write update" ErrVersionMismatch),
             state_of (Leader.mkLeaderNode (Leader.clients nd) s1
                         (Leader.watchChannels nd))).
Proof.
  intros Hget Hne.
  unfold Version_Update, bind. cbn. unfold State.Write, State.with_n. cbn.
  unfold Leader.Write, bind.
  rewrite (write_mismatch _ _ _ _ _ _ _ Hget Hne). reflexivity.
Qed.

(** X23. Read, then update, on a State whose node is the leader: [Current]
    gives a handle on the version and data of the datastore; [Update] on
    that handle returns nil, puts the data under the next version and
    sends the VersionUpdate to every client; [Current] then gives a handle
    on the next version and the new data. *)
Theorem current_then_update (nd : Leader.LeaderNode S) v d data s1 s2 :
  ds_Get (Leader.ds nd) = Returns ((v, d, None), s1) ->
  ds_Put (uint64 (v + 1)) data s1 = Returns (None, s2) ->
  exists st1 nd2 st3,
    State.Current (state_of nd) = Returns ((Some (NewVersion v d), None), st1)
    /\ Version_Update (NewVersion v d) data st1 = Returns (None, state_of nd2)
    /\ Leader.ds nd2 = s2
    /\ (forall k ck, Leader.clients nd !! k = Some ck ->
          Leader.clients nd2 !! k
          = Some (snd (Conn_Write (Leader.update_frame (uint64 (v + 1)) data) ck)))
    /\ State.Current (state_of nd2)
       = Returns ((Some (NewVersion (uint64 (v + 1)) data), None), st3).
Proof.
  intros Hget Hput.
  pose proof (get_stable _ _ _ Hget) as Hget'.
  destruct (put_get _ _ _ _ Hput) as [s3 Hget2].
  do 3 eexists.
  split; [apply (Current_leader _ _ _ _ Hget)|].
  split; [apply (Update_leader_accepted (Leader.mkLeaderNode _ s1 _) (NewVersion v d)
                  data d s1 s2 Hget' Hput)|].
  cbn [Leader.ds Leader.clients ver_version].
  split; [reflexivity|]. split.
  - intros k ck Hk.
    rewrite (after_broadcast_nonempty _ _ _ _ _ _ Hk), lookup_broadcast, Hk. cbn.
    rewrite decide_False; [reflexivity|]. apply not_elem_of_nil.
  - apply Current_leader. exact Hget2.
Qed.

(** X24. A handle is good for one update. Once [Update] on a handle has
    gone through, a second [Update] on the same handle (or on any handle
    read at the same version) returns an error that wraps
    [ErrVersionMismatch], sends nothing to any client, and leaves the
    version and data of the first update in place. *)
Theorem handle_is_single_use (nd : Leader.LeaderNode S) (h : Version)
  d data1 data2 s1 s2 :
  is_u64 (ver_version h) ->
  ds_Get (Leader.ds nd) = Returns ((ver_version h, d, None), s1) ->
  ds_Put (uint64 (ver_version h + 1)) data1 s1 = Returns (None, s2) ->
  exists nd1 nd2 err st3,
    Version_Update h data1 (state_of nd) = Returns (None, state_of nd1)
    /\ Version_Update h data2 (state_of nd1) = Returns (Some err, state_of nd2)
    /\ err = ErrWrap "failed to write update" ErrVersionMismatch
    /\ errors_Is err ErrVersionMismatch = true
    /\ Leader.clients nd2 = Leader.clients nd1
    /\ Leader.watchChannels nd2 = Leader.watchChannels nd
    /\ State.Current (state_of nd2)
       = Returns ((Some (NewVersion (uint64 (ver_version h + 1)) data1), None), st3).
Proof.
  intros Hv Hget Hput.
  destruct (put_get _ _ _ _ Hput) as [s3 Hget2].
  pose proof (get_stable _ _ _ Hget2) as Hget3.
  do 4 eexists.
  split; [apply (Update_leader_accepted _ h data1 d s1 s2 Hget Hput)|].
  split.
  { apply (Update_leader_stale _ h data2 (uint64 (ver_version h + 1)) data1 s3).
    - exact Hget2.
    - intros Heq. now apply (uint64_succ_ne (ver_version h)). }
  cbn [Leader.clients Leader.watchChannels].
  split; [reflexivity|]. split; [reflexivity|].
  split; [reflexivity|]. split; [reflexivity|].
  apply Current_leader. exact Hget3.
Qed.

End Handles.

(** ** A connecting client *)

Section Connections.
Context {SL SF : Type} `{Datastore SL} `{Datastore SF}.

Lemma handleConnection_open (nL : Leader.LeaderNode SL) id conn v d e s1 :
  ds_Get (Leader.ds nL) = Returns ((v, d, e), s1) -> closed conn = false ->
  Leader.handleConnection id conn nL
  = Returns (tt, Leader.mkLeaderNode
                   (<[id := mkConn (sent conn ++ [Leader.update_frame v d]) false]>
                      (Leader.clients nL))
                   s1 (Leader.watchChannels nL)).
Proof.
  intros Hget Hopen.
  unfold Leader.handleConnection, bind, Leader.with_ds. rewrite Hget. cbn.
  unfold Conn_Write. rewrite Hopen. reflexivity.
Qed.

(** X25. How a follower starts. For a connection it can write to, the
    leader's [handleConnection] sends one frame, the VersionUpdate of what
    its datastore's [Get] returned (also when [Get] reported an error),
    and registers the connection under the new id, leaving the other
    clients alone. The node [NewFollowerNode] has built, handling the body
    of that frame, puts that version and data into its own datastore and
    becomes ready, which releases [NewFollowerNode]; it has no watchers
    and no requests yet. *)
Theorem new_client_bootstrap (nL : Leader.LeaderNode SL) (id : string)
  (conn srv : Conn) (v : Z) (d : list byte) (e : option error) (s1 : SL)
  (f0 f1 : SF) :
  is_u64 v ->
  ds_Get (Leader.ds nL) = Returns ((v, d, e), s1) ->
  closed conn = false ->
  ds_Put v d f0 = Returns (None, f1) ->
  let body := Wire.VersionUpdateMessage_Encode (Wire.mkVersionUpdateMessage v d) in
  exists nL',
    Leader.handleConnection id conn nL = Returns (tt, nL')
    /\ Leader.clients nL' !! id
       = Some (mkConn (sent conn ++ [Wire.PrependRequestLength body]) false)
    /\ (forall k, k <> id -> Leader.clients nL' !! k = Leader.clients nL !! k)
    /\ Leader.ds nL' = s1
    /\ Follower.handleMessage body (Follower.NewFollowerNode_node f0 srv)
       = Returns (tt, Follower.mkFollowerNode f1 srv ∅ 1 true true []).
Proof.
  intros Hv Hget Hopen Hput body.
  eexists. split; [apply (handleConnection_open _ _ _ _ _ _ _ Hget Hopen)|].
  cbn [Leader.clients Leader.ds].
  split; [apply lookup_insert_eq|].
  split; [intros k Hk; apply lookup_insert_ne; congruence|].
  split; [reflexivity|].
  subst body. rewrite (handleMessage_update _ _ _ Hv).
  unfold Follower.NewFollowerNode_node. cbn [Follower.ds]. rewrite Hput. reflexivity.
Qed.

(** X26. What a connected client is sent, in order: first the state at
    the time it connected, then the update of the next accepted write. A
    connection that is already closed when [handleConnection] writes to it
    is not registered and the client map stays as it was. *)
Theorem client_sees_writes_in_order (nL : Leader.LeaderNode SL) (id : string)
  (conn : Conn) (v : Z) (d data : list byte) (s1 s2 s3 : SL) :
  ds_Get (Leader.ds nL) = Returns ((v, d, None), s1) ->
  ds_Get s1 = Returns ((v, d, None), s2) ->
  ds_Put (uint64 (v + 1)) data s2 = Returns (None, s3) ->
  (closed conn = false ->
   exists nL1 nL2,
     Leader.handleConnection id conn nL = Returns (tt, nL1)
     /\ Leader.Write v data nL1 = Returns (None, nL2)
     /\ Leader.clients nL2 !! id
        = Some (mkConn (sent conn ++ [Leader.update_frame v d;
                                      Leader.update_frame (uint64 (v + 1)) data])
                  false))
  /\ (closed conn = true ->
      Leader.handleConnection id conn nL
      = Returns (tt, Leader.mkLeaderNode (Leader.clients nL) s1
                       (Leader.watchChannels nL))).
Proof.
  intros Hget Hget' Hput. split.
  - intros Hopen. do 2 eexists.
    split; [apply (handleConnection_open _ _ _ _ _ _ _ Hget Hopen)|].
    split.
    + unfold Leader.Write, bind.
      rewrite (write_accepted _ data [] v d s2 s3) by (cbn [Leader.ds]; assumption).
      reflexivity.
    + cbn [Leader.clients].
      rewrite (after_broadcast_nonempty _ _ _ _ id _ (lookup_insert_eq _ _ _)).
      rewrite lookup_broadcast, lookup_insert_eq. cbn.
      rewrite decide_False by apply not_elem_of_nil.
      rewrite <- app_assoc. reflexivity.
  - intros Hclosed.
    unfold Leader.handleConnection, bind, Leader.with_ds. rewrite Hget. cbn.
    unfold Conn_Write. rewrite Hclosed. reflexivity.
Qed.

End Connections.

(** ** The leader on the append-only log *)

Section LeaderOnLog.

Implicit Types bs data : list byte.

Local Abbreviation log path f o no bs :=
  (AppendOnly.mkWorld (AppendOnly.mkDatastore path f 1 o no)
     (AppendOnly.mkDisk (Some bs) AppendOnly.no_faults)).

Local Abbreviation after_put n v d bs :=
  (AppendOnly.write_at 0 (AppendOnly.header 1 n (n + Z.of_nat (length d)) v)
     (AppendOnly.write_at (Z.to_nat (26 + n)) d bs)).





End LeaderOnLog.

(** ** Instances of the further properties *)

Lemma frame_round_trip_witness :
  Wire.GetMessageLength
    (Wire.PrependRequestLength ["a"%byte; "b"%byte] ++ ["c"%byte]) = Returns 2
  /\ drop (8 + 2) (Wire.PrependRequestLength ["a"%byte; "b"%byte] ++ ["c"%byte])
     = ["c"%byte].
Proof.
  assert (Z.of_nat (length ["a"%byte; "b"%byte]) < 2 ^ 63) as Hlen by (cbn; lia).
  destruct (frame_round_trip ["a"%byte; "b"%byte] ["c"%byte] Hlen) as (H1 & _ & H3).
  split; [exact H1|exact H3].
Defined.

Lemma decode_then_encode_witness :
  Wire.wf_UpdateRequest sample_request /\ Wire.wf_UpdateResponse sample_response.
Proof.
  destruct (decode_then_encode (Wire.UpdateRequest_Encode sample_request)
              Wire.UpdateRequest_zero sample_request
              Wire.UpdateResponse_zero sample_response
              Wire.VersionUpdateMessage_zero sample_update) as (Hq & _ & _).
  destruct (decode_then_encode (Wire.UpdateResponse_Encode sample_response)
              Wire.UpdateRequest_zero sample_request
              Wire.UpdateResponse_zero sample_response
              Wire.VersionUpdateMessage_zero sample_update) as (_ & Hs & _).
  split.
  - apply Hq. vm_compute. reflexivity.
  - apply Hs. vm_compute. reflexivity.
Defined.

Lemma rejected_request_response_witness :
  exists n',
    Leader.handleClientRequest "a"
      (Wire.UpdateRequest_Encode (Wire.mkUpdateRequest 1 5 ["t"%byte])) sample_leader
    = Returns (tt, n')
    /\ Leader.clients n' !! "a"
       = Some (mkConn [Leader.response_frame Wire.ResponseErrorMismatchedVersion 1 7 []]
                 false)
    /\ Leader.clients n' !! "b" = Some (mkConn [] false)
    /\ Leader.ds n' = Memory.mkDatastore 7 ["s"%byte].
Proof.
  assert (is_u64 1) as Hrid by (vm_compute; intuition congruence).
  assert (is_u64 5) as Hver by (vm_compute; intuition congruence).
  assert (Leader.clients sample_leader !! "a" = Some (mkConn [] false)) as Hc
    by reflexivity.
  assert (ds_Get (Leader.ds sample_leader)
          = Returns ((7, ["s"%byte], None), Leader.ds sample_leader)) as Hget
    by reflexivity.
  destruct (rejected_request_response sample_leader "a" _ 1 5 ["t"%byte] 7 _ _
              Hrid Hver Hc Hget) as [Hmis _].
  assert (5 <> 7) as Hne by discriminate.
  eexists. split; [exact (Hmis Hne)|].
  split; [reflexivity|]. split; reflexivity.
Defined.

Lemma other_frames_are_dropped_witness :
  Leader.handleClientRequest "a" (Wire.VersionUpdateMessage_Encode sample_update)
    sample_leader
  = Returns (tt, sample_leader).
Proof.
  assert (Wire.GetMessageType (Wire.VersionUpdateMessage_Encode sample_update)
          = Returns 4) as Hmt by (vm_compute; reflexivity).
  apply (other_frames_are_dropped sample_leader "a" _ 4 Hmt). discriminate.
Defined.

Lemma serializer_panics_witness :
  Leader.handleClientRequest "z"
    (Wire.UpdateRequest_Encode (Wire.mkUpdateRequest 1 7 ["t"%byte])) sample_leader
  = Panics.
Proof.
  assert (is_u64 1) as Hrid by (vm_compute; intuition congruence).
  assert (is_u64 7) as Hver by (vm_compute; intuition congruence).
  destruct (Leader.write 7 ["t"%byte] ["z"] sample_leader) as [[[[nv nd] err] n1]|] eqn:Hw;
    [|vm_compute in Hw; discriminate].
  destruct (serializer_panics sample_leader "z" [] 1 7 ["t"%byte] nv nd err n1)
    as (_ & _ & Hgone).
  apply Hgone; [exact Hrid|exact Hver|exact Hw|reflexivity].
Defined.

Lemma first_request_wins_witness :
  exists n',
    Leader.syncRequests
      [("a", Wire.UpdateRequest_Encode (Wire.mkUpdateRequest 1 7 ["t"%byte]));
       ("b", Wire.UpdateRequest_Encode (Wire.mkUpdateRequest 4 7 ["u"%byte]))]
      sample_leader
    = Returns (tt, n')
    /\ Leader.ds n' = Memory.mkDatastore 8 ["t"%byte]
    /\ Leader.clients n' !! "b"
       = Some (mkConn [Leader.update_frame 8 ["t"%byte];
                       Leader.response_frame Wire.ResponseErrorMismatchedVersion 4 8 []]
                 false).
Proof.
  assert (is_u64 1) as Hrid1 by (vm_compute; intuition congruence).
  assert (is_u64 4) as Hrid2 by (vm_compute; intuition congruence).
  assert (is_u64 7) as Hv by (vm_compute; intuition congruence).
  assert ("a" <> "b") as Hab by discriminate.
  assert (Leader.clients sample_leader !! "a" = Some (mkConn [] false)) as Ha
    by reflexivity.
  assert (Leader.clients sample_leader !! "b" = Some (mkConn [] false)) as Hb
    by reflexivity.
  assert (ds_Get (Leader.ds sample_leader)
          = Returns ((7, ["s"%byte], None), Leader.ds sample_leader)) as Hget
    by reflexivity.
  assert (ds_Put (uint64 (7 + 1)) ["t"%byte] (Leader.ds sample_leader)
          = Returns (None, Memory.mkDatastore 8 ["t"%byte])) as Hput
    by reflexivity.
  assert (ds_Get (Memory.mkDatastore 8 ["t"%byte])
          = Returns ((uint64 (7 + 1), ["t"%byte], None), Memory.mkDatastore 8 ["t"%byte]))
    as Hget2 by reflexivity.
  destruct (first_request_wins sample_leader "a" "b" _ _ 1 4 7 ["t"%byte] ["u"%byte]
              _ _ _ _ Hrid1 Hrid2 Hv Hab Ha Hb Hget Hput Hget2)
    as (n' & Hrun & Hds & _ & Hc2).
  exists n'. split; [exact Hrun|]. split; [exact Hds|]. rewrite Hc2. reflexivity.
Defined.

Lemma second_leader_is_refused_witness :
  exists node os',
    Leader.NewLeaderNode "/run/app/interstate.sock" Memory.NewDatastore sample_free_os
    = Returns (Some node, None, Memory.NewDatastore, os')
    /\ Leader.NewLeaderNode "/run/app/interstate.sock" Memory.NewDatastore os'
       = Returns (None, Some ErrLeaderAlreadyExists, Memory.NewDatastore, os').
Proof.
  assert (fs sample_free_os !! "/run/app/interstate.sock" = None) as Hfree
    by reflexivity.
  assert (ds_Open Memory.NewDatastore = Returns (None, Memory.NewDatastore)) as Hopen
    by reflexivity.
  destruct (second_leader_is_refused "/run/app/interstate.sock"
              Memory.NewDatastore Memory.NewDatastore Memory.NewDatastore
              sample_free_os Hfree eq_refl eq_refl Hopen)
    as (os' & Hfirst & _ & _ & Hsecond).
  eexists _, os'. split; [exact Hfirst|exact Hsecond].
Defined.

Lemma leader_local_write_witness :
  exists n',
    Leader.Write 7 ["t"%byte] sample_leader = Returns (None, n')
    /\ Leader.clients n' !! "a" = Some (mkConn [Leader.update_frame 8 ["t"%byte]] false)
    /\ Leader.clients n' !! "c" = Some (mkConn [] true)
    /\ returned (Leader.Version n') = Returns (8, None).
Proof.
  assert (ds_Get (Leader.ds sample_leader)
          = Returns ((7, ["s"%byte], None), Leader.ds sample_leader)) as Hget
    by reflexivity.
  assert (ds_Put (uint64 (7 + 1)) ["t"%byte] (Leader.ds sample_leader)
          = Returns (None, Memory.mkDatastore 8 ["t"%byte])) as Hput
    by reflexivity.
  assert (ds_Get (Memory.mkDatastore 8 ["t"%byte])
          = Returns ((uint64 (7 + 1), ["t"%byte], None), Memory.mkDatastore 8 ["t"%byte]))
    as Hget2 by reflexivity.
  destruct (leader_local_write sample_leader ["t"%byte] 7 _ _ _ _ Hget Hput Hget2)
    as (n' & Hrun & _ & Hall & _ & Hver & _).
  exists n'. split; [exact Hrun|].
  split; [rewrite (Hall "a" (mkConn [] false)); reflexivity|].
  split; [rewrite (Hall "c" (mkConn [] true)); reflexivity|exact Hver].
Defined.

Lemma write_ignores_clients_witness :
  returned (Leader.write 7 ["t"%byte] ["a"] sample_leader)
  = returned (Leader.write 7 ["t"%byte] []
                (Leader.mkLeaderNode ∅ (Memory.mkDatastore 7 ["s"%byte]) [])).
Proof.
  assert (Leader.ds sample_leader
          = Leader.ds (Leader.mkLeaderNode ∅ (Memory.mkDatastore 7 ["s"%byte]) []))
    as Hds by reflexivity.
  pose proof (write_ignores_clients sample_leader _ 7 ["t"%byte] ["a"] [] Hds) as Hsame.
  destruct (Leader.write 7 ["t"%byte] ["a"] sample_leader) as [[r1 m1]|];
    destruct (Leader.write 7 ["t"%byte] [] _) as [[r2 m2]|];
    try contradiction; [|reflexivity].
  destruct Hsame as [-> _]. reflexivity.
Defined.

Lemma follower_applies_update_witness :
  (exists n',
     Follower.handleMessage
       (Wire.VersionUpdateMessage_Encode (Wire.mkVersionUpdateMessage 7 ["s"%byte]))
       sample_new_follower
     = Returns (tt, n')
     /\ Follower.ready n' = true /\ Follower.readyChan n' = true
     /\ Follower.watchChannels n' = [[]]
     /\ Follower.ds n' = Memory.mkDatastore 7 ["s"%byte])
  /\ (exists n',
        Follower.handleMessage
          (Wire.VersionUpdateMessage_Encode (Wire.mkVersionUpdateMessage 8 ["t"%byte]))
          sample_waiting_follower
        = Returns (tt, n')
        /\ Follower.watchChannels n' = [[NewVersion 8 ["t"%byte]]]).
Proof.
  assert (is_u64 7) as H7 by (vm_compute; intuition congruence).
  assert (is_u64 8) as H8 by (vm_compute; intuition congruence).
  split.
  - destruct (follower_applies_update sample_new_follower 7 ["s"%byte] H7)
      as (Hfirst & _ & _).
    eexists. split; [apply (Hfirst (Memory.mkDatastore 7 ["s"%byte])); reflexivity|].
    repeat split.
  - destruct (follower_applies_update sample_waiting_follower 8 ["t"%byte] H8)
      as (_ & Hlater & _).
    eexists. split; [apply (Hlater (Memory.mkDatastore 8 ["t"%byte])); reflexivity|].
    reflexivity.
Defined.

Lemma follower_routes_response_witness :
  (exists n',
     Follower.handleMessage (Wire.UpdateResponse_Encode sample_response)
       sample_waiting_follower
     = Returns (tt, n')
     /\ Follower.requests n' !! 1 = Some [sample_response])
  /\ Follower.handleMessage (Wire.UpdateResponse_Encode sample_response) sample_follower
     = Returns (tt, sample_follower).
Proof.
  assert (Wire.wf_UpdateResponse sample_response) as Hwf
    by (vm_compute; intuition congruence).
  destruct (follower_routes_response sample_waiting_follower sample_response [] 0 Hwf)
    as (Hslot & _ & _).
  destruct (follower_routes_response sample_follower sample_response [] 0 Hwf)
    as (_ & Hdrop & _).
  split.
  - destruct (Hslot [] eq_refl) as (n' & Hrun & Hres & _).
    exists n'. split; [exact Hrun|exact Hres].
  - apply Hdrop. reflexivity.
Defined.

Lemma request_ids_are_fresh_witness :
  exists n',
    Follower.Write_register sample_waiting_follower = Returns (2, n')
    /\ Follower.requests n' !! 1 = Some []
    /\ Follower.requests n' !! 2 = Some []
    /\ Follower.nextRequestID n' = 3.
Proof.
  assert (Follower.ids_below sample_waiting_follower) as Hbelow.
  { intros k [ch Hk]. cbn in Hk.
    destruct (decide (k = 1)) as [->|Hne]; [cbn; lia|].
    rewrite lookup_insert_ne, lookup_empty in Hk by congruence. discriminate. }
  assert (0 <= Follower.nextRequestID sample_waiting_follower) as Hpos by (cbn; lia).
  assert (Follower.nextRequestID sample_waiting_follower + 1 < 2 ^ 64) as Hmax
    by (cbn; lia).
  destruct (request_ids_are_fresh sample_waiting_follower Hbelow Hpos Hmax)
    as (n' & Hrun & _ & Hnew & Hold & Hnext & _).
  exists n'. split; [exact Hrun|].
  split; [rewrite (Hold 1); [reflexivity|discriminate]|].
  split; [exact Hnew|exact Hnext].
Defined.

Lemma forwarded_write_witness :
  exists nF1 nF2 nL' nF3 nF4,
    Follower.Write_send 7 ["t"%byte] sample_follower = Returns (None, nF1)
    /\ Follower.Write_register nF1 = Returns (1, nF2)
    /\ Leader.handleClientRequest "a"
         (Wire.UpdateRequest_Encode (Wire.mkUpdateRequest 1 7 ["t"%byte])) sample_leader
       = Returns (tt, nL')
    /\ Leader.ds nL' = Memory.mkDatastore 8 ["t"%byte]
    /\ Follower.handleMessage
         (Wire.UpdateResponse_Encode
            (Wire.mkUpdateResponse Wire.ResponseErrorNone 1 8 ["t"%byte])) nF2
       = Returns (tt, nF3)
    /\ Follower.Write_translate ["t"%byte]
         (Wire.mkUpdateResponse Wire.ResponseErrorNone 1 8 ["t"%byte]) nF3
       = Returns (None, nF4)
    /\ Follower.ds nF4 = Memory.mkDatastore 8 ["t"%byte].
Proof.
  assert (is_u64 7) as Hv by (vm_compute; intuition congruence).
  assert (is_u64 (Follower.nextRequestID sample_follower)) as Hid
    by (vm_compute; intuition congruence).
  assert (closed (Follower.server sample_follower) = false) as Hopen by reflexivity.
  assert (ds_Get (Follower.ds sample_follower)
          = Returns ((7, ["s"%byte], None), Follower.ds sample_follower)) as HgetF
    by reflexivity.
  assert (ds_Put (uint64 (7 + 1)) ["t"%byte] (Follower.ds sample_follower)
          = Returns (None, Memory.mkDatastore 8 ["t"%byte])) as HputF by reflexivity.
  assert (Leader.clients sample_leader !! "a" = Some (mkConn [] false)) as Hc
    by reflexivity.
  assert (closed (mkConn [] false) = false) as Hconn by reflexivity.
  assert (ds_Get (Leader.ds sample_leader)
          = Returns ((7, ["s"%byte], None), Leader.ds sample_leader)) as HgetL
    by reflexivity.
  assert (ds_Put (uint64 (7 + 1)) ["t"%byte] (Leader.ds sample_leader)
          = Returns (None, Memory.mkDatastore 8 ["t"%byte])) as HputL by reflexivity.
  destruct (forwarded_write sample_follower sample_leader "a" _ 7 ["t"%byte] _ _ _ _ _ _
              Hv Hid Hopen HgetF HputF Hc Hconn HgetL HputL)
    as (nF1 & nF2 & nL' & nF3 & nF4 & H1 & _ & H3 & H4 & _ & H6 & H7 & _ & H9 & H10).
  exists nF1, nF2, nL', nF3, nF4.
  split; [exact H1|]. split; [exact H3|]. split; [exact H4|]. split; [exact H6|].
  split; [exact H7|]. split; [exact H9|exact H10].
Defined.


Lemma put_only_appends_witness :
  exists w1,
    AppendOnly.Put 8 ["x"%byte] sample_open_store = Returns (None, w1)
    /\ take 2 (drop 26 (AppendOnly.bytes_of (AppendOnly.disk w1)))
       = ["h"%byte; "i"%byte].
Proof.
  assert (0 <= 2) as Hno by lia.
  assert (26 + 2 + Z.of_nat (length ["x"%byte]) < 2 ^ 63) as Hfit by (cbn; lia).
  assert (26 <= 26)%nat as Hq by lia.
  assert (Z.of_nat (26 + 2) <= 26 + 2) as Hqm by lia.
  assert (26 + 2 <= length sample_store_file)%nat as Hlen by (vm_compute; lia).
  destruct (put_only_appends "/var/lib/app/state" (AppendOnly.mkFile 26) 1 0 2
              sample_store_file AppendOnly.no_faults 8 ["x"%byte] 26 2
              eq_refl Hno Hfit Hq Hqm Hlen)
    as (w1 & Hput & _ & Hkept).
  exists w1. split; [exact Hput|]. rewrite Hkept. reflexivity.
Defined.

Lemma open_validation_order_witness :
  returned (AppendOnly.Open (AppendOnly.closed_on "f" (Some sample_store_file)))
  = Returns None
  /\ returned (AppendOnly.Open
                 (AppendOnly.mkWorld (AppendOnly.mkDatastore "f" None 2 0 0)
                    (AppendOnly.mkDisk (Some sample_store_file) AppendOnly.no_faults)))
     = Returns (Some ErrUnexpectedFileVersion).
Proof.
  assert (is_u16 1) as H1 by (vm_compute; intuition congruence).
  assert (is_u16 2) as H2 by (vm_compute; intuition congruence).
  assert (is_u64 0) as Ho by (vm_compute; intuition congruence).
  assert (is_u64 2) as Hn by (vm_compute; intuition congruence).
  assert (take 26 sample_store_file = AppendOnly.header 1 0 2 7) as Hhdr
    by (vm_compute; reflexivity).
  split.
  - destruct (open_validation_order "f" 1 0 0 sample_store_file AppendOnly.no_faults
                1 0 2 7 eq_refl eq_refl eq_refl H1 H1 Ho Hn Hhdr) as (_ & _ & _ & Hok).
    apply Hok; [reflexivity|lia|vm_compute; discriminate].
  - destruct (open_validation_order "f" 2 0 0 sample_store_file AppendOnly.no_faults
                1 0 2 7 eq_refl eq_refl eq_refl H2 H1 Ho Hn Hhdr) as (Hbad & _).
    apply Hbad. discriminate.
Defined.


Lemma fresh_store_reads_zero_witness :
  exists w,
    AppendOnly.open_get (AppendOnly.closed_on "f" None)
    = Returns ((None, (0, [], None)), w).
Proof.
  destruct (fresh_store_reads_zero "f" None eq_refl) as (w & Hrun & _).
  exists w. exact Hrun.
Defined.

Lemma failed_open_leaves_store_open_witness :
  exists w',
    AppendOnly.Open (AppendOnly.closed_on "f" (Some test_file_version_5))
    = Returns (Some ErrUnexpectedFileVersion, w')
    /\ AppendOnly.Open w' = Returns (None, w').
Proof.
  destruct (AppendOnly.Open (AppendOnly.closed_on "f" (Some test_file_version_5)))
    as [[r w']|] eqn:Hrun; [|vm_compute in Hrun; discriminate].
  destruct (failed_open_leaves_store_open
              (AppendOnly.closed_on "f" (Some test_file_version_5)) r w'
              eq_refl eq_refl eq_refl Hrun)
    as [_ Hagain].
  exists w'. split; [|exact Hagain].
  vm_compute in Hrun. injection Hrun as <- <-. reflexivity.
Defined.


Lemma current_then_update_witness :
  exists st1 nd2 st3,
    State.Current (State.mkState (Some sample_leader))
    = Returns ((Some (NewVersion 7 ["s"%byte]), None), st1)
    /\ Version_Update (NewVersion 7 ["s"%byte]) ["t"%byte] st1
       = Returns (None, State.mkState (Some nd2))
    /\ Leader.ds nd2 = Memory.mkDatastore 8 ["t"%byte]
    /\ State.Current (State.mkState (Some nd2))
       = Returns ((Some (NewVersion 8 ["t"%byte]), None), st3).
Proof.
  assert (ds_Get (Leader.ds sample_leader)
          = Returns ((7, ["s"%byte], None), Leader.ds sample_leader)) as Hget
    by reflexivity.
  assert (ds_Put (uint64 (7 + 1)) ["t"%byte] (Leader.ds sample_leader)
          = Returns (None, Memory.mkDatastore 8 ["t"%byte])) as Hput
    by reflexivity.
  destruct (current_then_update sample_leader 7 _ ["t"%byte] _ _ Hget Hput)
    as (st1 & nd2 & st3 & Hcur & Hupd & Hds & _ & Hcur2).
  exists st1, nd2, st3. repeat split; assumption.
Defined.

Lemma handle_is_single_use_witness :
  exists nd1 nd2 err st3,
    Version_Update (NewVersion 7 ["s"%byte]) ["t"%byte]
      (State.mkState (Some sample_leader))
    = Returns (None, State.mkState (Some nd1))
    /\ Version_Update (NewVersion 7 ["s"%byte]) ["u"%byte] (State.mkState (Some nd1))
       = Returns (Some err, State.mkState (Some nd2))
    /\ errors_Is err ErrVersionMismatch = true
    /\ Leader.clients nd2 = Leader.clients nd1
    /\ State.Current (State.mkState (Some nd2))
       = Returns ((Some (NewVersion 8 ["t"%byte]), None), st3).
Proof.
  assert (is_u64 (ver_version (NewVersion 7 ["s"%byte]))) as Hv
    by (vm_compute; intuition congruence).
  assert (ds_Get (Leader.ds sample_leader)
          = Returns ((ver_version (NewVersion 7 ["s"%byte]), ["s"%byte], None),
                     Leader.ds sample_leader)) as Hget
    by reflexivity.
  assert (ds_Put (uint64 (ver_version (NewVersion 7 ["s"%byte]) + 1)) ["t"%byte]
            (Leader.ds sample_leader)
          = Returns (None, Memory.mkDatastore 8 ["t"%byte])) as Hput
    by reflexivity.
  destruct (handle_is_single_use sample_leader (NewVersion 7 ["s"%byte])
              _ ["t"%byte] ["u"%byte] _ _ Hv Hget Hput)
    as (nd1 & nd2 & err & st3 & Hu1 & Hu2 & _ & HLis & Hcs & _ & Hcur).
  exists nd1, nd2, err, st3. repeat split; assumption.
Defined.

Lemma new_client_bootstrap_witness :
  exists nL',
    Leader.handleConnection "d" (mkConn [] false) sample_leader = Returns (tt, nL')
    /\ Leader.clients nL' !! "d"
       = Some (mkConn [Leader.update_frame 7 ["s"%byte]] false)
    /\ Follower.handleMessage
         (Wire.VersionUpdateMessage_Encode (Wire.mkVersionUpdateMessage 7 ["s"%byte]))
         (Follower.NewFollowerNode_node Memory.NewDatastore (mkConn [] false))
       = Returns (tt, Follower.mkFollowerNode (Memory.mkDatastore 7 ["s"%byte])
                        (mkConn [] false) ∅ 1 true true []).
Proof.
  assert (is_u64 7) as Hv by (vm_compute; intuition congruence).
  assert (ds_Get (Leader.ds sample_leader)
          = Returns ((7, ["s"%byte], None), Leader.ds sample_leader)) as Hget
    by reflexivity.
  assert (closed (mkConn [] false) = false) as Hopen by reflexivity.
  assert (ds_Put 7 ["s"%byte] Memory.NewDatastore
          = Returns (None, Memory.mkDatastore 7 ["s"%byte])) as Hput by reflexivity.
  destruct (new_client_bootstrap sample_leader "d" (mkConn [] false) (mkConn [] false)
              7 _ _ _ _ _ Hv Hget Hopen Hput)
    as (nL' & Hrun & Hd & _ & _ & Hmsg).
  exists nL'. split; [exact Hrun|]. split; [exact Hd|exact Hmsg].
Defined.

Lemma client_sees_writes_in_order_witness :
  exists nL1 nL2,
    Leader.handleConnection "d" (mkConn [] false) sample_leader = Returns (tt, nL1)
    /\ Leader.Write 7 ["t"%byte] nL1 = Returns (None, nL2)
    /\ Leader.clients nL2 !! "d"
       = Some (mkConn [Leader.update_frame 7 ["s"%byte];
                       Leader.update_frame 8 ["t"%byte]] false).
Proof.
  assert (ds_Get (Leader.ds sample_leader)
          = Returns ((7, ["s"%byte], None), Leader.ds sample_leader)) as Hget
    by reflexivity.
  assert (ds_Put (uint64 (7 + 1)) ["t"%byte] (Leader.ds sample_leader)
          = Returns (None, Memory.mkDatastore 8 ["t"%byte])) as Hput
    by reflexivity.
  destruct (client_sees_writes_in_order sample_leader "d" (mkConn [] false)
              7 _ ["t"%byte] _ _ _ Hget Hget Hput) as [Hopen _].
  destruct (Hopen eq_refl) as (nL1 & nL2 & H1 & H2 & H3).
  exists nL1, nL2. repeat split; assumption.
Defined.


Lemma decoder_panics_iff_short_witness :
  Wire.UpdateRequest_Decode Wire.UpdateRequest_zero
    (take 17 (Wire.UpdateRequest_Encode sample_request)) = Panics
  /\ Wire.UpdateResponse_Decode Wire.UpdateResponse_zero
       (take 17 (Wire.UpdateRequest_Encode sample_request)) <> Panics.
Proof.
  assert (2 <= length (take 17 (Wire.UpdateRequest_Encode sample_request)))%nat as Hlen
    by (vm_compute; lia).
  destruct (decoder_panics_iff_short _ Wire.UpdateRequest_zero Wire.UpdateResponse_zero
              Wire.VersionUpdateMessage_zero Hlen) as ([_ Hreq] & [Hres _] & _).
  split.
  - apply Hreq. split; [vm_compute; reflexivity|vm_compute; lia].
  - intros Hp. destruct (Hres Hp) as [Htag _]. vm_compute in Htag. discriminate.
Defined.
